(** * Dose calculators: a shallow embedding of the calculation code

    The repository is a set of React form components.  Each one reads its
    inputs from component state (numbers for the initial values, strings once
    the user has typed into a field), parses them with the ECMAScript
    built-ins [parseFloat] / [parseInt], applies a fixed formula and stores a
    result record while reporting problems through [toast.error].

    Numbers are IEEE-754 binary64 values, exactly as in ECMAScript: they are
    embedded as Rocq's primitive floats.  The built-ins the components call
    ([parseFloat], [parseInt], [Math.round], [Math.min], ...) are embedded in
    module [JS] following ECMA-262.  [Math.log10], [Math.pow] and [Date] are
    implementation-approximated or environment-dependent in ECMA-262 and are
    taken as parameters of the code that calls them.

    An object literal used as a table is a list of its own properties;
    [table[key]] also finds the members inherited from [Object.prototype]
    ([getProperty]).  Where a property is about the size of a rounding
    error, the error of a binary64 product or quotient is derived from the
    specification of the operations ([SpecFloat], module [RoundingError]). *)

From Stdlib Require Import ZArith NArith List String Ascii Bool Lia.
From Stdlib Require Import DecimalString.
From Stdlib Require Import Floats.
From Stdlib Require Import Reals Lra.
Import ListNotations.
Local Open Scope string_scope.
Set Warnings "-inexact-float".

(* ================================================================== *)
(** * ECMAScript values and built-ins *)
(* ================================================================== *)

Module JS.

(** The values held by the components' state and passed to the helpers.
    Strings are Rocq strings: sequences of code units in U+0000..U+00FF. *)
Inductive value : Type :=
| VUndefined
| VNull
| VNum (n : float)
| VStr (s : string).

Definition NaN : float := nan.

Definition signed (neg : bool) (x : float) : float :=
  if neg then (- x)%float else x.

(** ** Reading numeric literals (ECMA-262, StringNumericLiteral) *)

(** WhiteSpace and LineTerminator code units below U+0100. *)
Definition isStrWhiteSpaceChar (c : ascii) : bool :=
  let n := N_of_ascii c in
  (((9 <=? n) && (n <=? 13)) || (n =? 32) || (n =? 160))%N.

Fixpoint trimStart (s : string) : string :=
  match s with
  | String c s' => if isStrWhiteSpaceChar c then trimStart s' else s
  | EmptyString => EmptyString
  end.

Fixpoint trimEnd (s : string) : string :=
  match s with
  | EmptyString => EmptyString
  | String c s' =>
      match trimEnd s' with
      | EmptyString => if isStrWhiteSpaceChar c then EmptyString else String c EmptyString
      | t => String c t
      end
  end.

Definition trim (s : string) : string := trimEnd (trimStart s).

(** Value of a digit in the given radix (2..36), if it is one. *)
Definition digitValue (radix : N) (c : ascii) : option N :=
  let n := N_of_ascii c in
  let v :=
    if ((48 <=? n) && (n <=? 57))%N then Some (n - 48)%N
    else if ((97 <=? n) && (n <=? 122))%N then Some (n - 87)%N
    else if ((65 <=? n) && (n <=? 90))%N then Some (n - 55)%N
    else None in
  match v with
  | Some d => if (d <? radix)%N then Some d else None
  | None => None
  end.

(** Longest run of digits: accumulated value, number of digits read, rest. *)
Fixpoint readDigits (radix : N) (s : string) (acc cnt : N) : N * N * string :=
  match s with
  | String c s' =>
      match digitValue radix c with
      | Some d => readDigits radix s' (acc * radix + d)%N (cnt + 1)%N
      | None => (acc, cnt, s)
      end
  | EmptyString => (acc, cnt, s)
  end.

Definition readSign (s : string) : bool * string :=
  match s with
  | String "+"%char t => (false, t)
  | String "-"%char t => (true, t)
  | _ => (false, s)
  end.

Fixpoint stripPrefix (p s : string) : option string :=
  match p, s with
  | EmptyString, _ => Some s
  | String a p', String b s' => if Ascii.eqb a b then stripPrefix p' s' else None
  | String _ _, EmptyString => None
  end.

(** A StrUnsignedDecimalLiteral: [Infinity], or the digits [m] scaled by
    [10 ^ e]. *)
Inductive literal : Type :=
| LitInfinity
| LitDecimal (m : N) (e : Z).

(** ExponentPart, when one is present; otherwise nothing is consumed. *)
Definition readExponent (s : string) : Z * string :=
  match s with
  | String c s1 =>
      if (Ascii.eqb c "e" || Ascii.eqb c "E")%bool then
        let '(neg, s2) := readSign s1 in
        let '(v, cnt, rest) := readDigits 10 s2 0 0 in
        if (cnt =? 0)%N then (0%Z, s)
        else ((if neg then - Z.of_N v else Z.of_N v)%Z, rest)
      else (0%Z, s)
  | EmptyString => (0%Z, s)
  end.

(** Longest prefix of [s] that is a StrUnsignedDecimalLiteral. *)
Definition readUnsignedDecimal (s : string) : option (literal * string) :=
  match stripPrefix "Infinity" s with
  | Some rest => Some (LitInfinity, rest)
  | None =>
      let '(i, ni, s1) := readDigits 10 s 0 0 in
      match s1 with
      | String "."%char s2 =>
          let '(m, nf, s3) := readDigits 10 s2 i 0 in
          if ((ni =? 0) && (nf =? 0))%N then None
          else
            let '(e, rest) := readExponent s3 in
            Some (LitDecimal m (e - Z.of_N nf), rest)
      | _ =>
          if (ni =? 0)%N then None
          else
            let '(e, rest) := readExponent s1 in
            Some (LitDecimal i e, rest)
      end
  end.

Definition readDecimal (s : string) : option (bool * literal * string) :=
  let '(neg, s1) := readSign s in
  match readUnsignedDecimal s1 with
  | Some (l, rest) => Some (neg, l, rest)
  | None => None
  end.

(** The Number value of the integer [z]: [z] rounded to nearest, ties to
    even. *)
Definition integerToNumber (z : Z) : float :=
  SF2Prim (binary_normalize prec emax z 0 false).

(** The Number value of [m * 10 ^ e] (rounded to nearest, ties to even).  The
    two guards only avoid building powers of ten far outside the binary64
    range: above [10 ^ 400] every value rounds to infinity, below
    [10 ^ -400] to zero. *)
Definition decimalToNumber (m : N) (e : Z) : float :=
  match m with
  | N0 => zero
  | Npos p =>
      if (400 <? e)%Z then infinity
      else if (e + Z.log2 (Zpos p) + 1 <? -400)%Z then zero
      else if (0 <=? e)%Z then integerToNumber (Zpos p * 10 ^ e)
      else SF2Prim (SFdiv prec emax
                      (S754_finite false p 0)
                      (S754_finite false (Z.to_pos (10 ^ (- e))) 0))
  end.

Definition literalValue (l : literal) : float :=
  match l with
  | LitInfinity => infinity
  | LitDecimal m e => decimalToNumber m e
  end.

(** NonDecimalIntegerLiteral: [0x], [0o], [0b] followed by digits only. *)
Definition readNonDecimal (s : string) : option float :=
  match s with
  | String "0"%char (String c t) =>
      let radix :=
        if (Ascii.eqb c "x" || Ascii.eqb c "X")%bool then Some 16%N
        else if (Ascii.eqb c "o" || Ascii.eqb c "O")%bool then Some 8%N
        else if (Ascii.eqb c "b" || Ascii.eqb c "B")%bool then Some 2%N
        else None in
      match radix with
      | Some r =>
          match readDigits r t 0 0 with
          | (v, cnt, EmptyString) =>
              if (cnt =? 0)%N then None else Some (integerToNumber (Z.of_N v))
          | _ => None
          end
      | None => None
      end
  | _ => None
  end.

(** StringToNumber: the whole trimmed string must be a numeric literal; the
    empty string is [0]. *)
Definition StringToNumber (s : string) : float :=
  match trim s with
  | EmptyString => zero
  | t =>
      match readNonDecimal t with
      | Some f => f
      | None =>
          match readDecimal t with
          | Some (neg, l, EmptyString) => signed neg (literalValue l)
          | _ => NaN
          end
      end
  end.

(** [parseFloat] on a string: the longest prefix that is a decimal literal,
    after leading white space. *)
Definition parseFloatString (s : string) : float :=
  match readDecimal (trimStart s) with
  | Some (neg, l, _) => signed neg (literalValue l)
  | None => NaN
  end.

(** [parseInt] on a string, with no radix argument. *)
Definition parseIntString (s : string) : float :=
  let '(neg, t1) := readSign (trimStart s) in
  let '(radix, t2) :=
    match t1 with
    | String "0"%char (String c t') =>
        if (Ascii.eqb c "x" || Ascii.eqb c "X")%bool then (16%N, t') else (10%N, t1)
    | _ => (10%N, t1)
    end in
  let '(v, cnt, _) := readDigits radix t2 0 0 in
  if (cnt =? 0)%N then NaN else signed neg (integerToNumber (Z.of_N v)).

(** ** Number::toString (ECMA-262 6.1.6.1.20, radix 10) *)

Definition cdiv (a b : Z) : Z := (- ((- a) / b))%Z.

(** The shortest decimal that reads back as the float [m * 2 ^ e]: the largest
    [p] such that some multiple [t * 10 ^ p] lies in the rounding interval of
    the float, with [t] the multiple closest to the float (the even one on a
    tie).  The interval is given in units of [2 ^ g] by its ends [Lq], [Hq]
    (included when [incl]) and the float itself is [Vq]. *)
Fixpoint shortestFrom (fuel : nat) (p : Z) (Lq Vq Hq : Z) (incl : bool) (g : Z)
  : Z * Z :=
  let num := (2 ^ Z.max g 0 * 10 ^ Z.max (- p) 0)%Z in
  let den := (2 ^ Z.max (- g) 0 * 10 ^ Z.max p 0)%Z in
  let tlo :=
    let t := cdiv (Lq * num) den in
    if (incl || negb (t * den =? Lq * num)%Z)%bool then t else (t + 1)%Z in
  let thi :=
    let t := (Hq * num / den)%Z in
    if (incl || negb (t * den =? Hq * num)%Z)%bool then t else (t - 1)%Z in
  if (tlo <=? thi)%Z then
    let a := (Vq * num / den)%Z in
    let b := cdiv (Vq * num) den in
    let da := (Vq * num - a * den)%Z in
    let db := (b * den - Vq * num)%Z in
    let t :=
      if ((tlo <=? a) && (b <=? thi))%Z then
        if (da <? db)%Z then a
        else if (db <? da)%Z then b
        else if Z.even a then a else b
      else if (tlo <=? a)%Z then a else b in
    (t, p)
  else
    match fuel with
    | O => (0%Z, p)
    | S fuel' => shortestFrom fuel' (p - 1) Lq Vq Hq incl g
    end.

(** The integers [s] and [p] with [s * 10 ^ p] the shortest decimal of the
    positive float [m * 2 ^ e].  The float is below [2 ^ L], hence below
    [10 ^ p0], and a decimal of 17 digits always reads back as the float, so
    that the search ends within 40 steps. *)
Definition shortestDecimal (m : positive) (e : Z) : Z * Z :=
  let boundary := (Pos.eqb m (2 ^ 52) && (-1074 <? e)%Z)%bool in
  let Vq := (4 * Zpos m)%Z in
  let Lq := if boundary then (Vq - 1)%Z else (Vq - 2)%Z in
  let Hq := (Vq + 2)%Z in
  let L := (e + Z.log2 (Zpos m) + 1)%Z in
  let p0 := (L * 30103 / 100000 + 2)%Z in
  shortestFrom 40 p0 Lq Vq Hq (Z.even (Zpos m)) (e - 2).

Definition digitsOf (z : Z) : string :=
  NilZero.string_of_uint (N.to_uint (Z.to_N z)).

Fixpoint zeros (n : nat) : string :=
  match n with
  | O => EmptyString
  | S n' => String "0" (zeros n')
  end.

Definition positiveToString (m : positive) (e : Z) : string :=
  let '(s, p) := shortestDecimal m e in
  let ds := digitsOf s in
  let k := Z.of_nat (String.length ds) in
  let n := (k + p)%Z in
  if ((k <=? n) && (n <=? 21))%Z then
    ds ++ zeros (Z.to_nat (n - k))
  else if ((0 <? n) && (n <=? 21))%Z then
    substring 0 (Z.to_nat n) ds ++ "." ++ substring (Z.to_nat n) (Z.to_nat (k - n)) ds
  else if ((-6 <? n) && (n <=? 0))%Z then
    "0." ++ zeros (Z.to_nat (- n)) ++ ds
  else
    let ex := ((if (0 <=? n - 1)%Z then "+" else "-") ++ digitsOf (Z.abs (n - 1)))%string in
    if (k =? 1)%Z then ds ++ "e" ++ ex
    else substring 0 1 ds ++ "." ++ substring 1 (Z.to_nat (k - 1)) ds ++ "e" ++ ex.

Definition Number_toString (x : float) : string :=
  match Prim2SF x with
  | S754_nan => "NaN"
  | S754_zero _ => "0"
  | S754_infinity s => if s then "-Infinity" else "Infinity"
  | S754_finite s m e => (if s then "-" else "") ++ positiveToString m e
  end.

(** ** Conversions *)

Definition ToString (v : value) : string :=
  match v with
  | VUndefined => "undefined"
  | VNull => "null"
  | VNum n => Number_toString n
  | VStr s => s
  end.

Definition ToNumber (v : value) : float :=
  match v with
  | VUndefined => NaN
  | VNull => zero
  | VNum n => n
  | VStr s => StringToNumber s
  end.

(** ToBoolean: what [!v], [v || d] and [if (v)] test. *)
Definition truthyNum (n : float) : bool := negb (is_nan n || is_zero n).

Definition truthy (v : value) : bool :=
  match v with
  | VUndefined | VNull => false
  | VNum n => truthyNum n
  | VStr s => negb (String.eqb s "")
  end.

(** [v || d] *)
Definition orElse (v d : value) : value := if truthy v then v else d.

(** [n || d] on numbers *)
Definition orElseNum (n d : float) : float := if truthyNum n then n else d.

(** The global functions: the argument is first converted to a string. *)
Definition parseFloat (v : value) : float := parseFloatString (ToString v).
Definition parseInt (v : value) : float := parseIntString (ToString v).
Definition isNaN (v : value) : bool := is_nan (ToNumber v).

(** ** Math *)

(** [Math.round]: the nearest integer, ties towards +Infinity; the sign of
    zero results follows the argument. *)
Definition Math_round (x : float) : float :=
  match Prim2SF x with
  | S754_finite s m e =>
      if (0 <=? e)%Z then x
      else
        let z := if s then Zneg m else Zpos m in
        let q := ((2 * z + 2 ^ (- e)) / 2 ^ (1 - e))%Z in
        if (q =? 0)%Z then (if s then neg_zero else zero) else integerToNumber q
  | _ => x
  end.

Definition Math_min (a b : float) : float :=
  if (is_nan a || is_nan b)%bool then NaN
  else if (a <? b)%float then a
  else if (b <? a)%float then b
  else if get_sign a then a else b.

Definition Math_max (a b : float) : float :=
  if (is_nan a || is_nan b)%bool then NaN
  else if (a <? b)%float then b
  else if (b <? a)%float then a
  else if get_sign a then b else a.

(** ** Strict equality and [Number.prototype.toFixed] *)

(** [a === b]: numbers are compared as numbers ([NaN] differs from itself,
    [0] equals [-0]), strings by their characters; values of different types
    differ. *)
Definition strictEq (a b : value) : bool :=
  match a, b with
  | VUndefined, VUndefined => true
  | VNull, VNull => true
  | VNum x, VNum y => (x =? y)%float
  | VStr s, VStr t => String.eqb s t
  | _, _ => false
  end.

(** [x.toFixed(f)] (ECMA-262 21.1.3.3): the integer [n] with [n / 10 ^ f]
    closest to the magnitude of [x], the larger one on a tie, written with
    [f] digits after the point; from [10 ^ 21] on, the result of
    [Number::toString]. *)
Definition Number_toFixed (x : float) (f : nat) : string :=
  match Prim2SF x with
  | S754_finite s m e =>
      if (1e21 <=? abs x)%float then Number_toString x
      else
        let scaled := (Zpos m * 10 ^ Z.of_nat f)%Z in
        let n :=
          if (0 <=? e)%Z then (scaled * 2 ^ e)%Z
          else ((2 * scaled + 2 ^ (- e)) / 2 ^ (1 - e))%Z in
        let ds := digitsOf n in
        let ds := zeros (f + 1 - String.length ds) ++ ds in
        let k := String.length ds in
        (if s then "-" else "")
        ++ (if Nat.eqb f 0 then ds
            else substring 0 (k - f) ds ++ "." ++ substring (k - f) f ds)
  | S754_zero _ => if Nat.eqb f 0 then "0" else "0." ++ zeros f
  | _ => Number_toString x
  end.

End JS.

(** What a component reports through [react-toastify]. *)
Inductive toast : Type :=
| ToastError (msg : string)
| ToastSuccess (msg : string)
| ToastInfo (msg : string).

(** Lookup of an own property in an object literal used as a table. *)
Fixpoint lookup {A : Type} (key : string) (table : list (string * A)) : option A :=
  match table with
  | [] => None
  | (k, a) :: rest => if String.eqb k key then Some a else lookup key rest
  end.

(** The properties that every object literal inherits from
    [Object.prototype] (ECMA-262 20.1.3 and B.2.2).  Each is a function, and
    [__proto__] reads as the prototype itself: a truthy value that has none
    of the properties of the entries of the tables below and that converts
    to the number [NaN]. *)
Definition objectPrototypeNames : list string :=
  [ "constructor"; "hasOwnProperty"; "isPrototypeOf"; "propertyIsEnumerable";
    "toLocaleString"; "toString"; "valueOf"; "__proto__";
    "__defineGetter__"; "__defineSetter__"; "__lookupGetter__"; "__lookupSetter__" ].

Definition inheritedName (key : string) : bool :=
  existsb (String.eqb key) objectPrototypeNames.

(** What [table[key]] finds: a property of the table itself, a member
    inherited from [Object.prototype], or nothing ([undefined]). *)
Inductive property (A : Type) : Type :=
| Own (a : A)
| Inherited
| Absent.

Arguments Own {A} a.
Arguments Inherited {A}.
Arguments Absent {A}.

Definition getProperty {A : Type} (key : string) (table : list (string * A)) : property A :=
  match lookup key table with
  | Some a => Own a
  | None => if inheritedName key then Inherited else Absent
  end.

(* ================================================================== *)
(** * AcetaminophenLethalDoseCalculator.jsx: Rumack-Matthew nomogram *)
(* ================================================================== *)

Module Acetaminophen.
Import JS.

Record result : Type := {
  timestamp : string;
  res_hoursSince : value;
  res_concentration_ugmL : value;
  res_concentration_umolL : value;
  threshold_ugmL : value;
  action : string;
  warnings : list string
}.

(** The component state ([useState] cells). *)
Record state : Type := {
  ingestionTime : string;
  sampleTime : string;
  hoursSince : value;
  concentrationValue : value;
  concentrationUnit : string;
  weight : value;
  weightUnit : string;
  history : list result;
  current : option result
}.

Definition initial : state := {|
  ingestionTime := "";
  sampleTime := "";
  hoursSince := VStr "";
  concentrationValue := VNum 150;
  concentrationUnit := "ug_per_mL";
  weight := VNum 70;
  weightUnit := "kg";
  history := [];
  current := None
|}.

(** Constants *)
Definition ACETAMINOPHEN_MW : float := 151.1626.
Definition NOMO_T1 : float := 4.
Definition NOMO_C1 : float := 150.
Definition NOMO_T2 : float := 24.
Definition NOMO_C2 : float := 4.69.

Definition umolL_to_ugmL (umolL : value) : float :=
  (orElseNum (parseFloat umolL) 0 * (ACETAMINOPHEN_MW * 0.001))%float.

Definition ugmL_to_umolL (ugmL : value) : float :=
  (orElseNum (parseFloat ugmL) 0 / (ACETAMINOPHEN_MW * 0.001))%float.

Definition toKg (val : value) (unit : string) : option float :=
  let n := parseFloat val in
  if (negb (truthyNum n) || (n <=? 0)%float)%bool then None
  else if String.eqb unit "kg" then Some n
  else if String.eqb unit "g" then Some (n / 1000)%float
  else if String.eqb unit "lb" then Some (n * 0.45359237)%float
  else None.

Definition diffHours (t0 t1 : option float) : option float :=
  match t0, t1 with
  | Some a, Some b => Some ((b - a) / (1000 * 60 * 60))%float
  | _, _ => None
  end.

(** [concentration_ugmL] (a [useMemo] of the two concentration cells). *)
Definition concentration_ugmL (st : state) : float :=
  if String.eqb (concentrationUnit st) "ug_per_mL"
  then orElseNum (parseFloat (concentrationValue st)) 0
  else umolL_to_ugmL (concentrationValue st).

Section Environment.

(** [Math.log10] and [Math.pow] are implementation-approximated, and
    [new Date(s).getTime()] depends on the local time zone. *)
Variable Math_log10 : float -> float.
Variable Math_pow : float -> float -> float.
Variable Date_getTime : string -> float.

(** A [Date] is represented by its time value. *)
Definition parseDateTimeLocal (s : string) : option float :=
  if String.eqb s "" then None
  else
    let d := Date_getTime s in
    if is_nan d then None else Some d.

(** Nomogram threshold at arbitrary time between 4 and 24 hours using
    log-linear interpolation. *)
Definition nomogramThresholdAtHours (h : float) : float :=
  if (h <=? NOMO_T1)%float then NOMO_C1
  else if (NOMO_T2 <=? h)%float then NOMO_C2
  else
    let logC1 := Math_log10 NOMO_C1 in
    let logC2 := Math_log10 NOMO_C2 in
    let ratio := ((h - NOMO_T1) / (NOMO_T2 - NOMO_T1))%float in
    let logC := (logC1 + (logC2 - logC1) * ratio)%float in
    Math_pow 10 logC.

(** [computedHoursSince] (a [useMemo] of the three time cells). *)
Definition computedHoursSince (st : state) : option float :=
  if (truthy (hoursSince st) && negb (is_nan (parseFloat (hoursSince st))))%bool
  then Some (parseFloat (hoursSince st))
  else
    let tIngest := parseDateTimeLocal (ingestionTime st) in
    let tSample := parseDateTimeLocal (sampleTime st) in
    match tIngest, tSample with
    | Some _, Some _ => diffHours tIngest tSample
    | _, _ => None
    end.

(** [roundNumber(v, d)] for a number [v]. *)
Definition roundNumber (v : float) (d : float) : value :=
  if is_nan v then VStr "—"
  else
    let p := Math_pow 10 d in
    VNum (Math_round (v * p) / p)%float.

Definition msg_time : string :=
  "Please provide either both ingestion & sample times, or enter hours since ingestion.".
Definition msg_concentration : string := "Enter a valid concentration.".
Definition msg_done : string :=
  "Nomogram evaluated (educational). Review results and clinical guidance.".
Definition warn_before4 : string :=
  "Sample drawn before 4 hours — nomogram is not valid; repeat level at 4 hours post-ingestion if possible.".
Definition warn_after24 : string :=
  "Sample drawn after 24 hours — nomogram was designed for 4–24 hours. Use clinical judgment and local guidance.".

(** Main calculation: the new state and the toasts shown.  [now] is
    [new Date().toISOString()]. *)
Definition calculate (now : string) (st : state) : state * list toast :=
  match computedHoursSince st with
  | None => (st, [ToastError msg_time])
  | Some h =>
      if is_nan h then (st, [ToastError msg_time])
      else
        let conc := concentration_ugmL st in
        if (negb (truthyNum conc) || is_nan conc)%bool
        then (st, [ToastError msg_concentration])
        else
          let warnings :=
            ((if (h <? 4)%float then [warn_before4] else [])
             ++ (if (24 <? h)%float then [warn_after24] else []))%list in
          let threshold := nomogramThresholdAtHours (Math_max h 4) in
          let indication :=
            if (threshold <=? conc)%float
            then "Treat (N‑acetylcysteine indicated)"
            else "No nomogram‑based treatment threshold reached" in
          let conc_umolL := ugmL_to_umolL (VNum conc) in
          let res := {|
            timestamp := now;
            res_hoursSince := roundNumber h 2;
            res_concentration_ugmL := roundNumber conc 3;
            res_concentration_umolL := roundNumber conc_umolL 2;
            threshold_ugmL := roundNumber threshold 3;
            action := indication;
            warnings := warnings
          |} in
          ({| ingestionTime := ingestionTime st;
              sampleTime := sampleTime st;
              hoursSince := hoursSince st;
              concentrationValue := concentrationValue st;
              concentrationUnit := concentrationUnit st;
              weight := weight st;
              weightUnit := weightUnit st;
              history := res :: history st;
              current := Some res |},
           [ToastSuccess msg_done])
  end.

End Environment.

(** The form with both required inputs missing: no time is given and the
    concentration field has been cleared. *)
Definition scenario_nothing_entered : state := {|
  ingestionTime := "";
  sampleTime := "";
  hoursSince := VStr "";
  concentrationValue := VStr "";
  concentrationUnit := "ug_per_mL";
  weight := VNum 70;
  weightUnit := "kg";
  history := [];
  current := None
|}.

(** An environment to evaluate examples in: the powers of ten that
    [roundNumber] asks for, and no readable date.  The decimal logarithm is
    not called when the sample is drawn before 4 or after 24 hours. *)
Definition example_pow (b e : float) : float :=
  if ((b =? 10) && (e =? 2))%float then 100%float
  else if ((b =? 10) && (e =? 3))%float then 1000%float
  else nan.
Definition example_log10 (x : float) : float := nan.
Definition example_getTime (s : string) : float := nan.

(** The default form with a number of hours typed into the hours field. *)
Definition withHours (h : string) : state := {|
  ingestionTime := "";
  sampleTime := "";
  hoursSince := VStr h;
  concentrationValue := VNum 150;
  concentrationUnit := "ug_per_mL";
  weight := VNum 70;
  weightUnit := "kg";
  history := [];
  current := None
|}.

End Acetaminophen.

(* ================================================================== *)
(** * PediatricTylenolCalculator.jsx: weight-based paracetamol dose *)
(* ================================================================== *)

Module Tylenol.
Import JS.

Record result : Type := {
  timestamp : string;
  res_age : value;
  res_ageUnit : string;
  weightKg : float;
  res_mgPerKg : float;
  rawMg : float;
  appliedSingleMg : float;
  mlPerDose : value;
  res_formulation : string;
  res_minIntervalHours : value;
  res_maxDosesPerDay : value;
  dailyMg : float;
  warnings : list string
}.

Record state : Type := {
  age : value;
  ageUnit : string;
  weight : value;
  weightUnit : string;
  mgPerKg : value;
  minIntervalHours : value;
  maxDosesPerDay : value;
  maxSingleMg : value;
  maxDailyMg : value;
  formulation : string;
  roundingStep : value;
  history : list result;
  doseResult : option result
}.

Definition initial : state := {|
  age := VNum 2;
  ageUnit := "years";
  weight := VNum 12;
  weightUnit := "kg";
  mgPerKg := VNum 15;
  minIntervalHours := VNum 6;
  maxDosesPerDay := VNum 4;
  maxSingleMg := VNum 1000;
  maxDailyMg := VNum 4000;
  formulation := "Syrup 125 mg/5 mL";
  roundingStep := VNum 0.5;
  history := [];
  doseResult := None
|}.

(** mg per 5 mL *)
Definition formulations : list (string * float) :=
  [ ("Syrup 125 mg/5 mL", 125%float);
    ("Syrup 160 mg/5 mL", 160%float);
    ("Tablet 500 mg", 500%float) ].

Definition toKg (val : value) (unit : string) : option float :=
  let n := parseFloat val in
  if (negb (truthyNum n) || (n <=? 0)%float)%bool then None
  else if String.eqb unit "kg" then Some n
  else if String.eqb unit "g" then Some (n / 1000)%float
  else if String.eqb unit "lb" then Some (n * 0.45359237)%float
  else None.

Definition roundTo (val step : value) : value :=
  if (match val with VNull => true | _ => false end || isNaN val)%bool then val
  else if (negb (truthy step) || (ToNumber step <=? 0)%float)%bool
  then VNum (Math_round (ToNumber val * 100) / 100)%float
  else VNum (Math_round (ToNumber val / ToNumber step) * ToNumber step)%float.

Definition msg_weight : string := "Please enter a valid weight.".
Definition msg_done : string := "Dose calculated (educational). Verify with clinician.".

Definition warn_neonate : string :=
  "Neonate: dosing differs and organ immaturity affects metabolism — use neonatal-specific guidance.".

Definition warn_capped (rawMg : float) (maxSingleMg : value) : string :=
  "Calculated single dose (" ++ Number_toString (Math_round rawMg)
  ++ " mg) exceeds configured max single dose (" ++ ToString maxSingleMg
  ++ " mg) and was capped.".

Definition warn_daily (dailyMg : float) (maxDailyMg : value) : string :=
  "Estimated total daily dose (" ++ Number_toString (Math_round dailyMg)
  ++ " mg) exceeds configured max daily dose (" ++ ToString maxDailyMg
  ++ " mg). Review dosing.".

(** The local constants of [calculate], as functions of the state and of
    the accepted weight [wKg]. *)

(* age warning *)
Definition ageMonths (st : state) : value :=
  if String.eqb (ageUnit st) "years" then VNum (ToNumber (age st) * 12)%float
  else if String.eqb (ageUnit st) "months" then age st
  else VNum (ToNumber (age st) / 30)%float.

(* basic dose calculation *)
Definition rawMg_of (st : state) (wKg : float) : float :=
  (wKg * parseFloat (mgPerKg st))%float.

Definition appliedSingleMg_of (st : state) (wKg : float) : float :=
  Math_min (rawMg_of st wKg) (parseFloat (maxSingleMg st)).

(* compute daily total if given maximum doses/day *)
Definition dailyMg_of (st : state) (wKg : float) : float :=
  (appliedSingleMg_of st wKg * parseInt (orElse (maxDosesPerDay st) (VNum 4)))%float.

Definition exceedsDaily (st : state) (wKg : float) : bool :=
  (parseFloat (maxDailyMg st) <? dailyMg_of st wKg)%float.

(** The result record built by [calculate] once the weight is accepted. *)
Definition compute (now : string) (st : state) (wKg : float) : result :=
  let ageMonths := ageMonths st in
  let rawMg := rawMg_of st wKg in
  let appliedSingleMg := appliedSingleMg_of st wKg in
  let dailyMg := dailyMg_of st wKg in
  let exceedsDaily := exceedsDaily st wKg in
  (* convert to formulation *)
  let mlPerDose :=
    match getProperty (formulation st) formulations with
    | Own formMgPer5ml =>
        if truthyNum formMgPer5ml then
          let ml := (appliedSingleMg / formMgPer5ml * 5)%float in
          roundTo (VNum ml) (roundingStep st)
        else VNull
    | Inherited =>
        (* a truthy member of the prototype, [NaN] as a divisor *)
        let ml := (appliedSingleMg / nan * 5)%float in
        roundTo (VNum ml) (roundingStep st)
    | Absent => VNull
    end in
  (* practical advice *)
  let warnings :=
    ((if (ToNumber ageMonths <? 1)%float then [warn_neonate] else [])
     ++ (if (ToNumber (maxSingleMg st) <=? appliedSingleMg)%float
         then [warn_capped rawMg (maxSingleMg st)] else [])
     ++ (if exceedsDaily then [warn_daily dailyMg (maxDailyMg st)] else []))%list in
  {| timestamp := now;
     res_age := age st;
     res_ageUnit := ageUnit st;
     weightKg := (Math_round (wKg * 100) / 100)%float;
     res_mgPerKg := parseFloat (mgPerKg st);
     rawMg := (Math_round (rawMg * 100) / 100)%float;
     appliedSingleMg := (Math_round (appliedSingleMg * 100) / 100)%float;
     mlPerDose := mlPerDose;
     res_formulation := formulation st;
     res_minIntervalHours := minIntervalHours st;
     res_maxDosesPerDay := maxDosesPerDay st;
     dailyMg := (Math_round (dailyMg * 100) / 100)%float;
     warnings := warnings |}.

Definition setResult (st : state) (res : result) : state :=
  {| age := age st; ageUnit := ageUnit st;
     weight := weight st; weightUnit := weightUnit st;
     mgPerKg := mgPerKg st; minIntervalHours := minIntervalHours st;
     maxDosesPerDay := maxDosesPerDay st; maxSingleMg := maxSingleMg st;
     maxDailyMg := maxDailyMg st; formulation := formulation st;
     roundingStep := roundingStep st;
     history := res :: history st;
     doseResult := Some res |}.

Definition calculate (now : string) (st : state) : state * list toast :=
  match toKg (weight st) (weightUnit st) with
  | None => (st, [ToastError msg_weight])
  | Some wKg =>
      if negb (truthyNum wKg) then (st, [ToastError msg_weight])
      else (setResult st (compute now st wKg), [ToastSuccess msg_done])
  end.

(** The scenarios of the specification: the default form (2 years, 12 kg,
    15 mg/kg, cap 1000 mg), the same form with 80 kg typed into the weight
    field, and the default form for a child of 2 days. *)
Definition withWeight (st : state) (w : value) : state :=
  {| age := age st; ageUnit := ageUnit st;
     weight := w; weightUnit := weightUnit st;
     mgPerKg := mgPerKg st; minIntervalHours := minIntervalHours st;
     maxDosesPerDay := maxDosesPerDay st; maxSingleMg := maxSingleMg st;
     maxDailyMg := maxDailyMg st; formulation := formulation st;
     roundingStep := roundingStep st;
     history := history st; doseResult := doseResult st |}.

Definition withAge (st : state) (a : value) (u : string) : state :=
  {| age := a; ageUnit := u;
     weight := weight st; weightUnit := weightUnit st;
     mgPerKg := mgPerKg st; minIntervalHours := minIntervalHours st;
     maxDosesPerDay := maxDosesPerDay st; maxSingleMg := maxSingleMg st;
     maxDailyMg := maxDailyMg st; formulation := formulation st;
     roundingStep := roundingStep st;
     history := history st; doseResult := doseResult st |}.

Definition scenario_12kg : state := initial.
Definition scenario_negative_weight : state := withWeight initial (VStr "-10").
Definition scenario_80kg : state := withWeight initial (VStr "80").
Definition scenario_12kg_2days : state := withAge initial (VStr "2") "days".

End Tylenol.

(* ================================================================== *)
(** * PrednisolonePediatricCalculator.jsx: prednisolone dose *)
(* ================================================================== *)

Module Prednisolone.
Import JS.

Record preset : Type := {
  label : string;
  preset_mgPerKg : float;
  preset_maxSingleMg : float;
  freq : string
}.

Definition defaultPresets : list (string * preset) :=
  [ ("asthma", {| label := "Asthma exacerbation (oral)"; preset_mgPerKg := 1;
                  preset_maxSingleMg := 40; freq := "Once daily or divided" |});
    ("croup", {| label := "Croup (single dose)"; preset_mgPerKg := 0.15;
                 preset_maxSingleMg := 10; freq := "Single dose" |});
    ("nephrotic", {| label := "Nephrotic syndrome (taper)"; preset_mgPerKg := 2;
                     preset_maxSingleMg := 60; freq := "Daily / per protocol" |});
    ("autoimmune", {| label := "Autoimmune / inflammatory"; preset_mgPerKg := 1;
                      preset_maxSingleMg := 60; freq := "Once daily" |});
    ("antiemetic", {| label := "Antiemetic adjunct"; preset_mgPerKg := 0.15;
                      preset_maxSingleMg := 8; freq := "Single dose" |});
    ("custom", {| label := "Custom"; preset_mgPerKg := 1;
                  preset_maxSingleMg := 50; freq := "Once daily" |}) ].

Definition customPreset : preset :=
  {| label := "Custom"; preset_mgPerKg := 1; preset_maxSingleMg := 50;
     freq := "Once daily" |}.

(** Formulations: sugar syrup strengths and tablets *)
Inductive formulation : Type :=
| Syrup (mgPer5ml : float)
| Tablet (mgPerTablet : float).

Definition formulations : list (string * formulation) :=
  [ ("Syrup 5 mg/5 mL", Syrup 5);
    ("Syrup 10 mg/5 mL", Syrup 10);
    ("Tablet 5 mg", Tablet 5);
    ("Tablet 20 mg", Tablet 20) ].

Record result : Type := {
  timestamp : string;
  res_age : value;
  res_ageUnit : string;
  weightKg : float;
  res_preset : value;
  res_mgPerKg : float;
  rawSingleMg : float;
  appliedSingleMg : float;
  frequency : string;
  mlPerDose : value;
  tabletsPerDose : value;
  res_formulation : string;
  warnings : list string
}.

Record state : Type := {
  age : value;
  ageUnit : string;
  weight : value;
  weightUnit : string;
  presetKey : string;
  useCustom : bool;
  customMgPerKg : value;
  customMaxSingle : value;
  formulationKey : string;
  roundingMlStep : value;
  current : option result;
  history : list result
}.

Definition initial : state := {|
  age := VNum 4;
  ageUnit := "years";
  weight := VNum 15;
  weightUnit := "kg";
  presetKey := "asthma";
  useCustom := false;
  customMgPerKg := VNum 1;
  customMaxSingle := VNum 50;
  formulationKey := "Syrup 5 mg/5 mL";
  roundingMlStep := VNum 0.25;
  current := None;
  history := []
|}.

Definition toKg (val : value) (unit : string) : option float :=
  let n := parseFloat val in
  if (negb (truthyNum n) || is_nan n)%bool then None
  else if String.eqb unit "kg" then Some n
  else if String.eqb unit "g" then Some (n / 1000)%float
  else if String.eqb unit "lb" then Some (n * 0.45359237)%float
  else None.

Definition roundTo (val step : value) : value :=
  if (match val with VNull | VUndefined => true | _ => false end || isNaN val)%bool
  then VNull
  else if (negb (truthy step) || (ToNumber step <=? 0)%float)%bool
  then VNum (Math_round (ToNumber val * 100) / 100)%float
  else VNum (Math_round (ToNumber val / ToNumber step) * ToNumber step)%float.

Definition msg_weight : string := "Enter a valid weight.".
Definition msg_mgPerKg : string := "Invalid mg/kg value.".
Definition msg_done : string := "Calculated — educational only. Verify clinically.".

Definition warn_capped (rawSingleMg maxSingle : float) : string :=
  "Calculated single dose (" ++ Number_toString (Math_round rawSingleMg)
  ++ " mg) exceeds preset maximum (" ++ Number_toString maxSingle
  ++ " mg) and was capped.".

Definition warn_lowWeight : string :=
  "Very low weight — verify dosing; infant/neonate guidance may differ.".

(** What a call of [calculate] does: it stops on a toast, builds a result,
    or throws (reading [form.type] when the formulation key is unknown).
    [presets[presetKey] || presets.custom] is a preset of the table, the
    custom preset when the key is unknown, or a member inherited from
    [Object.prototype], whose [mgPerKg], [maxSingleMg], [freq] and [label]
    are [undefined]; an inherited member found for the formulation key has
    no [type], so that neither a volume nor a tablet count is computed. *)
Inductive outcome : Type :=
| Rejected (msg : string)
| Computed (res : result)
| TypeError.

(** [preset.field], which is [undefined] on an inherited member. *)
Definition presetField (p : option preset) (f : preset -> value) : value :=
  match p with
  | Some p => f p
  | None => VUndefined
  end.

Definition run (now : string) (st : state) : outcome :=
  match toKg (weight st) (weightUnit st) with
  | None => Rejected msg_weight
  | Some wKg =>
      if negb (truthyNum wKg) then Rejected msg_weight
      else
        (* select preset or custom *)
        let preset : option preset :=
          match getProperty (presetKey st) defaultPresets with
          | Own p => Some p
          | Inherited => None
          | Absent => Some customPreset
          end in
        let field := presetField preset in
        let mgPerKg :=
          if useCustom st then parseFloat (customMgPerKg st)
          else parseFloat (field (fun p => VNum (preset_mgPerKg p))) in
        let maxSingle :=
          if useCustom st then parseFloat (customMaxSingle st)
          else parseFloat (field (fun p => VNum (preset_maxSingleMg p))) in
        if (negb (truthyNum mgPerKg) || (mgPerKg <=? 0)%float)%bool
        then Rejected msg_mgPerKg
        else
          (* compute single dose *)
          let rawSingleMg := (wKg * mgPerKg)%float in
          let appliedSingleMg :=
            if (0 <? maxSingle)%float then Math_min rawSingleMg maxSingle
            else rawSingleMg in
          (* determine frequency label *)
          let frequencyLabel :=
            match orElse (field (fun p => VStr (freq p))) (VStr "Once daily") with
            | VStr label => label
            | _ => "Once daily"
            end in
          (* formulation conversion *)
          match getProperty (formulationKey st) formulations with
          | Absent => TypeError
          | form =>
              let mlPerDose :=
                match form with
                | Own (Syrup mgPer5ml) =>
                    roundTo (VNum (appliedSingleMg / mgPer5ml * 5)%float) (roundingMlStep st)
                | _ => VNull
                end in
              let tabletsPerDose :=
                match form with
                | Own (Tablet mgPerTablet) =>
                    VNum (Math_round (appliedSingleMg / mgPerTablet)%float)
                | _ => VNull
                end in
              let noteWarnings :=
                ((if (maxSingle <? rawSingleMg)%float
                  then [warn_capped rawSingleMg maxSingle] else [])
                 ++ (if (wKg <? 1)%float then [warn_lowWeight] else []))%list in
              Computed {|
                timestamp := now;
                res_age := age st;
                res_ageUnit := ageUnit st;
                weightKg := (Math_round (wKg * 100) / 100)%float;
                res_preset := field (fun p => VStr (label p));
                res_mgPerKg := mgPerKg;
                rawSingleMg := (Math_round (rawSingleMg * 100) / 100)%float;
                appliedSingleMg := (Math_round (appliedSingleMg * 100) / 100)%float;
                frequency := frequencyLabel;
                mlPerDose := mlPerDose;
                tabletsPerDose := tabletsPerDose;
                res_formulation := formulationKey st;
                warnings := noteWarnings |}
          end
  end.

Definition setResult (st : state) (res : result) : state :=
  {| age := age st; ageUnit := ageUnit st;
     weight := weight st; weightUnit := weightUnit st;
     presetKey := presetKey st; useCustom := useCustom st;
     customMgPerKg := customMgPerKg st; customMaxSingle := customMaxSingle st;
     formulationKey := formulationKey st; roundingMlStep := roundingMlStep st;
     current := Some res;
     history := res :: history st |}.

(** The default form in custom mode, with a custom mg/kg and a custom
    maximum typed in. *)
Definition customForm (mgPerKg maxSingle : string) : state := {|
  age := VNum 4;
  ageUnit := "years";
  weight := VNum 15;
  weightUnit := "kg";
  presetKey := "asthma";
  useCustom := true;
  customMgPerKg := VStr mgPerKg;
  customMaxSingle := VStr maxSingle;
  formulationKey := "Syrup 5 mg/5 mL";
  roundingMlStep := VNum 0.25;
  current := None;
  history := []
|}.

(** The default form with another preset key. *)
Definition withPresetKey (key : string) : state := {|
  age := VNum 4;
  ageUnit := "years";
  weight := VNum 15;
  weightUnit := "kg";
  presetKey := key;
  useCustom := false;
  customMgPerKg := VNum 1;
  customMaxSingle := VNum 50;
  formulationKey := "Syrup 5 mg/5 mL";
  roundingMlStep := VNum 0.25;
  current := None;
  history := []
|}.

(** [calculate]: the new state and the toasts shown; [None] when the call
    throws. *)
Definition calculate (now : string) (st : state) : option (state * list toast) :=
  match run now st with
  | Rejected msg => Some (st, [ToastError msg])
  | Computed res => Some (setResult st res, [ToastSuccess msg_done])
  | TypeError => None
  end.

End Prednisolone.

(* ================================================================== *)
(** * OpioidConversionCalculator (in PrednisolonePediatricCalculator.jsx) *)
(* ================================================================== *)

Module Opioid.
Import JS.

(** coeff = number of mg oral morphine equivalent per 1 unit of the listed
    drug *)
Record drugMeta : Type := {
  coeff : float;
  unit : string
}.

Definition defaultCoefficients : list (string * drugMeta) :=
  [ ("Oral morphine (mg)", {| coeff := 1; unit := "mg" |});
    ("Oral oxycodone (mg)", {| coeff := 1.5; unit := "mg" |});
    ("Oral hydromorphone (mg)", {| coeff := 4; unit := "mg" |});
    ("Oral codeine (mg)", {| coeff := 0.15; unit := "mg" |});
    ("Oral tramadol (mg)", {| coeff := 0.1; unit := "mg" |});
    ("Transdermal fentanyl (mcg/hr)", {| coeff := 2.4; unit := "mcg/hr" |});
    ("Oral methadone (mg)", {| coeff := 4; unit := "mg" |});
    ("Hydrocodone (mg)", {| coeff := 1; unit := "mg" |});
    ("Other (custom)", {| coeff := 0; unit := "mg" |}) ].

Record entry : Type := {
  id : value;
  drug : string;
  dose : value;
  entry_unit : string;
  freqPerDay : value
}.

Record steps : Type := {
  mg : float;
  mcg : float
}.

Record target : Type := {
  target_value : float;
  target_unit : string
}.

Record result : Type := {
  timestamp : string;
  res_entries : list entry;
  totalOME : float;
  rawTarget : target;
  adjustedValue : float;
  practical : float;
  practicalUnit : string;
  res_incompleteCrossTolerancePercent : float
}.

Record state : Type := {
  entries : list entry;
  coefficients : list (string * drugMeta);
  targetOpioid : string;
  incompleteCrossTolerancePercent : value;
  rounding : steps;
  history : list result;
  current : option result
}.

(** The state a freshly mounted component has; [now] is [Date.now()]. *)
Definition initial (now : float) : state := {|
  entries := [ {| id := VNum now; drug := "Oral morphine (mg)"; dose := VStr "30";
                  entry_unit := "mg"; freqPerDay := VNum 4 |} ];
  coefficients := defaultCoefficients;
  targetOpioid := "Oral morphine (mg)";
  incompleteCrossTolerancePercent := VNum 25;
  rounding := {| mg := 5; mcg := 25 |};
  history := [];
  current := None
|}.

(** [s.replace(/,/g, "")] *)
Fixpoint removeCommas (s : string) : string :=
  match s with
  | EmptyString => EmptyString
  | String c s' =>
      if Ascii.eqb c "," then removeCommas s' else String c (removeCommas s')
  end.

Definition parseNumber (v : value) : float :=
  let n := parseFloatString (removeCommas (ToString v)) in
  if is_nan n then 0%float else n.

(** [coefficients[key] || { coeff: 0, unit: "mg" }].  A member inherited
    from [Object.prototype] is truthy and has neither property: its [coeff]
    is [undefined], which is [NaN] in the arithmetic below, and its [unit] is
    [undefined], which is no unit string (the empty string here, which is
    not ["mcg/hr"] either). *)
Definition metaOf (coefficients : list (string * drugMeta)) (key : string) : drugMeta :=
  match getProperty key coefficients with
  | Own m => m
  | Inherited => {| coeff := nan; unit := "" |}
  | Absent => {| coeff := 0; unit := "mg" |}
  end.

(** Convert an entry to OME (mg morphine/day) *)
Definition entryToOME (coefficients : list (string * drugMeta)) (e : entry) : float :=
  let drugMeta := metaOf coefficients (drug e) in
  let dose := parseNumber (dose e) in
  let freq := orElseNum (parseNumber (freqPerDay e)) 1 in
  if String.eqb (unit drugMeta) "mcg/hr" then
    (* patch style: OME = dose(mcg/hr) * 24 * coeff *)
    (dose * 24 * coeff drugMeta)%float
  else
    (* oral/parenteral: dose * freqPerDay * coeff *)
    (dose * freq * coeff drugMeta)%float.

Definition calculateTotalOME (st : state) : float :=
  fold_left (fun s e => (s + entryToOME (coefficients st) e)%float) (entries st) 0%float.

(** Convert total OME to equivalent target opioid dose (per day) *)
Definition convertOMEtoTarget (coefficients : list (string * drugMeta))
    (totalOME : float) (tgt : string) : target :=
  let meta := metaOf coefficients tgt in
  if String.eqb (unit meta) "mcg/hr" then
    {| target_value := (totalOME / (24 * coeff meta))%float; target_unit := "mcg/hr" |}
  else
    {| target_value := (totalOME / coeff meta)%float; target_unit := "mg/day" |}.

(** Round to practical units *)
Definition practicalRound (rounding : steps) (v : float) (u : string) : float :=
  if String.eqb u "mcg/hr" then
    let step := orElseNum (mcg rounding) 25 in
    (Math_round (v / step) * step)%float
  else
    let step := orElseNum (mg rounding) 5 in
    (Math_round (v / step) * step)%float.

Definition msg_zero : string := "Total OME is zero — add valid opioid entries.".
Definition msg_done : string :=
  "Conversion calculated. Confirm with clinical guidelines before applying.".

(** The factor applied for incomplete cross-tolerance. *)
Definition reductionFactor (st : state) : float :=
  ((100 - parseNumber (orElse (incompleteCrossTolerancePercent st) (VNum 0))) / 100)%float.

(** Core calculate function: computes total OME, applies incomplete
    cross-tolerance, and suggests target dosing.  [JSON.parse(JSON.stringify
    (entries))] is a copy of the entries. *)
Definition calculate (now : string) (st : state) : state * list toast :=
  let totalOME := calculateTotalOME st in
  if (negb (truthyNum totalOME) || (totalOME <=? 0)%float)%bool
  then (st, [ToastError msg_zero])
  else
    let rawTarget := convertOMEtoTarget (coefficients st) totalOME (targetOpioid st) in
    let adjustedValue := (target_value rawTarget * reductionFactor st)%float in
    let practical := practicalRound (rounding st) adjustedValue (target_unit rawTarget) in
    let res := {|
      timestamp := now;
      res_entries := entries st;
      totalOME := (Math_round (totalOME * 100) / 100)%float;
      rawTarget := rawTarget;
      adjustedValue := (Math_round (adjustedValue * 100) / 100)%float;
      practical := practical;
      practicalUnit := target_unit rawTarget;
      res_incompleteCrossTolerancePercent :=
        parseNumber (incompleteCrossTolerancePercent st)
    |} in
    ({| entries := entries st;
        coefficients := coefficients st;
        targetOpioid := targetOpioid st;
        incompleteCrossTolerancePercent := incompleteCrossTolerancePercent st;
        rounding := rounding st;
        history := res :: history st;
        current := Some res |},
     [ToastSuccess msg_done]).

(** CRUD for entries.  A patch is an object with some of the fields of an
    entry. *)
Record patch : Type := {
  patch_id : option value;
  patch_drug : option string;
  patch_dose : option value;
  patch_unit : option string;
  patch_freqPerDay : option value
}.

(** [{ ...e, ...patch }] *)
Definition applyPatch (e : entry) (p : patch) : entry :=
  {| id := match patch_id p with Some v => v | None => id e end;
     drug := match patch_drug p with Some v => v | None => drug e end;
     dose := match patch_dose p with Some v => v | None => dose e end;
     entry_unit := match patch_unit p with Some v => v | None => entry_unit e end;
     freqPerDay := match patch_freqPerDay p with Some v => v | None => freqPerDay e end |}.

(** [addEntry]; [uid] is the string that [uid()] draws from [Math.random]. *)
Definition addEntry (uid : string) (cur : list entry) : list entry :=
  (cur ++ [ {| id := VStr uid; drug := "Oral morphine (mg)"; dose := VStr "0";
               entry_unit := "mg"; freqPerDay := VNum 1 |} ])%list.

Definition updateEntry (i : value) (p : patch) (cur : list entry) : list entry :=
  map (fun e => if strictEq (id e) i then applyPatch e p else e) cur.

Definition removeEntry (i : value) (cur : list entry) : list entry :=
  filter (fun e => negb (strictEq (id e) i)) cur.

(** [{ ...c, [key]: m }]: the property is replaced where it stands, or added
    after the others. *)
Fixpoint setKey {A : Type} (key : string) (a : A) (table : list (string * A))
  : list (string * A) :=
  match table with
  | [] => [(key, a)]
  | (k, b) :: rest =>
      if String.eqb k key then (k, a) :: rest else (k, b) :: setKey key a rest
  end.

(** Edit coefficients (admin/advanced): the new table.  [newUnit] is the
    optional third argument. *)
Definition updateCoefficient (drugKey : string) (newCoeff : value)
    (newUnit : option string) (c : list (string * drugMeta)) : list (string * drugMeta) :=
  let present (u : string) := negb (String.eqb u "") in
  let oldUnit :=
    match lookup drugKey c with
    | Some m => if present (unit m) then unit m else "mg"
    | None => "mg"
    end in
  let u :=
    match newUnit with
    | Some u => if present u then u else oldUnit
    | None => oldUnit
    end in
  setKey drugKey {| coeff := parseNumber newCoeff; unit := u |} c.

(** The freshly mounted form with another target agent selected. *)
Definition withTarget (tgt : string) : state := {|
  entries := [ {| id := VNum 0; drug := "Oral morphine (mg)"; dose := VStr "30";
                  entry_unit := "mg"; freqPerDay := VNum 4 |} ];
  coefficients := defaultCoefficients;
  targetOpioid := tgt;
  incompleteCrossTolerancePercent := VNum 25;
  rounding := {| mg := 5; mcg := 25 |};
  history := [];
  current := None
|}.

Definition setEntries (st : state) (es : list entry) : state :=
  {| entries := es;
     coefficients := coefficients st;
     targetOpioid := targetOpioid st;
     incompleteCrossTolerancePercent := incompleteCrossTolerancePercent st;
     rounding := rounding st;
     history := history st;
     current := current st |}.

(** The round trip of the specification: the entry that states a converted
    dose in the target agent (a dose per day, or a patch rate), and an entry
    converted to the agent [tgt] and back to its own agent. *)
Definition asEntry (tgt : string) (converted : target) : entry :=
  {| id := VNull; drug := tgt; dose := VNum (target_value converted);
     entry_unit := target_unit converted; freqPerDay := VNum 1 |}.

Definition roundTrip (coefficients : list (string * drugMeta)) (e : entry)
    (tgt : string) : float :=
  let there := convertOMEtoTarget coefficients (entryToOME coefficients e) tgt in
  let back := entryToOME coefficients (asEntry tgt there) in
  target_value (convertOMEtoTarget coefficients back (drug e)).

(** The entry of a freshly mounted component (30 mg of oral morphine, 4
    times a day), and the same with 0 typed into the frequency field. *)
Definition scenario_entry : entry :=
  {| id := VNum 0; drug := "Oral morphine (mg)"; dose := VStr "30";
     entry_unit := "mg"; freqPerDay := VNum 4 |}.

Definition scenario_entry_freq0 : entry :=
  {| id := VNum 0; drug := "Oral morphine (mg)"; dose := VStr "30";
     entry_unit := "mg"; freqPerDay := VStr "0" |}.

(** 30 mg of oral codeine 4 times a day, and a fentanyl patch of 25 mcg/hr. *)
Definition scenario_codeine : entry :=
  {| id := VNum 0; drug := "Oral codeine (mg)"; dose := VStr "30";
     entry_unit := "mg"; freqPerDay := VNum 4 |}.

Definition scenario_fentanyl : entry :=
  {| id := VNum 0; drug := "Transdermal fentanyl (mcg/hr)"; dose := VStr "25";
     entry_unit := "mcg/hr"; freqPerDay := VNum 1 |}.

End Opioid.

(* ================================================================== *)
(** * AmoxicillinAdvancedCalculator (in PrednisolonePediatricCalculator.jsx) *)
(* ================================================================== *)

Module Amoxicillin.
Import JS.

Record result : Type := {
  timestamp : string;
  weightKg : float;
  mgPerKgDay : float;
  totalDailyMg : float;
  finalTotalDailyMg : float;
  perDoseMg : float;
  perDoseMgRaw : float;
  dosesPerDay : float;
  mLPerDose : value;
  tabletsPerDose : float;
  tabletsRounded : float;
  exceedsDailyCap : bool;
  res_interval : string;
  res_formulation : string;
  res_tabletStrength : float;
  res_strategy : string
}.

(** The component state.  [tabletStrength] is a number: its initial value,
    or what [parseFloat] returned for the selected option. *)
Record state : Type := {
  weight : value;
  weightUnit : string;
  age : value;
  ageUnit : string;
  strategy : string;
  customMgPerKgDay : value;
  selectedMgPerKgDay : value;
  interval : string;
  formulation : string;
  tabletStrength : float;
  current : option result;
  history : list result
}.

(** strategy presets (mg/kg/day) *)
Definition presets_standardSingle : float := 25.
Definition presets_high : float := 45.

Definition initial : state := {|
  weight := VNum 12;
  weightUnit := "kg";
  age := VNum 2;
  ageUnit := "years";
  strategy := "standard";
  customMgPerKgDay := VNum 45;
  selectedMgPerKgDay := VNum presets_standardSingle;
  interval := "BID";
  formulation := "Syrup 125 mg/5 mL";
  tabletStrength := 250;
  current := None;
  history := []
|}.

(** safety constants (educational) *)
Definition MAX_DAILY_MG : float := 3000.

Definition syrupOptions : list (string * float) :=
  [ ("Syrup 125 mg/5 mL", 125%float);
    ("Syrup 250 mg/5 mL", 250%float);
    ("Syrup 200 mg/5 mL", 200%float) ].

Definition toKg (val : value) (unit : string) : option float :=
  let n := parseFloat val in
  if (negb (truthyNum n) || (n <=? 0)%float)%bool then None
  else if String.eqb unit "kg" then Some n
  else if String.eqb unit "g" then Some (n / 1000)%float
  else if String.eqb unit "lb" then Some (n * 0.45359237)%float
  else None.

(** round to nearest step (eg 0.5 mL) *)
Definition roundToNearest (v step : float) : float :=
  let inv := (1 / step)%float in
  (Math_round (v * inv) / inv)%float.

Definition msg_weight : string := "Enter a valid weight.".
Definition msg_custom : string := "Enter a valid custom mg/kg/day.".
Definition msg_done : string := "Calculation complete.".

Section Environment.

Variable Math_pow : float -> float -> float.

(** [round(v, d)] for a number [v]. *)
Definition round (v d : float) : float :=
  if is_nan v then v
  else
    let p := Math_pow 10 d in
    (Math_round (v * p) / p)%float.

Definition msg_capped (totalDailyMg : float) : string :=
  "Calculated daily mg (" ++ Number_toString (round totalDailyMg 2)
  ++ ") exceeds daily cap (" ++ Number_toString MAX_DAILY_MG
  ++ " mg). Dose scaled to cap.".

(** The mg/kg/day that [calculate] uses, or the message it stops on. *)
Definition chooseMgPerKgDay (st : state) : float + string :=
  (* determine mg/kg/day to use *)
  let fromStrategy : float + string :=
    if String.eqb (strategy st) "standard" then inl 35%float
    else if String.eqb (strategy st) "high" then inl presets_high
    else
      let n := parseFloat (customMgPerKgDay st) in
      if (negb (truthyNum n) || (n <=? 0)%float)%bool then inr msg_custom
      else inl n in
  match fromStrategy with
  | inr msg => inr msg
  | inl mgPerKgDay =>
      (* allow override selection as single value *)
      if truthy (selectedMgPerKgDay st)
      then inl (orElseNum (parseFloat (selectedMgPerKgDay st)) mgPerKgDay)
      else inl mgPerKgDay
  end.

(** total daily mg, and the total once the daily cap is applied *)
Definition dosesPerDay_of (st : state) : float :=
  if String.eqb (interval st) "BID" then 2
  else if String.eqb (interval st) "TID" then 3 else 4.

Definition finalTotal (totalDailyMg : float) : float :=
  if (MAX_DAILY_MG <? totalDailyMg)%float then MAX_DAILY_MG else totalDailyMg.

(** The result record built by [calculate]. *)
Definition compute (now : string) (st : state) (wKg mgPerKgDay : float) : result :=
  let dosesPerDay := dosesPerDay_of st in
  let totalDailyMg := (wKg * mgPerKgDay)%float in
  let perDoseMgRaw := (totalDailyMg / dosesPerDay)%float in
  let exceedsDailyCap := (MAX_DAILY_MG <? totalDailyMg)%float in
  let finalTotalDailyMg := finalTotal totalDailyMg in
  let perDoseMg := (finalTotalDailyMg / dosesPerDay)%float in
  let mLPerDose :=
    (* [formulation in syrupOptions] also holds of an inherited member,
       which is [NaN] as a divisor *)
    match getProperty (formulation st) syrupOptions with
    | Own mgPer5ml => VNum (roundToNearest (perDoseMg / mgPer5ml * 5) 0.5)
    | Inherited => VNum (roundToNearest (perDoseMg / nan * 5) 0.5)
    | Absent => VNull
    end in
  let tabletsPerDose := round (perDoseMg / tabletStrength st) 2 in
  let tabletsRounded := Math_max 0 (Math_round tabletsPerDose) in
  {| timestamp := now;
     weightKg := round wKg 2;
     mgPerKgDay := round mgPerKgDay 2;
     totalDailyMg := round totalDailyMg 2;
     finalTotalDailyMg := round finalTotalDailyMg 2;
     perDoseMg := round perDoseMg 2;
     perDoseMgRaw := round perDoseMgRaw 2;
     dosesPerDay := dosesPerDay;
     mLPerDose := mLPerDose;
     tabletsPerDose := round tabletsPerDose 3;
     tabletsRounded := tabletsRounded;
     exceedsDailyCap := exceedsDailyCap;
     res_interval := interval st;
     res_formulation := formulation st;
     res_tabletStrength := tabletStrength st;
     res_strategy := strategy st |}.

Definition setResult (st : state) (res : result) : state :=
  {| weight := weight st; weightUnit := weightUnit st;
     age := age st; ageUnit := ageUnit st;
     strategy := strategy st; customMgPerKgDay := customMgPerKgDay st;
     selectedMgPerKgDay := selectedMgPerKgDay st; interval := interval st;
     formulation := formulation st; tabletStrength := tabletStrength st;
     current := Some res;
     history := res :: history st |}.

(** calculate doses *)
Definition calculate (now : string) (st : state) : state * list toast :=
  match toKg (weight st) (weightUnit st) with
  | None => (st, [ToastError msg_weight])
  | Some wKg =>
      if negb (truthyNum wKg) then (st, [ToastError msg_weight])
      else
        match chooseMgPerKgDay st with
        | inr msg => (st, [ToastError msg])
        | inl mgPerKgDay =>
            let res := compute now st wKg mgPerKgDay in
            (setResult st res,
             if exceedsDailyCap res
             then [ToastError (msg_capped (wKg * mgPerKgDay)%float)]
             else [ToastSuccess msg_done])
        end
  end.

End Environment.

(** history utilities *)
Definition clearHistory (st : state) : state * list toast :=
  ({| weight := weight st; weightUnit := weightUnit st;
      age := age st; ageUnit := ageUnit st;
      strategy := strategy st; customMgPerKgDay := customMgPerKgDay st;
      selectedMgPerKgDay := selectedMgPerKgDay st; interval := interval st;
      formulation := formulation st; tabletStrength := tabletStrength st;
      current := current st;
      history := [] |},
   [ToastInfo "History cleared."]).

(** The default form with another weight typed in. *)
Definition withWeight (w : string) : state := {|
  weight := VStr w;
  weightUnit := "kg";
  age := VNum 2;
  ageUnit := "years";
  strategy := "standard";
  customMgPerKgDay := VNum 45;
  selectedMgPerKgDay := VNum presets_standardSingle;
  interval := "BID";
  formulation := "Syrup 125 mg/5 mL";
  tabletStrength := 250;
  current := None;
  history := []
|}.

End Amoxicillin.

(* ================================================================== *)
(** * PediatricDoseCalculator (in PrednisolonePediatricCalculator.jsx) *)
(* ================================================================== *)

Module PediatricDose.
Import JS.

Record medication : Type := {
  name : string;
  mgPerKg : float;
  maxDose : float;
  frequency : float;
  category : string;
  dosing : string;
  maxDaily : string;
  forms : list string;
  notes : string
}.

Definition medications : list medication :=
  [ {| name := "Amoxicillin"; mgPerKg := 20; maxDose := 1000; frequency := 8;
       category := "Beta-lactam Antibiotic"; dosing := "20–50 mg/kg/day";
       maxDaily := "3000 mg/day";
       forms := ["syrup: 250mg/5mL"; "tablet: 250mg"; "tablet: 500mg"];
       notes := "Take after meals. Use in respiratory and ear infections." |};
    {| name := "Amoxicillin-Clavulanate"; mgPerKg := 25; maxDose := 875; frequency := 12;
       category := "Beta-lactam Antibiotic"; dosing := "25 mg/kg/dose";
       maxDaily := "—";
       forms := ["tablet: 875mg"; "suspension: 400mg/5mL"];
       notes := "Good for resistant otitis media or sinusitis." |};
    {| name := "Paracetamol (Acetaminophen)"; mgPerKg := 15; maxDose := 1000; frequency := 6;
       category := "Analgesic/Antipyretic"; dosing := "15 mg/kg/dose";
       maxDaily := "4000 mg/day";
       forms := ["syrup: 120mg/5mL"; "tablet: 500mg"];
       notes := "Do not exceed 4g/day. Adjust for liver disease." |};
    {| name := "Ibuprofen"; mgPerKg := 10; maxDose := 400; frequency := 6;
       category := "NSAID"; dosing := "10 mg/kg/dose";
       maxDaily := "1200 mg/day";
       forms := ["syrup: 100mg/5mL"; "tablet: 200mg"];
       notes := "Give with food to minimize gastric irritation." |};
    {| name := "Other (Custom…)"; mgPerKg := 0; maxDose := 0; frequency := 0;
       category := "Custom"; dosing := "Enter manually";
       maxDaily := "—";
       forms := [];
       notes := "Provide custom dosing if needed." |} ].

(** The cells that [calculateDose] reads and writes; [dose] is [null] or the
    string that [toFixed] returned. *)
Record state : Type := {
  age : value;
  weight : value;
  weightUnit : string;
  drug : string;
  dose : value
}.

Definition initial : state := {|
  age := VStr "";
  weight := VStr "";
  weightUnit := "Kilograms (kg)";
  drug := "";
  dose := VNull
|}.

(** What [calculateDose] shows when it stops. *)
Inductive notice : Type :=
| NoticeError (msg : string)
| NoticeWarning (msg : string)
| NoticeInfo (msg : string).

Definition msg_required : string := "Please fill in all required fields!".
Definition msg_unknown : string := "Selected drug is not in reference list.".
Definition msg_custom : string := "Please enter a custom dose for this medication.".

(** [medications.find((m) => m.name === drug)] *)
Definition findMedication (drug : string) : option medication :=
  find (fun m => String.eqb (name m) drug) medications.

(** The weight in kg as [calculateDose] converts it. *)
Definition weightInKg (st : state) : float :=
  let w := parseFloat (weight st) in
  let w := if String.eqb (weightUnit st) "Grams (g)" then (w / 1000)%float else w in
  if String.eqb (weightUnit st) "Pounds (lb)" then (w * 0.4536)%float else w.

Definition finalDose (st : state) (med : medication) : float :=
  let calc := (weightInKg st * mgPerKg med)%float in
  if truthyNum (maxDose med) then Math_min calc (maxDose med) else calc.

Definition calculateDose (st : state) : state * list notice :=
  if (negb (truthy (age st)) || negb (truthy (weight st))
      || String.eqb (drug st) "")%bool
  then (st, [NoticeError msg_required])
  else
    match findMedication (drug st) with
    | None => (st, [NoticeWarning msg_unknown])
    | Some med =>
        if (negb (truthyNum (mgPerKg med)) || (mgPerKg med =? 0)%float)%bool
        then (st, [NoticeInfo msg_custom])
        else
          ({| age := age st; weight := weight st; weightUnit := weightUnit st;
              drug := drug st;
              dose := VStr (Number_toFixed (finalDose st med) 2) |}, [])
    end.

(** A filled form: age 10 years, the given weight in kg and drug. *)
Definition filled (w drugName : string) : state := {|
  age := VStr "10";
  weight := VStr w;
  weightUnit := "Kilograms (kg)";
  drug := drugName;
  dose := VNull
|}.

End PediatricDose.

(* ================================================================== *)
(** * Binary64 numbers as real numbers *)
(* ================================================================== *)

(** How far a result of binary64 arithmetic is from the exact one is stated
    on the real numbers that the binary64 numbers stand for. *)
Module Binary64.

(** The real number that a finite binary64 number stands for; an infinity, a
    zero and [NaN] are given 0. *)
Definition SF2R (x : spec_float) : R :=
  match x with
  | S754_finite s m e => ((if s then -1 else 1) * IZR (Zpos m) * powerRZ 2 e)%R
  | _ => 0%R
  end.

Definition realOf (x : float) : R := SF2R (Prim2SF x).

(** A number above zero that is neither subnormal nor infinite. *)
Definition positiveNormal (x : float) : bool :=
  match classify x with
  | PNormal => true
  | _ => false
  end.

(** Between [2^-100] and [2^100]. *)
Definition inRange (x : float) : bool :=
  ((0x1p-100 <=? x) && (x <=? 0x1p100))%float.

(** A number above zero that is normal, with its exponent field between
    [lo] and [hi]: it is [m * 2 ^ e] with a mantissa [m] of 53 bits. *)
Definition normalAt (x : float) (lo hi : Z) : Prop :=
  exists m e, Prim2SF x = S754_finite false m e /\
              (2 ^ 52 <= Zpos m < 2 ^ 53)%Z /\ (lo <= e <= hi)%Z.

(** [close k a b]: two numbers above zero, each at least [(1 - 2^-52) ^ k]
    times the other, as after [k] roundings. *)
Definition close (k : nat) (a b : R) : Prop :=
  (0 < a /\ 0 < b /\ (1 - / 2 ^ 52) ^ k * b <= a /\ (1 - / 2 ^ 52) ^ k * a <= b)%R.

End Binary64.

(* ================================================================== *)
(** * The nomogram read over the real numbers *)
(* ================================================================== *)

(** The nomogram calls [Math.log10] and [Math.pow], which ECMA-262 leaves
    implementation-approximated.  Beside the binary64 code, the same formula
    is given with every operation taken exactly: a number is a real,
    [Math.log10] is the decimal logarithm and [Math.pow] the real power. *)
Module Ideal.
Local Open Scope R_scope.

Definition log10 (x : R) : R := ln x / ln 10.

Definition NOMO_T1 : R := 4.
Definition NOMO_C1 : R := 150.
Definition NOMO_T2 : R := 24.
Definition NOMO_C2 : R := 4.69.

Definition nomogramThresholdAtHours (h : R) : R :=
  if Rle_dec h NOMO_T1 then NOMO_C1
  else if Rle_dec NOMO_T2 h then NOMO_C2
  else
    let logC1 := log10 NOMO_C1 in
    let logC2 := log10 NOMO_C2 in
    let ratio := (h - NOMO_T1) / (NOMO_T2 - NOMO_T1) in
    let logC := logC1 + (logC2 - logC1) * ratio in
    Rpower 10 logC.

End Ideal.

(* ================================================================== *)
(** * Facts about binary64 comparison and division *)
(* ================================================================== *)

Module FloatFacts.

Lemma SFcompare_refl (x : spec_float) :
  x <> S754_nan -> SFcompare x x = Some Eq.
Proof.
  destruct x as [s | s | | s m e]; simpl; intro H; try congruence.
  - destruct s; reflexivity.
  - destruct s; rewrite Z.compare_refl, Pos.compare_cont_refl; reflexivity.
Qed.

Lemma SFcompare_antisym (x y : spec_float) :
  SFcompare y x = option_map CompOpp (SFcompare x y).
Proof.
  destruct x as [sx | sx | | sx mx ex], y as [sy | sy | | sy my ey]; simpl;
    try reflexivity;
    try (destruct sx; reflexivity);
    try (destruct sy; reflexivity);
    try (destruct sx, sy; reflexivity).
  destruct sx, sy; simpl; try reflexivity;
    rewrite (Z.compare_antisym ex ey);
    destruct (ex ?= ey)%Z; simpl; try reflexivity;
    rewrite (Pos.compare_cont_antisym mx my Eq); simpl;
    try rewrite CompOpp_involutive; reflexivity.
Qed.

Lemma ltb_compare (a b : float) :
  (a <? b)%float = true -> SFcompare (Prim2SF a) (Prim2SF b) = Some Lt.
Proof.
  rewrite ltb_spec. unfold SFltb.
  destruct (SFcompare (Prim2SF a) (Prim2SF b)) as [[ | | ] | ]; congruence.
Qed.

Lemma compare_not_nan_l (x y : spec_float) (c : comparison) :
  SFcompare x y = Some c -> x <> S754_nan.
Proof. destruct x; simpl; congruence. Qed.

Lemma compare_not_nan_r (x y : spec_float) (c : comparison) :
  SFcompare x y = Some c -> y <> S754_nan.
Proof. destruct x, y; simpl; congruence. Qed.

Lemma not_nan_is_nan (a : float) :
  Prim2SF a <> S754_nan -> is_nan a = false.
Proof.
  intro H. unfold is_nan. rewrite eqb_spec. unfold SFeqb.
  rewrite SFcompare_refl by assumption. reflexivity.
Qed.

Lemma is_nan_true (a : float) : is_nan a = true -> a = nan.
Proof.
  intro H. apply Prim2SF_inj.
  destruct (Prim2SF a) eqn:E; try reflexivity;
    rewrite not_nan_is_nan in H by (rewrite E; discriminate); discriminate.
Qed.

Lemma ltb_not_nan_l (a b : float) : (a <? b)%float = true -> is_nan a = false.
Proof.
  intro H. apply not_nan_is_nan. eapply compare_not_nan_l, ltb_compare, H.
Qed.

Lemma ltb_not_nan_r (a b : float) : (a <? b)%float = true -> is_nan b = false.
Proof.
  intro H. apply not_nan_is_nan. eapply compare_not_nan_r, ltb_compare, H.
Qed.

Lemma ltb_asym (a b : float) : (a <? b)%float = true -> (b <? a)%float = false.
Proof.
  intro H. rewrite ltb_spec. unfold SFltb.
  rewrite SFcompare_antisym, (ltb_compare _ _ H). reflexivity.
Qed.

Lemma ltb_not_leb (a b : float) : (a <? b)%float = true -> (b <=? a)%float = false.
Proof.
  intro H. rewrite leb_spec. unfold SFleb.
  rewrite SFcompare_antisym, (ltb_compare _ _ H). reflexivity.
Qed.

Lemma ltb_not_eqb (a b : float) : (a <? b)%float = true -> (b =? a)%float = false.
Proof.
  intro H. rewrite eqb_spec. unfold SFeqb.
  rewrite SFcompare_antisym, (ltb_compare _ _ H). reflexivity.
Qed.

Lemma ltb_not_eqb_l (a b : float) : (a <? b)%float = true -> (a =? b)%float = false.
Proof.
  intro H. rewrite eqb_spec. unfold SFeqb.
  rewrite (ltb_compare _ _ H). reflexivity.
Qed.

Lemma leb_refl (a : float) : is_nan a = false -> (a <=? a)%float = true.
Proof.
  unfold is_nan. rewrite leb_spec, eqb_spec. unfold SFeqb, SFleb.
  destruct (SFcompare (Prim2SF a) (Prim2SF a)) as [[ | | ] | ]; simpl; congruence.
Qed.

(** A number above zero is truthy and fails [n <= 0]. *)
Lemma positive_truthy (n : float) : (0 <? n)%float = true -> JS.truthyNum n = true.
Proof.
  intro H. unfold JS.truthyNum, is_zero, zero.
  rewrite (ltb_not_nan_r _ _ H), (ltb_not_eqb _ _ H). reflexivity.
Qed.

(** Dividing a number above zero by [0] gives [Infinity]. *)
Lemma div_positive_zero (x : float) :
  (0 <? x)%float = true -> (x / 0)%float = infinity.
Proof.
  intro H. apply Prim2SF_inj. rewrite div_spec.
  pose proof (ltb_compare _ _ H) as C.
  replace (Prim2SF 0) with (S754_zero false) in * by reflexivity.
  replace (Prim2SF infinity) with (S754_infinity false) by reflexivity.
  destruct (Prim2SF x) as [s | s | | s m e]; cbn [SFcompare] in C;
    try discriminate; unfold SF64div, SFdiv;
    destruct s; try discriminate; reflexivity.
Qed.

(** At or above the 24-hour point is not at or below the 4-hour point. *)
Lemma leb_24_not_leb_4 (h : float) :
  (24 <=? h)%float = true -> (h <=? 4)%float = false.
Proof.
  rewrite !leb_spec. unfold SFleb.
  replace (Prim2SF 24) with (S754_finite false 6755399441055744 (-48)) by reflexivity.
  replace (Prim2SF 4) with (S754_finite false 4503599627370496 (-50)) by reflexivity.
  destruct (Prim2SF h) as [s | s | | s m e]; cbn [SFcompare]; try discriminate.
  - destruct s; [discriminate | reflexivity].
  - destruct s; try discriminate.
    destruct (Z.compare_spec (-48) e) as [E | E | E]; intro H; try discriminate.
    + subst e. reflexivity.
    + assert (G : (e ?= -50)%Z = Gt) by (apply Z.compare_gt_iff; lia).
      rewrite G. reflexivity.
Qed.

End FloatFacts.

(* ================================================================== *)
(** * The built-ins on sample inputs *)
(* ================================================================== *)

Module BuiltinExamples.
Import JS.

Example parseFloat_samples :
  parseFloat (VStr "12") = 12%float /\
  parseFloat (VStr " 4.69 mg") = 4.69%float /\
  parseFloat (VStr "-10") = (-10)%float /\
  parseFloat (VStr ".5e1") = 5%float /\
  parseFloat (VStr "1e400") = infinity /\
  parseFloat (VNum 0.45359237) = 0.45359237%float /\
  parseFloat (VNum 1e21) = 1e21%float /\
  is_nan (parseFloat (VStr "")) = true /\
  is_nan (parseFloat (VStr "abc")) = true /\
  is_nan (parseFloat VNull) = true.
Proof. repeat split; vm_compute; reflexivity. Qed.

Example ToNumber_samples :
  ToNumber (VStr "") = 0%float /\
  ToNumber (VStr " 12 ") = 12%float /\
  ToNumber (VStr "0x1F") = 31%float /\
  is_nan (ToNumber (VStr "12px")) = true /\
  is_nan (ToNumber VUndefined) = true /\
  ToNumber VNull = 0%float.
Proof. repeat split; vm_compute; reflexivity. Qed.

Example parseInt_samples :
  parseInt (VNum 4) = 4%float /\
  parseInt (VStr "4.7") = 4%float /\
  parseInt (VStr "0x1f") = 31%float /\
  parseInt (VNum 1e21) = 1%float /\
  is_nan (parseInt (VStr "")) = true.
Proof. repeat split; vm_compute; reflexivity. Qed.

Example Number_toString_samples :
  Number_toString 1200 = "1200" /\
  Number_toString 0.1 = "0.1" /\
  Number_toString (0.1 + 0.2) = "0.30000000000000004" /\
  Number_toString 1e21 = "1e+21" /\
  Number_toString 123456789012345680000 = "123456789012345680000" /\
  Number_toString 1.5e-7 = "1.5e-7" /\
  Number_toString (-10) = "-10" /\
  Number_toString (0 / 0) = "NaN".
Proof. repeat split; vm_compute; reflexivity. Qed.

Example Math_samples :
  Math_round 2.5 = 3%float /\
  Math_round (-2.5) = (-2)%float /\
  Math_round 7.2 = 7%float /\
  Math_round (-0.2) = neg_zero /\
  Math_round 0.49999999999999994 = 0%float /\
  Math_min 1200 1000 = 1000%float /\
  is_nan (Math_min 1200 nan) = true /\
  Math_max 2 4 = 4%float.
Proof. repeat split; vm_compute; reflexivity. Qed.

End BuiltinExamples.

(* ================================================================== *)
(** * The nomogram threshold *)
(* ================================================================== *)

Module NomogramProps.
Import Acetaminophen.

Lemma ln_10_pos : (0 < ln 10)%R.
Proof. rewrite <- ln_1. apply ln_increasing; lra. Qed.

(** The real power of ten of a decimal logarithm mean is a square root:
    its square is the product. *)
Lemma Rpower_log10_mean_sqr (a b : R) :
  (0 < a)%R -> (0 < b)%R ->
  let t := Rpower 10 ((Ideal.log10 a + Ideal.log10 b) / 2) in
  (0 < t /\ t * t = a * b)%R.
Proof.
  intros Ha Hb t. pose proof ln_10_pos as L.
  assert (E : t = exp ((ln a + ln b) / 2)).
  { unfold t, Rpower, Ideal.log10. f_equal. field. lra. }
  split.
  - rewrite E. apply exp_pos.
  - rewrite E, <- exp_plus.
    replace ((ln a + ln b) / 2 + (ln a + ln b) / 2)%R with (ln a + ln b)%R by field.
    rewrite exp_plus, !exp_ln by assumption. reflexivity.
Qed.

Lemma ideal_interpolation (h : R) :
  (4 < h < 24)%R ->
  Ideal.nomogramThresholdAtHours h =
  Rpower 10 (Ideal.log10 150 + (Ideal.log10 4.69 - Ideal.log10 150) * (h - 4) / (24 - 4)).
Proof.
  intros [H1 H2]. unfold Ideal.nomogramThresholdAtHours,
    Ideal.NOMO_T1, Ideal.NOMO_T2, Ideal.NOMO_C1, Ideal.NOMO_C2.
  destruct (Rle_dec h 4); [lra | ].
  destruct (Rle_dec 24 h); [lra | ].
  cbv zeta. f_equal. field.
Qed.

Section Threshold.

Variable Math_log10 : float -> float.
Variable Math_pow : float -> float -> float.

(** C1: for every elapsed-hours input [h] the threshold function returns the
    4-hour reference value 150 when [h <= 4], the 24-hour reference value
    4.69 when [h >= 24], and otherwise ten to the power of the log-linear
    interpolation [log10 150 + (log10 4.69 - log10 150) * (h - 4) / (24 - 4)].
    The first part is the code on binary64 numbers, for any [Math.log10] and
    [Math.pow]; the second part is the same function with exact operations. *)
Theorem nomogramThresholdAtHours_cases :
  (forall h : float,
     ((h <=? 4)%float = true ->
      nomogramThresholdAtHours Math_log10 Math_pow h = 150%float) /\
     ((24 <=? h)%float = true ->
      nomogramThresholdAtHours Math_log10 Math_pow h = 4.69%float) /\
     ((h <=? 4)%float = false -> (24 <=? h)%float = false ->
      nomogramThresholdAtHours Math_log10 Math_pow h =
      Math_pow 10
        (Math_log10 150 + (Math_log10 4.69 - Math_log10 150) * ((h - 4) / (24 - 4)))%float))
  /\
  (forall h : R,
     ((h <= 4)%R -> Ideal.nomogramThresholdAtHours h = 150%R) /\
     ((24 <= h)%R -> Ideal.nomogramThresholdAtHours h = 4.69%R) /\
     ((4 < h < 24)%R ->
      Ideal.nomogramThresholdAtHours h =
      Rpower 10
        (Ideal.log10 150 + (Ideal.log10 4.69 - Ideal.log10 150) * (h - 4) / (24 - 4)))).
Proof.
  split; intro h; repeat split.
  - intro H. unfold nomogramThresholdAtHours, NOMO_T1. rewrite H. reflexivity.
  - intro H. unfold nomogramThresholdAtHours, NOMO_T1, NOMO_T2.
    rewrite (FloatFacts.leb_24_not_leb_4 h H), H. reflexivity.
  - intros H4 H24. unfold nomogramThresholdAtHours, NOMO_T1, NOMO_T2.
    rewrite H4, H24. reflexivity.
  - intro H. unfold Ideal.nomogramThresholdAtHours, Ideal.NOMO_T1.
    destruct (Rle_dec h 4); [reflexivity | lra].
  - intro H. unfold Ideal.nomogramThresholdAtHours, Ideal.NOMO_T1, Ideal.NOMO_T2.
    destruct (Rle_dec h 4); [lra | ].
    destruct (Rle_dec 24 h); [reflexivity | lra].
  - apply ideal_interpolation.
Qed.

(** C2: the threshold at the reference points: [threshold 4 = 150],
    [threshold 24 = 4.69], [threshold 2 = threshold 4],
    [threshold 30 = threshold 24], and [threshold 14] is the interpolation
    half way between the two logarithms: on binary64 numbers, [Math.pow]
    applied to [log10 150 + (log10 4.69 - log10 150) * 0.5]; with exact
    operations the geometric mean [10 ^ ((log10 150 + log10 4.69) / 2)],
    which lies between 26.52 and 26.53. *)
Theorem nomogram_reference_points :
  (nomogramThresholdAtHours Math_log10 Math_pow 4 = 150 /\
   nomogramThresholdAtHours Math_log10 Math_pow 24 = 4.69 /\
   nomogramThresholdAtHours Math_log10 Math_pow 2 =
     nomogramThresholdAtHours Math_log10 Math_pow 4 /\
   nomogramThresholdAtHours Math_log10 Math_pow 30 =
     nomogramThresholdAtHours Math_log10 Math_pow 24 /\
   nomogramThresholdAtHours Math_log10 Math_pow 14 =
     Math_pow 10 (Math_log10 150 + (Math_log10 4.69 - Math_log10 150) * 0.5))%float
  /\
  (Ideal.nomogramThresholdAtHours 4 = 150 /\
   Ideal.nomogramThresholdAtHours 24 = 4.69 /\
   Ideal.nomogramThresholdAtHours 2 = Ideal.nomogramThresholdAtHours 4 /\
   Ideal.nomogramThresholdAtHours 30 = Ideal.nomogramThresholdAtHours 24 /\
   Ideal.nomogramThresholdAtHours 14 =
     Rpower 10 ((Ideal.log10 150 + Ideal.log10 4.69) / 2) /\
   26.52 < Ideal.nomogramThresholdAtHours 14 < 26.53)%R.
Proof.
  split.
  - repeat split; reflexivity.
  - assert (P4 : Ideal.nomogramThresholdAtHours 4 = 150%R).
    { unfold Ideal.nomogramThresholdAtHours, Ideal.NOMO_T1.
      destruct (Rle_dec 4 4); [reflexivity | lra]. }
    assert (P2 : Ideal.nomogramThresholdAtHours 2 = 150%R).
    { unfold Ideal.nomogramThresholdAtHours, Ideal.NOMO_T1.
      destruct (Rle_dec 2 4); [reflexivity | lra]. }
    assert (P24 : Ideal.nomogramThresholdAtHours 24 = 4.69%R).
    { unfold Ideal.nomogramThresholdAtHours, Ideal.NOMO_T1, Ideal.NOMO_T2.
      destruct (Rle_dec 24 4); [lra | ].
      destruct (Rle_dec 24 24); [reflexivity | lra]. }
    assert (P30 : Ideal.nomogramThresholdAtHours 30 = 4.69%R).
    { unfold Ideal.nomogramThresholdAtHours, Ideal.NOMO_T1, Ideal.NOMO_T2.
      destruct (Rle_dec 30 4); [lra | ].
      destruct (Rle_dec 24 30); [reflexivity | lra]. }
    assert (P14 : Ideal.nomogramThresholdAtHours 14 =
                  Rpower 10 ((Ideal.log10 150 + Ideal.log10 4.69) / 2)).
    { rewrite ideal_interpolation by lra. f_equal. field. }
    rewrite P4, P2, P24, P30. repeat split; try reflexivity; try exact P14.
    + rewrite P14.
      destruct (Rpower_log10_mean_sqr 150 4.69) as [Hp Hs]; try lra.
      cbv zeta in Hp, Hs. nra.
    + rewrite P14.
      destruct (Rpower_log10_mean_sqr 150 4.69) as [Hp Hs]; try lra.
      cbv zeta in Hp, Hs. nra.
Qed.

End Threshold.

End NomogramProps.

(* ================================================================== *)
(** * The paracetamol dose and its cap *)
(* ================================================================== *)

Module TylenolProps.
Import JS Tylenol.
Local Open Scope list_scope.

Lemma applied_capped (st : state) (wKg : float) :
  (parseFloat (maxSingleMg st) <? rawMg_of st wKg)%float = true ->
  appliedSingleMg_of st wKg = parseFloat (maxSingleMg st).
Proof.
  intro H. unfold appliedSingleMg_of, Math_min.
  rewrite (FloatFacts.ltb_not_nan_r _ _ H), (FloatFacts.ltb_not_nan_l _ _ H),
    (FloatFacts.ltb_asym _ _ H), H.
  reflexivity.
Qed.

Lemma applied_uncapped (st : state) (wKg : float) :
  (rawMg_of st wKg <? parseFloat (maxSingleMg st))%float = true ->
  appliedSingleMg_of st wKg = rawMg_of st wKg.
Proof.
  intro H. unfold appliedSingleMg_of, Math_min.
  rewrite (FloatFacts.ltb_not_nan_r _ _ H), (FloatFacts.ltb_not_nan_l _ _ H), H.
  reflexivity.
Qed.

Lemma warnings_compute (now : string) (st : state) (wKg : float) :
  warnings (compute now st wKg) =
  (if (ToNumber (ageMonths st) <? 1)%float then [warn_neonate] else [])
  ++ (if (ToNumber (maxSingleMg st) <=? appliedSingleMg_of st wKg)%float
      then [warn_capped (rawMg_of st wKg) (maxSingleMg st)] else [])
  ++ (if exceedsDaily st wKg
      then [warn_daily (dailyMg_of st wKg) (maxDailyMg st)] else []).
Proof. reflexivity. Qed.

(** C3, as the code has it.  Once the weight is accepted and the cap field
    holds a number or a decimal numeral:
    - a raw dose [weightKg * mgPerKg] above the cap is replaced by the cap,
      which is reported rounded to two decimals, and the cap warning is in
      the warnings list, which is therefore not empty;
    - a raw dose below the cap is kept, reported rounded to two decimals like
      the raw dose itself; the warnings list then holds only the neonate and
      daily-total warnings, and is empty when the age is at least one month
      and the daily total does not exceed the configured maximum. *)
Theorem calculate_cap (now : string) (st : state) (wKg : float) :
  toKg (weight st) (weightUnit st) = Some wKg ->
  truthyNum wKg = true ->
  ToNumber (maxSingleMg st) = parseFloat (maxSingleMg st) ->
  calculate now st = (setResult st (compute now st wKg), [ToastSuccess msg_done]) /\
  ((parseFloat (maxSingleMg st) <? rawMg_of st wKg)%float = true ->
     appliedSingleMg (compute now st wKg) =
       (Math_round (parseFloat (maxSingleMg st) * 100) / 100)%float /\
     In (warn_capped (rawMg_of st wKg) (maxSingleMg st)) (warnings (compute now st wKg)) /\
     warnings (compute now st wKg) <> []) /\
  ((rawMg_of st wKg <? parseFloat (maxSingleMg st))%float = true ->
     appliedSingleMg (compute now st wKg) =
       (Math_round (rawMg_of st wKg * 100) / 100)%float /\
     appliedSingleMg (compute now st wKg) = rawMg (compute now st wKg) /\
     warnings (compute now st wKg) =
       (if (ToNumber (ageMonths st) <? 1)%float then [warn_neonate] else [])
       ++ (if exceedsDaily st wKg
           then [warn_daily (dailyMg_of st wKg) (maxDailyMg st)] else []) /\
     ((ToNumber (ageMonths st) <? 1)%float = false ->
      exceedsDaily st wKg = false ->
      warnings (compute now st wKg) = [])).
Proof.
  intros Hw Ht Hcap. split; [ | split].
  - unfold calculate. rewrite Hw, Ht. reflexivity.
  - intro H.
    assert (W : In (warn_capped (rawMg_of st wKg) (maxSingleMg st))
                  (warnings (compute now st wKg))).
    { rewrite warnings_compute, Hcap, (applied_capped st wKg H),
        (FloatFacts.leb_refl _ (FloatFacts.ltb_not_nan_l _ _ H)).
      apply in_or_app. right. left. reflexivity. }
    split; [ | split].
    + change (appliedSingleMg (compute now st wKg))
        with (Math_round (appliedSingleMg_of st wKg * 100) / 100)%float.
      rewrite (applied_capped st wKg H). reflexivity.
    + exact W.
    + intro E. rewrite E in W. exact W.
  - intro H.
    assert (W : warnings (compute now st wKg) =
                (if (ToNumber (ageMonths st) <? 1)%float then [warn_neonate] else [])
                ++ (if exceedsDaily st wKg
                    then [warn_daily (dailyMg_of st wKg) (maxDailyMg st)] else [])).
    { rewrite warnings_compute, Hcap, (applied_uncapped st wKg H),
        (FloatFacts.ltb_not_leb _ _ H). reflexivity. }
    split; [ | split; [ | split]].
    + change (appliedSingleMg (compute now st wKg))
        with (Math_round (appliedSingleMg_of st wKg * 100) / 100)%float.
      rewrite (applied_uncapped st wKg H). reflexivity.
    + change (appliedSingleMg (compute now st wKg) = rawMg (compute now st wKg))
        with ((Math_round (appliedSingleMg_of st wKg * 100) / 100)%float
              = (Math_round (rawMg_of st wKg * 100) / 100)%float).
      rewrite (applied_uncapped st wKg H). reflexivity.
    + exact W.
    + intros Ha Hd. rewrite W, Ha, Hd. reflexivity.
Qed.

(** The two scenarios of the specification, through [calculate_cap]: 80 kg
    at 15 mg/kg gives a raw dose of 1200 mg, capped to 1000 mg with a
    warning; 12 kg gives 180 mg, not capped, with no warning. *)
Lemma calculate_cap_scenarios :
  (rawMg (compute "" scenario_80kg 80) = 1200%float /\
   appliedSingleMg (compute "" scenario_80kg 80) = 1000%float /\
   warnings (compute "" scenario_80kg 80) <> []) /\
  (rawMg (compute "" scenario_12kg 12) = 180%float /\
   appliedSingleMg (compute "" scenario_12kg 12) = 180%float /\
   warnings (compute "" scenario_12kg 12) = []).
Proof.
  split.
  - destruct (calculate_cap "" scenario_80kg 80) as (_ & H & _);
      try (vm_compute; reflexivity).
    destruct H as (Ha & _ & Hn); [vm_compute; reflexivity | ].
    split; [vm_compute; reflexivity | ]. split; [ | exact Hn].
    rewrite Ha. vm_compute. reflexivity.
  - destruct (calculate_cap "" scenario_12kg 12) as (_ & _ & H);
      try (vm_compute; reflexivity).
    destruct H as (Ha & _ & _ & He); [vm_compute; reflexivity | ].
    split; [vm_compute; reflexivity | ]. split.
    + rewrite Ha. vm_compute. reflexivity.
    + apply He; vm_compute; reflexivity.
Defined.

(** C3 as stated fails: for a child of 2 days weighing 12 kg the raw dose
    180 mg is below the cap of 1000 mg and is not capped, yet the warnings
    list is not empty (it holds the neonate warning). *)
Lemma below_cap_warnings_not_empty :
  toKg (weight scenario_12kg_2days) (weightUnit scenario_12kg_2days) = Some 12%float /\
  (rawMg_of scenario_12kg_2days 12 <? parseFloat (maxSingleMg scenario_12kg_2days))%float = true /\
  option_map appliedSingleMg (doseResult (fst (calculate "" scenario_12kg_2days)))
    = Some 180%float /\
  option_map warnings (doseResult (fst (calculate "" scenario_12kg_2days)))
    = Some [warn_neonate] /\
  option_map warnings (doseResult (fst (calculate "" scenario_12kg_2days))) <> Some [].
Proof.
  repeat split; try (vm_compute; reflexivity).
  vm_compute. discriminate.
Qed.

End TylenolProps.

(* ================================================================== *)
(** * Validation and unit conversion in the nomogram calculator *)
(* ================================================================== *)

Module AcetaminophenProps.
Import JS Acetaminophen.
Local Open Scope list_scope.

Section Validation.

Variable Math_log10 : float -> float.
Variable Math_pow : float -> float -> float.
Variable Date_getTime : string -> float.

(** A call of [calculate] shows exactly one toast. *)
Lemma calculate_one_toast (now : string) (st : state) :
  List.length (snd (calculate Math_log10 Math_pow Date_getTime now st)) = 1%nat.
Proof.
  unfold calculate.
  destruct (computedHoursSince Date_getTime st) as [h | ]; [ | reflexivity].
  destruct (is_nan h); [reflexivity | ].
  destruct (negb (truthyNum (concentration_ugmL st)) || is_nan (concentration_ugmL st))%bool;
    reflexivity.
Qed.

(** C4, as the code has it: [calculate] checks the time first and the
    concentration second and stops at the first check that fails.  When the
    time is missing it reports the time problem alone, whatever the
    concentration; when the time is given and the concentration is missing or
    invalid it reports the concentration problem.  In both cases the state is
    unchanged: no result is computed and nothing is added to the history.
    Otherwise one result is computed and stored. *)
Theorem calculate_first_problem_only (now : string) (st : state) :
  let timeMissing :=
    match computedHoursSince Date_getTime st with
    | None => true
    | Some h => is_nan h
    end in
  let concentrationInvalid :=
    (negb (truthyNum (concentration_ugmL st)) || is_nan (concentration_ugmL st))%bool in
  (timeMissing = true ->
   calculate Math_log10 Math_pow Date_getTime now st = (st, [ToastError msg_time])) /\
  (timeMissing = false -> concentrationInvalid = true ->
   calculate Math_log10 Math_pow Date_getTime now st = (st, [ToastError msg_concentration])) /\
  (timeMissing = false -> concentrationInvalid = false ->
   exists res,
     current (fst (calculate Math_log10 Math_pow Date_getTime now st)) = Some res /\
     history (fst (calculate Math_log10 Math_pow Date_getTime now st)) = res :: history st /\
     snd (calculate Math_log10 Math_pow Date_getTime now st) = [ToastSuccess msg_done]).
Proof.
  cbv zeta. unfold calculate.
  destruct (computedHoursSince Date_getTime st) as [h | ].
  - destruct (is_nan h).
    + repeat split; intros; try reflexivity; discriminate.
    + destruct (negb (truthyNum (concentration_ugmL st)) || is_nan (concentration_ugmL st))%bool.
      * repeat split; intros; try reflexivity; discriminate.
      * split; [intros; discriminate | ]. split; [intros; discriminate | ].
        intros _ _. eexists. repeat split.
  - repeat split; intros; try reflexivity; discriminate.
Qed.

End Validation.

(** C4 as stated fails: with no time given and the concentration field
    cleared, two required fields are missing, and whatever the environment
    [calculate] reports one problem, the time, not two. *)
Lemma two_missing_fields_one_error :
  (forall Date_getTime, computedHoursSince Date_getTime scenario_nothing_entered = None) /\
  truthyNum (concentration_ugmL scenario_nothing_entered) = false /\
  (forall Math_log10 Math_pow Date_getTime now,
     calculate Math_log10 Math_pow Date_getTime now scenario_nothing_entered
     = (scenario_nothing_entered, [ToastError msg_time])) /\
  (forall Math_log10 Math_pow Date_getTime now,
     List.length (snd (calculate Math_log10 Math_pow Date_getTime now scenario_nothing_entered))
     <> 2%nat).
Proof.
  repeat split; intros; try reflexivity.
  rewrite calculate_one_toast. discriminate.
Qed.

(** C7, as the code has it: an input that [parseFloat] cannot read is
    replaced by [0] before the conversion, in both directions and in the
    concentration the calculator works with, so that the conversion returns
    the same [0] as for the input zero.  [calculate] then rejects the
    concentration, as it rejects zero: it shows an error and computes
    nothing. *)
Theorem conversion_defaults_to_zero (v : value) :
  is_nan (parseFloat v) = true ->
  umolL_to_ugmL v = 0%float /\
  ugmL_to_umolL v = 0%float /\
  umolL_to_ugmL v = umolL_to_ugmL (VNum 0) /\
  ugmL_to_umolL v = ugmL_to_umolL (VNum 0) /\
  (forall st, concentrationValue st = v -> concentration_ugmL st = 0%float) /\
  (forall Math_log10 Math_pow Date_getTime now st,
     concentrationValue st = v ->
     exists msg,
       calculate Math_log10 Math_pow Date_getTime now st = (st, [ToastError msg])).
Proof.
  intro H. apply FloatFacts.is_nan_true in H.
  assert (U : umolL_to_ugmL v = 0%float).
  { unfold umolL_to_ugmL. rewrite H. reflexivity. }
  assert (G : ugmL_to_umolL v = 0%float).
  { unfold ugmL_to_umolL. rewrite H. reflexivity. }
  assert (C : forall st, concentrationValue st = v -> concentration_ugmL st = 0%float).
  { intros st E. unfold concentration_ugmL. rewrite E.
    destruct (String.eqb (concentrationUnit st) "ug_per_mL").
    - rewrite H. reflexivity.
    - exact U. }
  split; [exact U | ]. split; [exact G | ].
  split; [rewrite U; vm_compute; reflexivity | ].
  split; [rewrite G; vm_compute; reflexivity | ].
  split; [exact C | ].
  intros L P D now st E. unfold calculate. rewrite (C st E).
  destruct (computedHoursSince D st) as [h | ]; [ | eexists; reflexivity].
  destruct (is_nan h); eexists; reflexivity.
Qed.

Lemma conversion_defaults_to_zero_example :
  umolL_to_ugmL (VStr "abc") = 0%float /\
  ugmL_to_umolL (VStr "abc") = 0%float /\
  umolL_to_ugmL (VStr "abc") = umolL_to_ugmL (VNum 0) /\
  ugmL_to_umolL (VStr "abc") = ugmL_to_umolL (VNum 0) /\
  (forall st, concentrationValue st = VStr "abc" -> concentration_ugmL st = 0%float) /\
  (forall Math_log10 Math_pow Date_getTime now st,
     concentrationValue st = VStr "abc" ->
     exists msg,
       calculate Math_log10 Math_pow Date_getTime now st = (st, [ToastError msg])).
Proof.
  apply (conversion_defaults_to_zero (VStr "abc")). vm_compute. reflexivity.
Defined.

(** C7 as stated fails: a cleared field and a non-numeric input are both
    converted to [0], the value the input ["0"] is converted to. *)
Lemma bad_input_converted_to_zero :
  is_nan (parseFloat (VStr "")) = true /\
  is_nan (parseFloat (VStr "abc")) = true /\
  umolL_to_ugmL (VStr "") = 0%float /\
  umolL_to_ugmL (VStr "abc") = 0%float /\
  umolL_to_ugmL (VStr "0") = 0%float /\
  ugmL_to_umolL (VStr "abc") = 0%float /\
  concentration_ugmL scenario_nothing_entered = 0%float.
Proof. repeat split; vm_compute; reflexivity. Qed.

End AcetaminophenProps.

(* ================================================================== *)
(** * Rounding to a step *)
(* ================================================================== *)

Module RoundingProps.
Import JS.

Lemma div_nan_l (s : float) : (nan / s)%float = nan.
Proof. apply Prim2SF_inj. rewrite div_spec. reflexivity. Qed.

Lemma mul_nan_l (s : float) : (nan * s)%float = nan.
Proof. apply Prim2SF_inj. rewrite mul_spec. reflexivity. Qed.

(** C9: [roundTo] of the paracetamol calculator, for every number [v].  A
    step that is [<= 0], is not a number, or is missing ([undefined], [null])
    falls back to rounding to two decimals, [round (v * 100) / 100], and no
    division by the step takes place; a step above zero gives
    [round (v / step) * step]. *)
Theorem roundTo_step (v s : float) :
  ((s <=? 0)%float = true ->
   Tylenol.roundTo (VNum v) (VNum s) = VNum (Math_round (v * 100) / 100)%float) /\
  (is_nan s = true ->
   Tylenol.roundTo (VNum v) (VNum s) = VNum (Math_round (v * 100) / 100)%float) /\
  Tylenol.roundTo (VNum v) VUndefined = VNum (Math_round (v * 100) / 100)%float /\
  Tylenol.roundTo (VNum v) VNull = VNum (Math_round (v * 100) / 100)%float /\
  ((0 <? s)%float = true ->
   Tylenol.roundTo (VNum v) (VNum s) = VNum (Math_round (v / s) * s)%float).
Proof.
  unfold Tylenol.roundTo, isNaN, ToNumber, truthy.
  destruct (is_nan v) eqn:Ev; cbn [orb].
  - apply FloatFacts.is_nan_true in Ev. subst v.
    repeat split; intros; try reflexivity.
    rewrite div_nan_l. change (Math_round nan) with nan. rewrite mul_nan_l.
    reflexivity.
  - split; [ | split; [ | split; [ | split]]].
    + intro H. rewrite H, orb_true_r. reflexivity.
    + intro H. unfold truthyNum. rewrite H. reflexivity.
    + reflexivity.
    + reflexivity.
    + intro H.
      rewrite (FloatFacts.positive_truthy s H), (FloatFacts.ltb_not_leb _ _ H).
      reflexivity.
Qed.

Example roundTo_samples :
  Tylenol.roundTo (VNum 7.2) (VNum 0.5) = VNum 7 /\
  Tylenol.roundTo (VNum 7.2) (VNum 0.1) = VNum (72 * 0.1) /\
  Tylenol.roundTo (VNum 7.236) (VNum 0) = VNum 7.24 /\
  Tylenol.roundTo (VNum 7.236) (VNum (-1)) = VNum 7.24 /\
  Tylenol.roundTo (VNum 7.236) (VNum nan) = VNum 7.24.
Proof. repeat split; vm_compute; reflexivity. Qed.

End RoundingProps.

(* ================================================================== *)
(** * Weight validation in the prednisolone calculator *)
(* ================================================================== *)

Module PrednisoloneProps.
Import JS Prednisolone.
Local Open Scope list_scope.

(** What the weight check does reject: a weight that is missing, is not a
    number, or is zero stops [calculate] with the weight message, and the
    state is unchanged. *)
Lemma unreadable_weight_rejected (now : string) (st : state) :
  truthyNum (parseFloat (weight st)) = false ->
  run now st = Rejected msg_weight /\
  calculate now st = Some (st, [ToastError msg_weight]).
Proof.
  intro H.
  assert (R : run now st = Rejected msg_weight).
  { unfold run, toKg. rewrite H. reflexivity. }
  split; [exact R | ]. unfold calculate. rewrite R. reflexivity.
Qed.

(** The weight check lets every negative weight through: [toKg] returns the
    negative number of kilograms, and [calculate] does not stop on the weight
    message. *)
Lemma negative_weight_passes_toKg (now : string) (st : state) :
  (parseFloat (weight st) <? 0)%float = true ->
  weightUnit st = "kg" ->
  toKg (weight st) (weightUnit st) = Some (parseFloat (weight st)) /\
  run now st <> Rejected msg_weight.
Proof.
  intros H U.
  assert (T : truthyNum (parseFloat (weight st)) = true).
  { unfold truthyNum, is_zero, zero.
    rewrite (FloatFacts.ltb_not_nan_l _ _ H), (FloatFacts.ltb_not_eqb_l _ _ H).
    reflexivity. }
  assert (K : toKg (weight st) (weightUnit st) = Some (parseFloat (weight st))).
  { unfold toKg. rewrite T, (FloatFacts.ltb_not_nan_l _ _ H), U. reflexivity. }
  split; [exact K | ].
  unfold run. rewrite K, T. cbn [negb].
  destruct (negb (truthyNum _) || _)%bool; [discriminate | ].
  destruct (getProperty (formulationKey st) formulations); discriminate.
Qed.

(** C8 at a negative weight: with [-10] typed into the weight field of the
    default form, [toKg] accepts the weight and [calculate] stores a result
    with a dose of -10 mg (-10 mL of syrup), noting only a very low weight,
    and shows the success toast; the same input is refused by the [toKg] of
    the paracetamol and nomogram calculators. *)
Lemma negative_weight_accepted :
  let st := {|
    age := VNum 4; ageUnit := "years";
    weight := VStr "-10"; weightUnit := "kg";
    presetKey := "asthma"; useCustom := false;
    customMgPerKg := VNum 1; customMaxSingle := VNum 50;
    formulationKey := "Syrup 5 mg/5 mL"; roundingMlStep := VNum 0.25;
    current := None; history := [] |} in
  toKg (weight st) (weightUnit st) = Some (-10)%float /\
  (exists res,
     calculate "" st = Some (setResult st res, [ToastSuccess msg_done]) /\
     rawSingleMg res = (-10)%float /\
     appliedSingleMg res = (-10)%float /\
     mlPerDose res = VNum (-10)%float /\
     warnings res = [warn_lowWeight]) /\
  Tylenol.toKg (VStr "-10") "kg" = None /\
  Acetaminophen.toKg (VStr "-10") "kg" = None.
Proof.
  cbv zeta. split; [vm_compute; reflexivity | ]. split.
  - eexists. split; [vm_compute; reflexivity | ].
    repeat split; vm_compute; reflexivity.
  - split; vm_compute; reflexivity.
Qed.

End PrednisoloneProps.

(* ================================================================== *)
(** * Opioid conversion *)
(* ================================================================== *)

Module OpioidProps.
Import JS Opioid.
Local Open Scope list_scope.

Lemma entryToOME_patch (cs : list (string * drugMeta)) (e : entry) :
  String.eqb (unit (metaOf cs (drug e))) "mcg/hr" = true ->
  entryToOME cs e = (parseNumber (dose e) * 24 * coeff (metaOf cs (drug e)))%float.
Proof. intro H. unfold entryToOME. rewrite H. reflexivity. Qed.

Lemma entryToOME_oral (cs : list (string * drugMeta)) (e : entry) :
  String.eqb (unit (metaOf cs (drug e))) "mcg/hr" = false ->
  entryToOME cs e =
  (parseNumber (dose e)
   * (if truthyNum (parseNumber (freqPerDay e)) then parseNumber (freqPerDay e) else 1)
   * coeff (metaOf cs (drug e)))%float.
Proof. intro H. unfold entryToOME. rewrite H. reflexivity. Qed.

Lemma calculate_accepts (now : string) (st : state) :
  (0 <? calculateTotalOME st)%float = true ->
  exists res,
    calculate now st =
      ({| entries := entries st; coefficients := coefficients st;
          targetOpioid := targetOpioid st;
          incompleteCrossTolerancePercent := incompleteCrossTolerancePercent st;
          rounding := rounding st;
          history := res :: history st; current := Some res |},
       [ToastSuccess msg_done]) /\
    rawTarget res = convertOMEtoTarget (coefficients st) (calculateTotalOME st) (targetOpioid st) /\
    adjustedValue res =
      (Math_round (target_value (rawTarget res) * reductionFactor st * 100) / 100)%float /\
    practical res =
      practicalRound (rounding st) (target_value (rawTarget res) * reductionFactor st)
        (target_unit (rawTarget res)).
Proof.
  intro H. unfold calculate.
  rewrite (FloatFacts.positive_truthy _ H), (FloatFacts.ltb_not_leb _ _ H).
  cbn [negb orb]. eexists. repeat split.
Qed.

(** C5, as the code has it, for a state whose total OME is above zero.
    - A transdermal entry (its drug is registered in mcg/hr) contributes
      [dose * 24 * coefficient]; any other entry contributes
      [dose * frequency * coefficient], where a frequency that reads as zero
      or is not a number counts as 1.  The total is the sum of the
      contributions.
    - The total is divided by [24 * coefficient] for a transdermal target and
      by the coefficient otherwise.
    - The result is multiplied by [(100 - pct) / 100]; this product is what
      is stored rounded to two decimals and what is rounded to the practical
      step of the target's unit. *)
Theorem opioid_conversion (now : string) (st : state) :
  (0 <? calculateTotalOME st)%float = true ->
  let total := calculateTotalOME st in
  let targetMeta := metaOf (coefficients st) (targetOpioid st) in
  let pct := parseNumber (orElse (incompleteCrossTolerancePercent st) (VNum 0)) in
  (forall e,
     let d := parseNumber (dose e) in
     let f := parseNumber (freqPerDay e) in
     let c := coeff (metaOf (coefficients st) (drug e)) in
     entryToOME (coefficients st) e =
       if String.eqb (unit (metaOf (coefficients st) (drug e))) "mcg/hr"
       then (d * 24 * c)%float
       else if truthyNum f then (d * f * c)%float else (d * 1 * c)%float) /\
  total = fold_left (fun s e => (s + entryToOME (coefficients st) e)%float) (entries st) 0%float /\
  exists res,
    current (fst (calculate now st)) = Some res /\
    history (fst (calculate now st)) = res :: history st /\
    rawTarget res =
      (if String.eqb (unit targetMeta) "mcg/hr"
       then {| target_value := (total / (24 * coeff targetMeta))%float; target_unit := "mcg/hr" |}
       else {| target_value := (total / coeff targetMeta)%float; target_unit := "mg/day" |}) /\
    adjustedValue res =
      (Math_round (target_value (rawTarget res) * ((100 - pct) / 100) * 100) / 100)%float /\
    practical res =
      (let adjusted := (target_value (rawTarget res) * ((100 - pct) / 100))%float in
       if String.eqb (unit targetMeta) "mcg/hr"
       then (Math_round (adjusted / orElseNum (mcg (rounding st)) 25)
             * orElseNum (mcg (rounding st)) 25)%float
       else (Math_round (adjusted / orElseNum (mg (rounding st)) 5)
             * orElseNum (mg (rounding st)) 5)%float).
Proof.
  intros H total targetMeta pct. split; [ | split].
  - intro e. cbv zeta.
    destruct (String.eqb (unit (metaOf (coefficients st) (drug e))) "mcg/hr") eqn:E.
    + apply entryToOME_patch, E.
    + rewrite (entryToOME_oral _ _ E).
      destruct (truthyNum (parseNumber (freqPerDay e))); reflexivity.
  - reflexivity.
  - destruct (calculate_accepts now st H) as (res & Hc & Hr & Ha & Hp).
    exists res. rewrite Hc. cbn [fst current history].
    split; [reflexivity | ]. split; [reflexivity | ].
    assert (Hr' : rawTarget res =
      (if String.eqb (unit targetMeta) "mcg/hr"
       then {| target_value := (total / (24 * coeff targetMeta))%float; target_unit := "mcg/hr" |}
       else {| target_value := (total / coeff targetMeta)%float; target_unit := "mg/day" |})).
    { rewrite Hr. unfold convertOMEtoTarget. fold targetMeta.
      destruct (String.eqb (unit targetMeta) "mcg/hr"); reflexivity. }
    split; [exact Hr' | ]. split; [exact Ha | ].
    rewrite Hp. unfold practicalRound. cbv zeta. rewrite Hr'.
    destruct (String.eqb (unit targetMeta) "mcg/hr"); reflexivity.
Qed.

(** The default form through [opioid_conversion]: 30 mg of oral morphine 4
    times a day is 120 mg/day, reduced by 25 % to 90 mg/day. *)
Lemma opioid_conversion_default :
  calculateTotalOME (initial 0) = 120%float /\
  exists res,
    current (fst (calculate "" (initial 0))) = Some res /\
    target_value (rawTarget res) = 120%float /\
    adjustedValue res = 90%float /\
    practical res = 90%float.
Proof.
  destruct (opioid_conversion "" (initial 0)) as (_ & _ & res & Hc & _ & Hr & Ha & Hp);
    [vm_compute; reflexivity | ].
  split; [vm_compute; reflexivity | ].
  exists res. split; [exact Hc | ].
  assert (Hv : target_value (rawTarget res) = 120%float)
    by (rewrite Hr; vm_compute; reflexivity).
  split; [exact Hv | ]. split.
  - rewrite Ha, Hv. vm_compute. reflexivity.
  - rewrite Hp. cbv zeta. rewrite Hv. vm_compute. reflexivity.
Defined.

(** C5 as stated fails: with 0 typed into the frequency field, 30 mg of oral
    morphine (coefficient 1) contributes 30 mg, not 30 * 0 * 1 = 0. *)
Lemma zero_frequency_counts_as_one :
  parseNumber (dose scenario_entry_freq0) = 30%float /\
  parseNumber (freqPerDay scenario_entry_freq0) = 0%float /\
  coeff (metaOf defaultCoefficients (drug scenario_entry_freq0)) = 1%float /\
  entryToOME defaultCoefficients scenario_entry_freq0 = 30%float /\
  (30 * 0 * 1)%float = 0%float /\
  (entryToOME defaultCoefficients scenario_entry_freq0
   =? parseNumber (dose scenario_entry_freq0)
      * parseNumber (freqPerDay scenario_entry_freq0)
      * coeff (metaOf defaultCoefficients (drug scenario_entry_freq0)))%float = false.
Proof. repeat split; vm_compute; reflexivity. Qed.

(** Dividing a number above zero by [-0] gives [-Infinity]. *)
Lemma div_positive_neg_zero (x : float) :
  (0 <? x)%float = true -> (x / -0)%float = neg_infinity.
Proof.
  intro H. apply Prim2SF_inj. rewrite div_spec.
  pose proof (FloatFacts.ltb_compare _ _ H) as C.
  replace (Prim2SF 0) with (S754_zero false) in * by reflexivity.
  replace (Prim2SF (-0)) with (S754_zero true) by reflexivity.
  replace (Prim2SF neg_infinity) with (S754_infinity true) by reflexivity.
  destruct (Prim2SF x) as [s | s | | s m e]; cbn [SFcompare] in C;
    try discriminate; unfold SF64div, SFdiv;
    destruct s; try discriminate; reflexivity.
Qed.

(** A number equal to zero is [0] or [-0]. *)
Lemma eqb_zero (c : float) : (c =? 0)%float = true -> c = 0%float \/ c = (-0)%float.
Proof.
  rewrite eqb_spec. unfold SFeqb.
  replace (Prim2SF 0) with (S754_zero false) by reflexivity.
  destruct (Prim2SF c) as [s | s | | s m e] eqn:E; cbn [SFcompare];
    try (destruct s; discriminate); try discriminate.
  intros _. destruct s; [right | left]; apply Prim2SF_inj; rewrite E; reflexivity.
Qed.

(** C10: [convertOMEtoTarget] divides the total OME by the coefficient
    registered for the target ([24 * coefficient] for a target in mcg/hr),
    whatever the coefficient: for every table of coefficients, every target
    and every total above zero, the value returned is that quotient.  No
    guard stands before the division: a coefficient equal to zero makes the
    value [Infinity] ([-Infinity] for a coefficient [-0]).  In the default
    table the target "Other (custom)" has coefficient 0 in mg, so that the
    conversion returns [Infinity] mg/day; and [calculate] then stores a
    result with the raw target [Infinity] and shows the success toast, not
    an error. *)
Theorem convert_to_zero_coefficient_target
    (cs : list (string * drugMeta)) (totalOME : float) (tgt : string) :
  (0 <? totalOME)%float = true ->
  let meta := metaOf cs tgt in
  convertOMEtoTarget cs totalOME tgt =
    (if String.eqb (unit meta) "mcg/hr"
     then {| target_value := (totalOME / (24 * coeff meta))%float; target_unit := "mcg/hr" |}
     else {| target_value := (totalOME / coeff meta)%float; target_unit := "mg/day" |}) /\
  (coeff meta = 0%float ->
   target_value (convertOMEtoTarget cs totalOME tgt) = infinity) /\
  ((coeff meta =? 0)%float = true ->
   target_value (convertOMEtoTarget cs totalOME tgt) = infinity \/
   target_value (convertOMEtoTarget cs totalOME tgt) = neg_infinity) /\
  (metaOf defaultCoefficients "Other (custom)" = {| coeff := 0; unit := "mg" |} /\
   convertOMEtoTarget defaultCoefficients totalOME "Other (custom)"
   = {| target_value := infinity; target_unit := "mg/day" |}) /\
  (forall now st,
     calculateTotalOME st = totalOME ->
     coefficients st = cs -> targetOpioid st = tgt ->
     coeff meta = 0%float ->
     exists res,
       current (fst (calculate now st)) = Some res /\
       snd (calculate now st) = [ToastSuccess msg_done] /\
       target_value (rawTarget res) = infinity).
Proof.
  intros H meta.
  assert (F : convertOMEtoTarget cs totalOME tgt =
    (if String.eqb (unit meta) "mcg/hr"
     then {| target_value := (totalOME / (24 * coeff meta))%float; target_unit := "mcg/hr" |}
     else {| target_value := (totalOME / coeff meta)%float; target_unit := "mg/day" |})).
  { unfold convertOMEtoTarget. fold meta.
    destruct (String.eqb (unit meta) "mcg/hr"); reflexivity. }
  assert (Z : coeff meta = 0%float ->
              target_value (convertOMEtoTarget cs totalOME tgt) = infinity).
  { intro E. rewrite F, E.
    destruct (String.eqb (unit meta) "mcg/hr"); cbn [target_value].
    - replace (24 * 0)%float with 0%float by (vm_compute; reflexivity).
      apply FloatFacts.div_positive_zero, H.
    - apply FloatFacts.div_positive_zero, H. }
  split; [exact F | ]. split; [exact Z | ]. split; [ | split].
  - intro E. destruct (eqb_zero _ E) as [E0 | E0]; [left; apply Z, E0 | right].
    rewrite F, E0.
    destruct (String.eqb (unit meta) "mcg/hr"); cbn [target_value].
    + replace (24 * -0)%float with (-0)%float by (vm_compute; reflexivity).
      apply div_positive_neg_zero, H.
    + apply div_positive_neg_zero, H.
  - split; [reflexivity | ].
    unfold convertOMEtoTarget.
    change (metaOf defaultCoefficients "Other (custom)") with {| coeff := 0; unit := "mg" |}.
    cbn [unit coeff]. change (String.eqb "mg" "mcg/hr") with false. cbv iota.
    rewrite (FloatFacts.div_positive_zero _ H). reflexivity.
  - intros now st Ht Hc Hg E.
    assert (P : (0 <? calculateTotalOME st)%float = true) by (rewrite Ht; exact H).
    destruct (calculate_accepts now st P) as (res & C & R & _).
    exists res. rewrite C. cbn [fst snd current].
    split; [reflexivity | ]. split; [reflexivity | ].
    rewrite R, Ht, Hc, Hg. apply Z, E.
Qed.

(** The default form, 120 mg of oral morphine a day, with the target "Other
    (custom)": the conversion returns [Infinity] mg/day, and [calculate]
    stores it under the success toast. *)
Lemma convert_to_zero_coefficient_target_120 :
  convertOMEtoTarget defaultCoefficients 120 "Other (custom)"
    = {| target_value := infinity; target_unit := "mg/day" |} /\
  exists res,
    current (fst (calculate "" (withTarget "Other (custom)"))) = Some res /\
    snd (calculate "" (withTarget "Other (custom)")) = [ToastSuccess msg_done] /\
    target_value (rawTarget res) = infinity.
Proof.
  destruct (convert_to_zero_coefficient_target defaultCoefficients 120 "Other (custom)")
    as (_ & _ & _ & [_ I] & C); [vm_compute; reflexivity | ].
  split; [exact I | ].
  apply (C "" (withTarget "Other (custom)")); vm_compute; reflexivity.
Defined.

(** C6 as stated fails: the default entry, 30 mg of oral morphine 4 times a
    day, converted to oral oxycodone and back gives 120, the dose per day,
    which is 90 away from the dose 30. *)
Lemma round_trip_returns_daily_dose :
  parseNumber (dose scenario_entry) = 30%float /\
  coeff (metaOf defaultCoefficients (drug scenario_entry)) = 1%float /\
  target_value (convertOMEtoTarget defaultCoefficients
                  (entryToOME defaultCoefficients scenario_entry) "Oral oxycodone (mg)")
    = 80%float /\
  roundTrip defaultCoefficients scenario_entry "Oral oxycodone (mg)" = 120%float /\
  (roundTrip defaultCoefficients scenario_entry "Oral oxycodone (mg)"
   - parseNumber (dose scenario_entry))%float = 90%float.
Proof. repeat split; vm_compute; reflexivity. Qed.

(** Nor does the round trip return the dose per day for every entry with
    registered coefficients above zero: a dose of 1e308 of oral
    hydromorphone (coefficient 4) overflows to [Infinity] on the way, and a
    dose of 5e-324 of oral tramadol (coefficient 0.1) underflows to 0. *)
Example round_trip_out_of_range :
  roundTrip defaultCoefficients
    {| id := VNum 0; drug := "Oral hydromorphone (mg)"; dose := VStr "1e308";
       entry_unit := "mg"; freqPerDay := VNum 1 |} "Oral morphine (mg)" = infinity /\
  roundTrip defaultCoefficients
    {| id := VNum 0; drug := "Oral tramadol (mg)"; dose := VStr "5e-324";
       entry_unit := "mg"; freqPerDay := VNum 1 |} "Oral morphine (mg)" = 0%float /\
  parseNumber (VStr "5e-324") = 0x1p-1074%float.
Proof. repeat split; vm_compute; reflexivity. Qed.

(** On binary64 numbers, for the default dose (30, 4 times a day) of each
    registered agent with a coefficient above zero and each such target, the
    round trip is within 1e-9 of the dose per day (of the dose, for the
    transdermal agent). *)
Example round_trip_registered_agents :
  let agents := filter (fun a => (0 <? coeff (snd a))%float) defaultCoefficients in
  forallb (fun a =>
    forallb (fun t =>
      let e := {| id := VNum 0; drug := fst a; dose := VStr "30";
                  entry_unit := unit (snd a); freqPerDay := VNum 4 |} in
      let expected := if String.eqb (unit (snd a)) "mcg/hr" then 30%float else 120%float in
      (abs (roundTrip defaultCoefficients e (fst t) - expected) <=? 1e-9)%float)
      agents) agents = true /\
  List.length agents = 8%nat.
Proof. split; vm_compute; reflexivity. Qed.

End OpioidProps.

(* ================================================================== *)
(** * The rounding of a binary64 product and quotient *)
(* ================================================================== *)

(** [SFmul] and [SFdiv] end in [binary_round_aux], which shifts the exact
    mantissa to the precision, rounds it, and shifts once more.  The
    mantissa that comes out is within one unit of the exact value at the
    exponent that comes out, so that a normal result is within [2^-52] of
    the exact value, relatively. *)
Module RoundingError.
Import Binary64.

Local Open Scope Z_scope.

(** A number of [k] bits is at least [2 ^ (k - 1)]. *)
Lemma digits2_pos_le (p : positive) : 2 ^ (Zpos (digits2_pos p) - 1) <= Zpos p.
Proof.
  induction p as [p IH | p IH | ]; cbn [digits2_pos].
  - rewrite Pos2Z.inj_succ.
    replace (Z.succ (Zpos (digits2_pos p)) - 1)
      with (Z.succ (Zpos (digits2_pos p) - 1)) by lia.
    rewrite Z.pow_succ_r by lia. lia.
  - rewrite Pos2Z.inj_succ.
    replace (Z.succ (Zpos (digits2_pos p)) - 1)
      with (Z.succ (Zpos (digits2_pos p) - 1)) by lia.
    rewrite Z.pow_succ_r by lia. lia.
  - reflexivity.
Qed.

(** The mantissa after [n] shifts is the quotient by [2 ^ n]. *)
Lemma shr_1_floor (mrs : shr_record) (N D : Z) :
  0 < D ->
  0 <= shr_m mrs ->
  shr_m mrs * D <= N < (shr_m mrs + 1) * D ->
  0 <= shr_m (shr_1 mrs) /\
  shr_m (shr_1 mrs) * (2 * D) <= N < (shr_m (shr_1 mrs) + 1) * (2 * D).
Proof.
  intros HD Hm HN. destruct mrs as [m r s]. cbn [shr_m] in *.
  destruct m as [ | p | p]; [ | | lia].
  - cbn [shr_1 shr_m]. lia.
  - destruct p as [p | p | ]; cbn [shr_1 shr_m].
    + rewrite Pos2Z.inj_xI in HN. lia.
    + rewrite Pos2Z.inj_xO in HN. lia.
    + lia.
Qed.

Lemma pow2_xO (n : positive) : 2 ^ Zpos n~0 = 2 ^ Zpos n * 2 ^ Zpos n.
Proof. rewrite <- Z.pow_add_r by lia. f_equal. lia. Qed.

Lemma pow2_xI (n : positive) : 2 ^ Zpos n~1 = 2 * (2 ^ Zpos n * 2 ^ Zpos n).
Proof.
  rewrite <- Z.pow_add_r, <- Z.pow_succ_r by lia. f_equal. lia.
Qed.

Lemma iter_shr_1_floor (n : positive) : forall (mrs : shr_record) (N D : Z),
  0 < D ->
  0 <= shr_m mrs ->
  shr_m mrs * D <= N < (shr_m mrs + 1) * D ->
  0 <= shr_m (SpecFloat.iter_pos shr_1 n mrs) /\
  shr_m (SpecFloat.iter_pos shr_1 n mrs) * (2 ^ Zpos n * D) <= N
    < (shr_m (SpecFloat.iter_pos shr_1 n mrs) + 1) * (2 ^ Zpos n * D).
Proof.
  induction n as [n IH | n IH | ]; intros mrs N D HD Hm HN; cbn [SpecFloat.iter_pos].
  - destruct (shr_1_floor mrs N D HD Hm HN) as [H1 H2].
    assert (P : 0 < 2 ^ Zpos n) by (apply Z.pow_pos_nonneg; lia).
    destruct (IH (shr_1 mrs) N (2 * D) ltac:(lia) H1 H2) as [H3 H4].
    destruct (IH _ N (2 ^ Zpos n * (2 * D)) ltac:(nia) H3 H4) as [H5 H6].
    split; [exact H5 | ].
    replace (2 ^ Zpos n~1 * D) with (2 ^ Zpos n * (2 ^ Zpos n * (2 * D)));
      [exact H6 | rewrite pow2_xI; ring].
  - assert (P : 0 < 2 ^ Zpos n) by (apply Z.pow_pos_nonneg; lia).
    destruct (IH mrs N D HD Hm HN) as [H3 H4].
    destruct (IH _ N (2 ^ Zpos n * D) ltac:(nia) H3 H4) as [H5 H6].
    split; [exact H5 | ].
    replace (2 ^ Zpos n~0 * D) with (2 ^ Zpos n * (2 ^ Zpos n * D));
      [exact H6 | rewrite pow2_xO; ring].
  - replace (2 ^ 1 * D) with (2 * D) by reflexivity.
    apply shr_1_floor; assumption.
Qed.

(** [shr]: the exponent grows by the number of shifts, and the mantissa is
    the quotient by that power of two. *)
Lemma shr_floor (mrs mrs' : shr_record) (e n e' N D : Z) :
  0 < D ->
  0 <= shr_m mrs ->
  shr_m mrs * D <= N < (shr_m mrs + 1) * D ->
  shr mrs e n = (mrs', e') ->
  e <= e' /\ 0 <= shr_m mrs' /\
  shr_m mrs' * (2 ^ (e' - e) * D) <= N < (shr_m mrs' + 1) * (2 ^ (e' - e) * D).
Proof.
  intros HD Hm HN E. unfold shr in E.
  destruct n as [ | p | p]; injection E as E1 E2; subst mrs' e'.
  - rewrite Z.sub_diag. change (2 ^ 0) with 1. rewrite Z.mul_1_l. lia.
  - replace (e + Zpos p - e) with (Zpos p) by lia.
    split; [lia | ]. apply iter_shr_1_floor; assumption.
  - rewrite Z.sub_diag. change (2 ^ 0) with 1. rewrite Z.mul_1_l. lia.
Qed.

Lemma shr_m_of_loc (m : Z) (l : location) : shr_m (shr_record_of_loc m l) = m.
Proof. destruct l as [ | [ | | ]]; reflexivity. Qed.

Lemma round_nearest_even_near (m : Z) (l : location) :
  m <= round_nearest_even m l <= m + 1.
Proof.
  unfold round_nearest_even. destruct l as [ | [ | | ]]; try lia.
  destruct (Z.even m); lia.
Qed.

(** The rounding that ends every operation: a finite result has the sign
    asked for, and its mantissa [m3] at its exponent [e3] is within one unit
    of the value [N / D * 2 ^ ex] that was to be rounded, whatever the
    location given with the truncated mantissa [m]. *)
Lemma binary_round_aux_near (sx : bool) (m ex : Z) (l : location) (N D : Z)
    (s3 : bool) (m3 : positive) (e3 : Z) :
  0 < D ->
  0 <= m ->
  m * D <= N < (m + 1) * D ->
  binary_round_aux prec emax sx m ex l = S754_finite s3 m3 e3 ->
  s3 = sx /\ ex <= e3 /\
  (Zpos m3 - 1) * (2 ^ (e3 - ex) * D) <= N < (Zpos m3 + 1) * (2 ^ (e3 - ex) * D).
Proof.
  intros HD Hm HN. unfold binary_round_aux.
  destruct (shr_fexp prec emax m ex l) as [mrs1 e1] eqn:E1.
  destruct (shr_fexp prec emax (round_nearest_even (shr_m mrs1) (loc_of_shr_record mrs1))
              e1 loc_Exact) as [mrs2 e2] eqn:E2.
  unfold shr_fexp in E1, E2.
  apply (shr_floor _ _ _ _ _ N D HD) in E1; rewrite ?shr_m_of_loc; try assumption.
  destruct E1 as (L1 & P1 & B1).
  pose proof (round_nearest_even_near (shr_m mrs1) (loc_of_shr_record mrs1)) as R.
  set (m2 := round_nearest_even (shr_m mrs1) (loc_of_shr_record mrs1)) in *.
  (* the second shift, on the rounded mantissa itself *)
  apply (shr_floor _ _ _ _ _ m2 1) in E2; rewrite ?shr_m_of_loc; try lia.
  destruct E2 as (L2 & P2 & B2).
  destruct (shr_m mrs2) as [ | p | p] eqn:M2; try discriminate.
  destruct (e2 <=? emax - prec); try discriminate.
  intro I. injection I as <- <- <-.
  split; [reflexivity | ]. split; [lia | ].
  replace (e2 - ex) with ((e2 - e1) + (e1 - ex)) by lia.
  rewrite Z.pow_add_r by lia.
  assert (Q1 : 0 < 2 ^ (e1 - ex)) by (apply Z.pow_pos_nonneg; lia).
  assert (Q2 : 0 < 2 ^ (e2 - e1)) by (apply Z.pow_pos_nonneg; lia).
  set (a := 2 ^ (e1 - ex)) in *. set (b := 2 ^ (e2 - e1)) in *.
  rewrite Z.mul_1_r in B2.
  split; nia.
Qed.

Local Open Scope R_scope.

Lemma IZR_pow2 (k : Z) : (0 <= k)%Z -> IZR (2 ^ k) = powerRZ 2 k.
Proof.
  intro H. rewrite <- (Z2Nat.id k H) at 1 2.
  rewrite <- pow_IZR, <- pow_powerRZ. reflexivity.
Qed.

Lemma powerRZ_2_pos (e : Z) : 0 < powerRZ 2 e.
Proof. apply powerRZ_lt. lra. Qed.

(** A positive normal number: mantissa of 53 bits, sign plus. *)
Lemma positiveNormal_spec (x : float) :
  positiveNormal x = true ->
  exists m e, Prim2SF x = S754_finite false m e /\ (2 ^ 52 <= Zpos m)%Z.
Proof.
  unfold positiveNormal. rewrite classify_spec. unfold SF64classify, SFclassify.
  destruct (Prim2SF x) as [s | s | | s m e]; try (destruct s; discriminate);
    try discriminate.
  destruct s; destruct (Z.eqb (Zpos (digits2_pos m)) prec) eqn:E; try discriminate.
  intros _. exists m, e. split; [reflexivity | ].
  apply Z.eqb_eq in E. pose proof (digits2_pos_le m) as L.
  rewrite E in L. exact L.
Qed.

Lemma realOf_finite (x : float) (m : positive) (e : Z) :
  Prim2SF x = S754_finite false m e -> realOf x = IZR (Zpos m) * powerRZ 2 e.
Proof. intro H. unfold realOf. rewrite H. cbn [SF2R]. ring. Qed.

(** From the integer bounds of [binary_round_aux_near] to the two numbers
    being close, when the result is normal. *)
Lemma near_close (m3 : positive) (e3 ex N D : Z) (v : R) :
  (2 ^ 52 <= Zpos m3)%Z -> (ex <= e3)%Z -> (0 < D)%Z ->
  ((Zpos m3 - 1) * (2 ^ (e3 - ex) * D) <= N < (Zpos m3 + 1) * (2 ^ (e3 - ex) * D))%Z ->
  v = IZR N / IZR D * powerRZ 2 ex ->
  close 1 (IZR (Zpos m3) * powerRZ 2 e3) v.
Proof.
  intros Hm He HD [HN1 HN2] Hv.
  assert (E3 : powerRZ 2 e3 = IZR (2 ^ (e3 - ex)) * powerRZ 2 ex).
  { rewrite IZR_pow2 by lia. rewrite <- powerRZ_add by lra. f_equal. lia. }
  apply IZR_le in HN1. apply IZR_lt in HN2. apply IZR_le in Hm. apply IZR_lt in HD.
  rewrite !mult_IZR in HN1, HN2. rewrite minus_IZR in HN1. rewrite plus_IZR in HN2.
  assert (P : 0 < IZR (2 ^ (e3 - ex))).
  { apply IZR_lt. apply Z.pow_pos_nonneg; lia. }
  pose proof (powerRZ_2_pos ex) as E.
  replace (IZR (2 ^ 52)) with (2 ^ 52) in Hm by (rewrite (pow_IZR 2 52); reflexivity).
  set (p := IZR (2 ^ (e3 - ex))) in *. set (d := IZR D) in *.
  set (n := IZR N) in *. set (m := IZR (Zpos m3)) in *. set (t := powerRZ 2 ex) in *.
  rewrite E3. subst v.
  assert (W1 : (m - 1) * p <= n / d).
  { apply Rmult_le_reg_r with d; [exact HD | ].
    replace (n / d * d) with n by (field; lra). lra. }
  assert (W2 : n / d < (m + 1) * p).
  { apply Rmult_lt_reg_r with d; [exact HD | ].
    replace (n / d * d) with n by (field; lra). lra. }
  set (w := n / d) in *.
  assert (U : / 2 ^ 52 * m >= 1).
  { apply Rle_ge. apply Rmult_le_reg_l with (2 ^ 52); [lra | ].
    rewrite <- Rmult_assoc, Rinv_r by lra. lra. }
  assert (U0 : 0 < / 2 ^ 52) by (apply Rinv_0_lt_compat; lra).
  unfold close. rewrite pow_1.
  set (u := / 2 ^ 52) in *.
  assert (M1 : 1 <= m) by lra.
  assert (W0 : 0 < w) by nra.
  split; [ | split; [ | split]].
  - apply Rmult_lt_0_compat; [lra | ]. apply Rmult_lt_0_compat; assumption.
  - apply Rmult_lt_0_compat; assumption.
  - assert (A : (1 - u) * w <= m * p) by nra.
    replace ((1 - u) * (w * t)) with ((1 - u) * w * t) by ring.
    replace (m * (p * t)) with (m * p * t) by ring.
    apply Rmult_le_compat_r; lra.
  - assert (A : (1 - u) * (m * p) <= w) by nra.
    replace ((1 - u) * (m * (p * t))) with ((1 - u) * (m * p) * t) by ring.
    apply Rmult_le_compat_r; lra.
Qed.

(** Multiplication: a normal product of two normal numbers is close to the
    product of the two numbers. *)
Lemma mul_close (x y : float) :
  positiveNormal x = true -> positiveNormal y = true ->
  positiveNormal (x * y)%float = true ->
  close 1 (realOf (x * y)%float) (realOf x * realOf y).
Proof.
  intros Hx Hy Hz.
  destruct (positiveNormal_spec x Hx) as (mx & ex & Ex & _).
  destruct (positiveNormal_spec y Hy) as (my & ey & Ey & _).
  destruct (positiveNormal_spec _ Hz) as (mz & ez & Ez & Mz).
  rewrite (realOf_finite _ _ _ Ex), (realOf_finite _ _ _ Ey), (realOf_finite _ _ _ Ez).
  rewrite mul_spec, Ex, Ey in Ez. unfold SF64mul, SFmul in Ez.
  apply (binary_round_aux_near _ _ _ _ (Zpos (mx * my)) 1) in Ez; try lia.
  destruct Ez as (_ & He & HN).
  apply (near_close mz ez (ex + ey) (Zpos (mx * my)) 1); try assumption; try lia.
  rewrite Pos2Z.inj_mul, mult_IZR, powerRZ_add by lra. field.
Qed.

(** Division, likewise. *)
Lemma div_close (x y : float) :
  positiveNormal x = true -> positiveNormal y = true ->
  positiveNormal (x / y)%float = true ->
  close 1 (realOf (x / y)%float) (realOf x / realOf y).
Proof.
  intros Hx Hy Hz.
  destruct (positiveNormal_spec x Hx) as (mx & ex & Ex & _).
  destruct (positiveNormal_spec y Hy) as (my & ey & Ey & _).
  destruct (positiveNormal_spec _ Hz) as (mz & ez & Ez & Mz).
  rewrite (realOf_finite _ _ _ Ex), (realOf_finite _ _ _ Ey), (realOf_finite _ _ _ Ez).
  rewrite div_spec, Ex, Ey in Ez. unfold SF64div, SFdiv in Ez.
  unfold SFdiv_core_binary in Ez.
  set (e' := Z.min (fexp prec emax (Zdigits2 (Zpos mx) + ex - (Zdigits2 (Zpos my) + ey)))
                   (ex - ey)) in *.
  assert (HS : (0 <= ex - ey - e')%Z) by (subst e'; lia).
  set (m' := match (ex - ey - e')%Z with
             | Zpos _ => Z.shiftl (Zpos mx) (ex - ey - e')
             | Z0 => Zpos mx
             | Zneg _ => 0%Z
             end) in *.
  assert (M' : m' = (Zpos mx * 2 ^ (ex - ey - e'))%Z).
  { subst m'. destruct (ex - ey - e')%Z as [ | p | p] eqn:F.
    - change (2 ^ 0)%Z with 1%Z. lia.
    - rewrite Z.shiftl_mul_pow2 by lia. reflexivity.
    - lia. }
  pose proof (Z_div_mod m' (Zpos my) ltac:(lia)) as DM.
  destruct (Z.div_eucl m' (Zpos my)) as [q r].
  destruct DM as [DM1 DM2].
  assert (Q : (0 <= q)%Z).
  { assert (0 <= m')%Z by (rewrite M'; apply Z.mul_nonneg_nonneg; [lia | apply Z.pow_nonneg; lia]).
    nia. }
  apply (binary_round_aux_near _ _ _ _ m' (Zpos my)) in Ez; try lia.
  destruct Ez as (_ & He & HN).
  apply (near_close mz ez e' m' (Zpos my)); try assumption; try lia.
  rewrite M', mult_IZR, IZR_pow2 by lia.
  replace ex with ((ex - ey - e') + ey + e')%Z at 1 by lia.
  rewrite !powerRZ_add by lra.
  pose proof (powerRZ_2_pos ey). pose proof (powerRZ_2_pos e').
  pose proof (powerRZ_2_pos (ex - ey - e')).
  assert (0 < IZR (Zpos my)) by (apply IZR_lt; lia).
  field. split; lra.
Qed.

(** ** The algebra of [close] *)

Lemma q_bounds : 0 < 1 - / 2 ^ 52 <= 1.
Proof.
  assert (0 < / 2 ^ 52) by (apply Rinv_0_lt_compat; lra).
  assert (/ 2 ^ 52 < 1).
  { rewrite <- Rinv_1. apply Rinv_lt_contravar; lra. }
  lra.
Qed.

Lemma q_pow_bounds (k : nat) : 0 < (1 - / 2 ^ 52) ^ k <= 1.
Proof.
  pose proof q_bounds as Q. split.
  - apply pow_lt, Q.
  - apply Rle_trans with (1 ^ k); [apply pow_incr; lra | rewrite pow1; lra].
Qed.

Lemma close_refl (a : R) : 0 < a -> close 0 a a.
Proof. intro H. unfold close. rewrite pow_O. repeat split; lra. Qed.

Lemma close_weaken (j k : nat) (a b : R) : (j <= k)%nat -> close j a b -> close k a b.
Proof.
  intros L (Ha & Hb & H1 & H2).
  replace k with (j + (k - j))%nat by lia. unfold close. rewrite pow_add.
  pose proof (q_pow_bounds j) as Qj. pose proof (q_pow_bounds (k - j)) as Qk.
  set (x := (1 - / 2 ^ 52) ^ j) in *. set (y := (1 - / 2 ^ 52) ^ (k - j)) in *.
  repeat split; try assumption; nra.
Qed.

Lemma close_trans (j k : nat) (a b c : R) :
  close j a b -> close k b c -> close (j + k) a c.
Proof.
  intros (Ha & Hb & H1 & H2) (_ & Hc & H3 & H4).
  unfold close. rewrite pow_add.
  pose proof (q_pow_bounds j) as Qj. pose proof (q_pow_bounds k) as Qk.
  set (x := (1 - / 2 ^ 52) ^ j) in *. set (y := (1 - / 2 ^ 52) ^ k) in *.
  repeat split; try assumption.
  - apply Rle_trans with (x * b); [ | exact H1].
    rewrite Rmult_assoc. apply Rmult_le_compat_l; lra.
  - apply Rle_trans with (y * b); [ | exact H4].
    replace (x * y * a) with (y * (x * a)) by ring.
    apply Rmult_le_compat_l; lra.
Qed.

Lemma close_mul (j k : nat) (a a' b b' : R) :
  close j a a' -> close k b b' -> close (j + k) (a * b) (a' * b').
Proof.
  intros (Ha & Ha' & H1 & H2) (Hb & Hb' & H3 & H4).
  unfold close. rewrite pow_add.
  pose proof (q_pow_bounds j) as Qj. pose proof (q_pow_bounds k) as Qk.
  set (x := (1 - / 2 ^ 52) ^ j) in *. set (y := (1 - / 2 ^ 52) ^ k) in *.
  split; [apply Rmult_lt_0_compat; assumption | ].
  split; [apply Rmult_lt_0_compat; assumption | ].
  split.
  - replace (x * y * (a' * b')) with ((x * a') * (y * b')) by ring.
    apply Rmult_le_compat; try assumption; apply Rmult_le_pos; lra.
  - replace (x * y * (a * b)) with ((x * a) * (y * b)) by ring.
    apply Rmult_le_compat; try assumption; apply Rmult_le_pos; lra.
Qed.

Lemma close_inv (k : nat) (a a' : R) : close k a a' -> close k (/ a) (/ a').
Proof.
  intros (Ha & Ha' & H1 & H2).
  pose proof (q_pow_bounds k) as Qk. unfold close.
  set (x := (1 - / 2 ^ 52) ^ k) in *.
  assert (Ia : 0 < / a) by (apply Rinv_0_lt_compat; exact Ha).
  assert (Ia' : 0 < / a') by (apply Rinv_0_lt_compat; exact Ha').
  repeat split; try assumption.
  - (* x / a' <= / a, from x * a <= a' *)
    apply Rmult_le_reg_r with (a * a'); [apply Rmult_lt_0_compat; assumption | ].
    replace (x * / a' * (a * a')) with (x * a) by (field; lra).
    replace (/ a * (a * a')) with a' by (field; lra).
    exact H2.
  - apply Rmult_le_reg_r with (a * a'); [apply Rmult_lt_0_compat; assumption | ].
    replace (x * / a * (a * a')) with (x * a') by (field; lra).
    replace (/ a' * (a * a')) with a by (field; lra).
    exact H1.
Qed.

Lemma close_div (j k : nat) (a a' b b' : R) :
  close j a a' -> close k b b' -> close (j + k) (a / b) (a' / b').
Proof.
  intros A B. unfold Rdiv. apply close_mul; [exact A | apply close_inv, B].
Qed.

Lemma close_eq (k : nat) (a b b' : R) : b = b' -> close k a b -> close k a b'.
Proof. intros <-. exact (fun H => H). Qed.

(** Eight roundings stay within [2 ^ -48] of the value. *)
Lemma bernoulli (u : R) (k : nat) : 0 <= u <= 1 -> 1 - INR k * u <= (1 - u) ^ k.
Proof.
  intro H. induction k as [ | k IH].
  - cbn. lra.
  - rewrite S_INR. cbn [pow].
    assert (0 <= INR k) by apply pos_INR.
    assert (0 <= (1 - u) ^ k) by (apply pow_le; lra).
    nra.
Qed.

Lemma close_bound (a b : R) : close 8 a b -> Rabs (a - b) <= b / 2 ^ 48.
Proof.
  intros (Ha & Hb & H1 & H2).
  assert (U : 0 < / 2 ^ 52 < 1).
  { split; [apply Rinv_0_lt_compat; lra | ].
    rewrite <- Rinv_1. apply Rinv_lt_contravar; lra. }
  pose proof (bernoulli (/ 2 ^ 52) 8 ltac:(lra)) as B.
  replace (INR 8) with 8 in B by (cbn; lra).
  pose proof (q_pow_bounds 8) as Q.
  set (x := (1 - / 2 ^ 52) ^ 8) in *.
  assert (E : / 2 ^ 48 = 16 * / 2 ^ 52) by (field; lra).
  unfold Rdiv. rewrite E.
  set (u := / 2 ^ 52) in *.
  apply Rabs_le. split.
  - (* a >= x b >= (1 - 8 u) b *) nra.
  - (* x a <= b, so a (1 - 8 u) <= b *)
    assert (A : a * (1 - 8 * u) <= b) by nra.
    assert (G : 1 <= (1 - 8 * u) * (1 + 16 * u)).
    { assert (u <= / 16).
      { subst u. apply Rinv_le_contravar; lra. }
      nra. }
    nra.
Qed.

(** ** When the result is normal *)

Local Open Scope Z_scope.

(** A number of [k] bits is below [2 ^ k], and [k] is the only such number. *)
Lemma digits2_pos_gt (p : positive) : Zpos p < 2 ^ Zpos (digits2_pos p).
Proof.
  induction p as [p IH | p IH | ]; cbn [digits2_pos].
  - rewrite Pos2Z.inj_succ, Z.pow_succ_r by lia. lia.
  - rewrite Pos2Z.inj_succ, Z.pow_succ_r by lia. lia.
  - reflexivity.
Qed.

Lemma digits2_pos_unique (p : positive) (k : Z) :
  2 ^ (k - 1) <= Zpos p < 2 ^ k -> Zpos (digits2_pos p) = k.
Proof.
  intros [L U].
  pose proof (digits2_pos_le p) as L'. pose proof (digits2_pos_gt p) as U'.
  assert (K : 0 < k).
  { destruct (Z_lt_le_dec 0 k) as [ | N]; [assumption | ].
    assert (2 ^ k <= 1); [ | lia].
    destruct (Z.eq_dec k 0) as [-> | ]; [reflexivity | ].
    rewrite Z.pow_neg_r by lia. lia. }
  assert (A : Zpos (digits2_pos p) - 1 < k).
  { apply (Z.pow_lt_mono_r_iff 2); lia. }
  assert (B : k - 1 < Zpos (digits2_pos p)).
  { apply (Z.pow_lt_mono_r_iff 2); lia. }
  lia.
Qed.

Lemma shr_exponent (mrs mrs' : shr_record) (e n e' : Z) :
  shr mrs e n = (mrs', e') -> e' = e + Z.max 0 n.
Proof.
  unfold shr. destruct n as [ | p | p]; intro E; injection E as _ <-; lia.
Qed.

Lemma normalAt_positiveNormal (x : float) (lo hi : Z) :
  normalAt x lo hi -> positiveNormal x = true.
Proof.
  intros (m & e & E & M & _). unfold positiveNormal.
  rewrite classify_spec, E. unfold SF64classify, SFclassify.
  rewrite (digits2_pos_unique m 53 M). reflexivity.
Qed.

Lemma normalAt_widen (x : float) (lo hi lo' hi' : Z) :
  lo' <= lo -> hi <= hi' -> normalAt x lo hi -> normalAt x lo' hi'.
Proof.
  intros L H (m & e & E & M & R). exists m, e. repeat split; try assumption; lia.
Qed.

(** The rounding of a mantissa of at least 53 bits, within the range of the
    exponents: the result is finite and normal, and its exponent is the one
    that leaves 53 bits, or the next. *)
Lemma binary_round_aux_normal (sx : bool) (m : positive) (ex : Z) (l : location) :
  2 ^ 52 <= Zpos m ->
  -1074 <= Zpos (digits2_pos m) + ex - 53 ->
  Zpos (digits2_pos m) + ex - 53 < 971 ->
  exists m3 e3,
    binary_round_aux prec emax sx (Zpos m) ex l = S754_finite sx m3 e3 /\
    2 ^ 52 <= Zpos m3 < 2 ^ 53 /\
    Zpos (digits2_pos m) + ex - 53 <= e3 <= Zpos (digits2_pos m) + ex - 52.
Proof.
  intros Hm Hlo Hhi.
  pose proof (digits2_pos_le m) as DL. pose proof (digits2_pos_gt m) as DG.
  set (dg := Zpos (digits2_pos m)) in *.
  assert (D53 : 53 <= dg).
  { assert (52 < dg); [ | lia]. apply (Z.pow_lt_mono_r_iff 2); lia. }
  unfold binary_round_aux.
  destruct (shr_fexp prec emax (Zpos m) ex l) as [mrs1 e1] eqn:E1.
  destruct (shr_fexp prec emax (round_nearest_even (shr_m mrs1) (loc_of_shr_record mrs1))
              e1 loc_Exact) as [mrs2 e2] eqn:E2.
  unfold shr_fexp in E1. cbn [Zdigits2] in E1. fold dg in E1.
  replace (fexp prec emax (dg + ex) - ex) with (dg - 53) in E1
    by (unfold fexp, emin, prec, emax; lia).
  pose proof (shr_exponent _ _ _ _ _ E1) as X1.
  apply (shr_floor _ _ _ _ _ (Zpos m) 1) in E1; rewrite ?shr_m_of_loc; try lia.
  destruct E1 as (_ & P1 & B1).
  replace (e1 - ex) with (dg - 53) in B1 by lia.
  assert (M1 : 2 ^ 52 <= shr_m mrs1 < 2 ^ 53).
  { assert (Q : 0 < 2 ^ (dg - 53)) by (apply Z.pow_pos_nonneg; lia).
    assert (F1 : 2 ^ (dg - 1) = 2 ^ 52 * 2 ^ (dg - 53)).
    { rewrite <- Z.pow_add_r by lia. f_equal. lia. }
    assert (F2 : 2 ^ dg = 2 ^ 53 * 2 ^ (dg - 53)).
    { rewrite <- Z.pow_add_r by lia. f_equal. lia. }
    rewrite F1 in DL. rewrite F2 in DG.
    set (t := 2 ^ (dg - 53)) in *. rewrite Z.mul_1_r in B1.
    change (2 ^ 52) with 4503599627370496 in *.
    change (2 ^ 53) with 9007199254740992 in *.
    split; nia. }
  pose proof (round_nearest_even_near (shr_m mrs1) (loc_of_shr_record mrs1)) as R.
  set (m2 := round_nearest_even (shr_m mrs1) (loc_of_shr_record mrs1)) in *.
  assert (E1' : e1 = dg + ex - 53) by lia.
  destruct (Z.eq_dec m2 (2 ^ 53)) as [T | T].
  - (* the rounding carried into the next binade *)
    rewrite T in E2. unfold shr_fexp in E2.
    replace (fexp prec emax (Zdigits2 (2 ^ 53) + e1) - e1) with 1 in E2
      by (change (Zdigits2 (2 ^ 53)) with 54; unfold fexp, emin, prec, emax; lia).
    cbn in E2. injection E2 as <- <-. cbn [shr_m].
    replace (e1 + 1 <=? emax - prec) with true
      by (symmetry; apply Z.leb_le; unfold emax, prec; lia).
    eexists _, _. split; [reflexivity | ]. split; [ | lia].
    split; [discriminate | reflexivity].
  - assert (M2 : 2 ^ 52 <= m2 < 2 ^ 53) by lia.
    destruct m2 as [ | p2 | p2] eqn:EM; try lia.
    unfold shr_fexp in E2. cbn [Zdigits2] in E2.
    rewrite (digits2_pos_unique p2 53 M2) in E2.
    replace (fexp prec emax (53 + e1) - e1) with 0 in E2
      by (unfold fexp, emin, prec, emax; lia).
    cbn [shr shr_record_of_loc] in E2. injection E2 as <- <-. cbn [shr_m].
    replace (e1 <=? emax - prec) with true
      by (symmetry; apply Z.leb_le; unfold emax, prec; lia).
    exists p2, e1. split; [reflexivity | ]. split; [exact M2 | lia].
Qed.

Lemma mul_normalAt (x y : float) (a b c d : Z) :
  normalAt x a b -> normalAt y c d ->
  -1074 <= a + c + 52 -> b + d + 54 <= 971 ->
  normalAt (x * y)%float (a + c + 52) (b + d + 54).
Proof.
  intros (mx & ex & Ex & Mx & Rx) (my & ey & Ey & My & Ry) Lo Hi.
  assert (MM : 2 ^ 104 <= Zpos (mx * my) < 2 ^ 106).
  { rewrite Pos2Z.inj_mul.
    change (2 ^ 104) with (2 ^ 52 * 2 ^ 52). change (2 ^ 106) with (2 ^ 53 * 2 ^ 53).
    change (2 ^ 52) with 4503599627370496 in *.
    change (2 ^ 53) with 9007199254740992 in *. nia. }
  pose proof (digits2_pos_le (mx * my)) as DL.
  pose proof (digits2_pos_gt (mx * my)) as DG.
  assert (D : 105 <= Zpos (digits2_pos (mx * my)) <= 106).
  { split.
    - assert (104 < Zpos (digits2_pos (mx * my))); [ | lia].
      apply (Z.pow_lt_mono_r_iff 2); lia.
    - assert (Zpos (digits2_pos (mx * my)) - 1 < 106); [ | lia].
      apply (Z.pow_lt_mono_r_iff 2); lia. }
  destruct (binary_round_aux_normal (xorb false false) (mx * my) (ex + ey) loc_Exact)
    as (m3 & e3 & E3 & M3 & R3); try lia.
  exists m3, e3. split; [ | split; [exact M3 | lia]].
  rewrite mul_spec, Ex, Ey. exact E3.
Qed.

Lemma div_normalAt (x y : float) (a b c d : Z) :
  normalAt x a b -> normalAt y c d ->
  -1074 <= a - d - 53 -> b - c - 52 <= 970 ->
  normalAt (x / y)%float (a - d - 53) (b - c - 51).
Proof.
  intros (mx & ex & Ex & Mx & Rx) (my & ey & Ey & My & Ry) Lo Hi.
  rewrite <- (digits2_pos_unique mx 53 Mx) in Lo at 1.
  assert (Dx : Zpos (digits2_pos mx) = 53) by (apply digits2_pos_unique; exact Mx).
  assert (Dy : Zpos (digits2_pos my) = 53) by (apply digits2_pos_unique; exact My).
  unfold normalAt. rewrite div_spec, Ex, Ey. unfold SF64div, SFdiv, SFdiv_core_binary.
  cbn [Zdigits2]. rewrite Dx, Dy.
  replace (Z.min (fexp prec emax (53 + ex - (53 + ey))) (ex - ey)) with (ex - ey - 53)
    by (unfold fexp, emin, prec, emax; lia).
  replace (ex - ey - (ex - ey - 53)) with 53 by lia.
  rewrite Z.shiftl_mul_pow2 by lia.
  pose proof (Z_div_mod (Zpos mx * 2 ^ 53) (Zpos my) ltac:(lia)) as DM.
  destruct (Z.div_eucl (Zpos mx * 2 ^ 53) (Zpos my)) as [q r].
  destruct DM as [DM1 DM2].
  assert (Q : 2 ^ 52 <= q < 2 ^ 54).
  { change (2 ^ 54) with 18014398509481984.
    change (2 ^ 52) with 4503599627370496 in *.
    change (2 ^ 53) with 9007199254740992 in *. split; nia. }
  destruct q as [ | pq | pq]; try lia.
  pose proof (digits2_pos_le pq) as DL. pose proof (digits2_pos_gt pq) as DG.
  assert (D : 53 <= Zpos (digits2_pos pq) <= 54).
  { split.
    - assert (52 < Zpos (digits2_pos pq)); [ | lia].
      apply (Z.pow_lt_mono_r_iff 2); lia.
    - assert (Zpos (digits2_pos pq) - 1 < 54); [ | lia].
      apply (Z.pow_lt_mono_r_iff 2); lia. }
  destruct (binary_round_aux_normal (xorb false false) pq (ex - ey - 53)
              (new_location (Zpos my) r))
    as (m3 & e3 & E3 & M3 & R3); try lia.
  exists m3, e3. split; [exact E3 | ]. split; [exact M3 | lia].
Qed.

(** A number between [2^-100] and [2^100] is normal, with an exponent field
    between -152 and 48. *)
Lemma inRange_normalAt (x : float) : inRange x = true -> normalAt x (-152) 48.
Proof.
  unfold inRange. rewrite andb_true_iff, !leb_spec. unfold SFleb.
  replace (Prim2SF 0x1p-100) with (S754_finite false 4503599627370496 (-152)) by reflexivity.
  replace (Prim2SF 0x1p100) with (S754_finite false 4503599627370496 48) by reflexivity.
  pose proof (Prim2SF_valid x) as V.
  destruct (Prim2SF x) as [s | s | | s m e] eqn:E; cbn [SFcompare];
    try (intros [A B]; destruct s; discriminate); try (intros [A B]; discriminate).
  destruct s; [intros [A B]; discriminate | ].
  intros [A B].
  assert (L : -152 <= e).
  { clear B. revert A.
    destruct (Z.compare_spec (-152) e) as [C | C | C]; intro A;
      [lia | lia | discriminate A]. }
  assert (U : e <= 48).
  { clear A. revert B.
    destruct (Z.compare_spec e 48) as [C | C | C]; intro B;
      [lia | lia | discriminate B]. }
  exists m, e. split; [exact E | ]. split; [ | lia].
  cbn [valid_binary] in V. unfold bounded, canonical_mantissa in V.
  apply andb_true_iff in V. destruct V as [V _]. apply Z.eqb_eq in V.
  unfold fexp, emin, prec, emax in V.
  assert (D : Zpos (digits2_pos m) = 53) by lia.
  pose proof (digits2_pos_le m) as DL. pose proof (digits2_pos_gt m) as DG.
  rewrite D in DL, DG. exact (conj DL DG).
Qed.

End RoundingError.

(* ================================================================== *)
(** * The conversion round trip on binary64 numbers *)
(* ================================================================== *)

Module OpioidRoundTrip.
Import JS Opioid Binary64 RoundingError.
Local Open Scope list_scope.

Lemma realOf_24 : realOf 24 = 24%R.
Proof.
  unfold realOf.
  replace (Prim2SF 24) with (S754_finite false 6755399441055744 (-48)) by reflexivity.
  cbn [SF2R]. simpl powerRZ. lra.
Qed.

Lemma realOf_1 : realOf 1 = 1%R.
Proof.
  unfold realOf.
  replace (Prim2SF 1) with (S754_finite false 4503599627370496 (-52)) by reflexivity.
  cbn [SF2R]. simpl powerRZ. lra.
Qed.

Lemma realOf_pos (x : float) : positiveNormal x = true -> (0 < realOf x)%R.
Proof.
  intro H. destruct (positiveNormal_spec x H) as (m & e & E & _).
  rewrite (realOf_finite _ _ _ E).
  apply Rmult_lt_0_compat; [apply IZR_lt; lia | apply powerRZ_2_pos].
Qed.

Lemma exact (x : float) : positiveNormal x = true -> close 0 (realOf x) (realOf x).
Proof. intro H. apply close_refl, realOf_pos, H. Qed.

Lemma exact_24 : close 0 (realOf 24) 24%R.
Proof. rewrite realOf_24. apply close_refl. lra. Qed.

Lemma exact_1 : close 0 (realOf 1) 1%R.
Proof. rewrite realOf_1. apply close_refl. lra. Qed.

(** One more operation on two numbers that are close to [X] and [Y]. *)
Lemma mul_step (j k : nat) (x y : float) (X Y : R) :
  close j (realOf x) X -> close k (realOf y) Y ->
  positiveNormal x = true -> positiveNormal y = true ->
  positiveNormal (x * y)%float = true ->
  close (S (j + k)) (realOf (x * y)%float) (X * Y)%R.
Proof.
  intros Cx Cy Nx Ny Nz. change (S (j + k)) with (1 + (j + k))%nat.
  eapply close_trans; [apply mul_close; assumption | apply close_mul; assumption].
Qed.

Lemma div_step (j k : nat) (x y : float) (X Y : R) :
  close j (realOf x) X -> close k (realOf y) Y ->
  positiveNormal x = true -> positiveNormal y = true ->
  positiveNormal (x / y)%float = true ->
  close (S (j + k)) (realOf (x / y)%float) (X / Y)%R.
Proof.
  intros Cx Cy Nx Ny Nz. change (S (j + k)) with (1 + (j + k))%nat.
  eapply close_trans; [apply div_close; assumption | apply close_div; assumption].
Qed.

Lemma one_per_day : orElseNum (parseNumber (VNum 1)) 1 = 1%float.
Proof. vm_compute. reflexivity. Qed.

(** The four numbers of the round trip, operation by operation, when the
    converted dose reads back from its decimal string as itself. *)
Lemma round_trip_formulas (cs : list (string * drugMeta)) (e : entry) (tgt : string) :
  let src := metaOf cs (drug e) in
  let dst := metaOf cs tgt in
  let patch (m : drugMeta) := String.eqb (unit m) "mcg/hr" in
  let d := parseNumber (dose e) in
  let f := orElseNum (parseNumber (freqPerDay e)) 1 in
  let ome := entryToOME cs e in
  let converted := convertOMEtoTarget cs ome tgt in
  let there := target_value converted in
  let back := entryToOME cs (asEntry tgt converted) in
  parseNumber (VNum there) = there ->
  ome = (if patch src then d * 24 * coeff src else d * f * coeff src)%float /\
  there = (if patch dst then ome / (24 * coeff dst) else ome / coeff dst)%float /\
  back = (if patch dst then there * 24 * coeff dst else there * 1 * coeff dst)%float /\
  roundTrip cs e tgt
    = (if patch src then back / (24 * coeff src) else back / coeff src)%float.
Proof.
  intros src dst patch d f ome converted there back HR.
  split; [ | split; [ | split]].
  - unfold ome, entryToOME, patch. fold src d f.
    destruct (String.eqb (unit src) "mcg/hr"); reflexivity.
  - unfold there, converted, convertOMEtoTarget, patch. fold dst.
    destruct (String.eqb (unit dst) "mcg/hr"); reflexivity.
  - unfold back, entryToOME, asEntry, patch. cbn [drug dose freqPerDay]. fold dst.
    fold there. rewrite one_per_day, HR.
    destruct (String.eqb (unit dst) "mcg/hr"); reflexivity.
  - unfold roundTrip, patch. cbv zeta. fold ome. fold converted. fold back.
    unfold convertOMEtoTarget. fold src.
    destruct (String.eqb (unit src) "mcg/hr"); reflexivity.
Qed.

(** The round trip when nothing overflows or underflows: if the dose, the
    factor per day, the two coefficients and every product and quotient
    computed on the way are positive normal numbers, and the converted dose
    reads back as itself, the round trip is within [2^-48] of the dose per
    day, relatively.  Each of the at most 8 operations is within [2^-52]. *)
Lemma round_trip_when_normal (cs : list (string * drugMeta)) (e : entry) (tgt : string) :
  let src := metaOf cs (drug e) in
  let dst := metaOf cs tgt in
  let patch (m : drugMeta) := String.eqb (unit m) "mcg/hr" in
  let d := parseNumber (dose e) in
  let f := orElseNum (parseNumber (freqPerDay e)) 1 in
  let ome := entryToOME cs e in
  let converted := convertOMEtoTarget cs ome tgt in
  let there := target_value converted in
  let back := entryToOME cs (asEntry tgt converted) in
  forallb positiveNormal
    [ d; (if patch src then 24 else f); coeff src; coeff dst;
      (if patch src then d * 24 else d * f); ome;
      (if patch dst then 24 * coeff dst else coeff dst); there;
      (if patch dst then there * 24 else there * 1); back;
      (if patch src then 24 * coeff src else coeff src);
      roundTrip cs e tgt ]%float = true ->
  parseNumber (VNum there) = there ->
  (Rabs (realOf (roundTrip cs e tgt)
         - (if patch src then realOf d else realOf d * realOf f))
   <= (if patch src then realOf d else realOf d * realOf f) / 2 ^ 48)%R.
Proof.
  intros src dst patch d f ome converted there back HN HR.
  destruct (round_trip_formulas cs e tgt HR) as (Eome & Ethere & Eback & Ert).
  fold src dst d f ome converted there back in Eome, Ethere, Eback, Ert.
  subst patch. cbv beta in *.
  cbn [forallb] in HN. rewrite !andb_true_iff in HN.
  destruct HN as (Nd & Nk & Ns & Nt & Ndk & Nome & Ndt & Nthere & Ntk & Nback & Nds & Nrt & _).
  rewrite Ert in *. rewrite Eback in *. rewrite Ethere in *. rewrite Eome in *.
  clear Ert Eback Ethere Eome HR.
  pose proof (realOf_pos _ Ns) as Ps. pose proof (realOf_pos _ Nt) as Pt.
  pose proof (realOf_pos _ Nd) as Pd.
  assert (N24 : positiveNormal 24 = true) by reflexivity.
  assert (N1 : positiveNormal 1 = true) by reflexivity.
  apply close_bound.
  destruct (String.eqb (unit src) "mcg/hr"), (String.eqb (unit dst) "mcg/hr").
  - (* agent and target in mcg/hr *)
    pose proof (mul_step 0 0 _ _ _ _ (exact d Nd) exact_24 Nd N24 Ndk) as C1.
    pose proof (mul_step _ 0 _ _ _ _ C1 (exact _ Ns) Ndk Ns Nome) as C2.
    pose proof (mul_step 0 0 _ _ _ _ exact_24 (exact _ Nt) N24 Nt Ndt) as D1.
    pose proof (div_step _ _ _ _ _ _ C2 D1 Nome Ndt Nthere) as C3.
    pose proof (mul_step _ 0 _ _ _ _ C3 exact_24 Nthere N24 Ntk) as C4.
    pose proof (mul_step _ 0 _ _ _ _ C4 (exact _ Nt) Ntk Nt Nback) as C5.
    pose proof (mul_step 0 0 _ _ _ _ exact_24 (exact _ Ns) N24 Ns Nds) as D2.
    pose proof (div_step _ _ _ _ _ _ C5 D2 Nback Nds Nrt) as C6.
    apply (close_weaken _ 8) in C6; [ | cbn; lia].
    eapply close_eq; [ | exact C6]. field. lra.
  - (* agent in mcg/hr, target in mg *)
    pose proof (mul_step 0 0 _ _ _ _ (exact d Nd) exact_24 Nd N24 Ndk) as C1.
    pose proof (mul_step _ 0 _ _ _ _ C1 (exact _ Ns) Ndk Ns Nome) as C2.
    pose proof (div_step _ 0 _ _ _ _ C2 (exact _ Nt) Nome Nt Nthere) as C3.
    pose proof (mul_step _ 0 _ _ _ _ C3 exact_1 Nthere N1 Ntk) as C4.
    pose proof (mul_step _ 0 _ _ _ _ C4 (exact _ Nt) Ntk Nt Nback) as C5.
    pose proof (mul_step 0 0 _ _ _ _ exact_24 (exact _ Ns) N24 Ns Nds) as D2.
    pose proof (div_step _ _ _ _ _ _ C5 D2 Nback Nds Nrt) as C6.
    apply (close_weaken _ 8) in C6; [ | cbn; lia].
    eapply close_eq; [ | exact C6]. field. lra.
  - (* agent in mg, target in mcg/hr *)
    pose proof (realOf_pos _ Nk) as Pf.
    pose proof (mul_step 0 0 _ _ _ _ (exact d Nd) (exact f Nk) Nd Nk Ndk) as C1.
    pose proof (mul_step _ 0 _ _ _ _ C1 (exact _ Ns) Ndk Ns Nome) as C2.
    pose proof (mul_step 0 0 _ _ _ _ exact_24 (exact _ Nt) N24 Nt Ndt) as D1.
    pose proof (div_step _ _ _ _ _ _ C2 D1 Nome Ndt Nthere) as C3.
    pose proof (mul_step _ 0 _ _ _ _ C3 exact_24 Nthere N24 Ntk) as C4.
    pose proof (mul_step _ 0 _ _ _ _ C4 (exact _ Nt) Ntk Nt Nback) as C5.
    pose proof (div_step _ 0 _ _ _ _ C5 (exact _ Ns) Nback Ns Nrt) as C6.
    apply (close_weaken _ 8) in C6; [ | cbn; lia].
    eapply close_eq; [ | exact C6]. field. lra.
  - (* agent and target in mg *)
    pose proof (realOf_pos _ Nk) as Pf.
    pose proof (mul_step 0 0 _ _ _ _ (exact d Nd) (exact f Nk) Nd Nk Ndk) as C1.
    pose proof (mul_step _ 0 _ _ _ _ C1 (exact _ Ns) Ndk Ns Nome) as C2.
    pose proof (div_step _ 0 _ _ _ _ C2 (exact _ Nt) Nome Nt Nthere) as C3.
    pose proof (mul_step _ 0 _ _ _ _ C3 exact_1 Nthere N1 Ntk) as C4.
    pose proof (mul_step _ 0 _ _ _ _ C4 (exact _ Nt) Ntk Nt Nback) as C5.
    pose proof (div_step _ 0 _ _ _ _ C5 (exact _ Ns) Nback Ns Nrt) as C6.
    apply (close_weaken _ 8) in C6; [ | cbn; lia].
    eapply close_eq; [ | exact C6]. field. lra.
Qed.

Lemma normalAt_24 : normalAt 24 (-152) 48.
Proof.
  exists 6755399441055744%positive, (-48)%Z.
  split; [reflexivity | ]. split; [split; [discriminate | reflexivity] | lia].
Qed.

Lemma normalAt_1 : normalAt 1 (-152) 48.
Proof.
  exists 4503599627370496%positive, (-52)%Z.
  split; [reflexivity | ]. split; [split; [discriminate | reflexivity] | lia].
Qed.

(** C6, as the code has it.  Take an entry whose dose and frequency (a
    frequency of zero counting as 1; the frequency is not read for an agent
    in mcg/hr) are between [2^-100] and [2^100], an agent and a target whose
    coefficients are between [2^-100] and [2^100], and let the converted
    dose read back from its decimal string as itself.  Then converting the
    entry's OME to the target and that result back to the entry's agent
    returns the dose per day, [dose * frequency] (the dose itself for an
    agent in mcg/hr), within a relative error of [2^-48]: nothing overflows
    or underflows on the way, and each of the at most 8 multiplications and
    divisions is within [2^-52] of the exact one. *)
Theorem round_trip_daily_dose (cs : list (string * drugMeta)) (e : entry) (tgt : string) :
  let src := metaOf cs (drug e) in
  let dst := metaOf cs tgt in
  let patch (m : drugMeta) := String.eqb (unit m) "mcg/hr" in
  let d := parseNumber (dose e) in
  let f := orElseNum (parseNumber (freqPerDay e)) 1 in
  let there := target_value (convertOMEtoTarget cs (entryToOME cs e) tgt) in
  forallb inRange [ d; (if patch src then 24 else f); coeff src; coeff dst ]%float = true ->
  parseNumber (VNum there) = there ->
  (Rabs (realOf (roundTrip cs e tgt)
         - (if patch src then realOf d else realOf d * realOf f))
   <= (if patch src then realOf d else realOf d * realOf f) / 2 ^ 48)%R.
Proof.
  intros src dst patch d f there HI HR.
  apply round_trip_when_normal; [ | exact HR].
  destruct (round_trip_formulas cs e tgt HR) as (Eome & Ethere & Eback & Ert).
  fold src dst d f there in Eome, Ethere, Eback, Ert |- *.
  subst patch. cbv beta in *.
  cbn [forallb] in HI. rewrite !andb_true_iff in HI.
  destruct HI as (Id & Ik & Is & It & _).
  apply inRange_normalAt in Id, Ik, Is, It.
  pose proof normalAt_24 as A24. pose proof normalAt_1 as A1.
  rewrite Ert, Eback, Ethere, Eome.
  cbn [forallb].
  destruct (String.eqb (unit src) "mcg/hr"), (String.eqb (unit dst) "mcg/hr").
  - (* agent and target in mcg/hr *)
    pose proof (mul_normalAt _ _ _ _ _ _ Id A24 ltac:(lia) ltac:(lia)) as Adk.
    pose proof (mul_normalAt _ _ _ _ _ _ Adk Is ltac:(lia) ltac:(lia)) as Aome.
    pose proof (mul_normalAt _ _ _ _ _ _ A24 It ltac:(lia) ltac:(lia)) as Adt.
    pose proof (div_normalAt _ _ _ _ _ _ Aome Adt ltac:(lia) ltac:(lia)) as Ath.
    pose proof (mul_normalAt _ _ _ _ _ _ Ath A24 ltac:(lia) ltac:(lia)) as Atk.
    pose proof (mul_normalAt _ _ _ _ _ _ Atk It ltac:(lia) ltac:(lia)) as Ab.
    pose proof (mul_normalAt _ _ _ _ _ _ A24 Is ltac:(lia) ltac:(lia)) as Ads.
    pose proof (div_normalAt _ _ _ _ _ _ Ab Ads ltac:(lia) ltac:(lia)) as Art.
    rewrite (normalAt_positiveNormal _ _ _ Id), (normalAt_positiveNormal _ _ _ A24),
      (normalAt_positiveNormal _ _ _ Is), (normalAt_positiveNormal _ _ _ It),
      (normalAt_positiveNormal _ _ _ Adk), (normalAt_positiveNormal _ _ _ Aome),
      (normalAt_positiveNormal _ _ _ Adt), (normalAt_positiveNormal _ _ _ Ath),
      (normalAt_positiveNormal _ _ _ Atk), (normalAt_positiveNormal _ _ _ Ab),
      (normalAt_positiveNormal _ _ _ Ads), (normalAt_positiveNormal _ _ _ Art).
    reflexivity.
  - (* agent in mcg/hr, target in mg *)
    pose proof (mul_normalAt _ _ _ _ _ _ Id A24 ltac:(lia) ltac:(lia)) as Adk.
    pose proof (mul_normalAt _ _ _ _ _ _ Adk Is ltac:(lia) ltac:(lia)) as Aome.
    pose proof (div_normalAt _ _ _ _ _ _ Aome It ltac:(lia) ltac:(lia)) as Ath.
    pose proof (mul_normalAt _ _ _ _ _ _ Ath A1 ltac:(lia) ltac:(lia)) as Atk.
    pose proof (mul_normalAt _ _ _ _ _ _ Atk It ltac:(lia) ltac:(lia)) as Ab.
    pose proof (mul_normalAt _ _ _ _ _ _ A24 Is ltac:(lia) ltac:(lia)) as Ads.
    pose proof (div_normalAt _ _ _ _ _ _ Ab Ads ltac:(lia) ltac:(lia)) as Art.
    rewrite (normalAt_positiveNormal _ _ _ Id), (normalAt_positiveNormal _ _ _ A24),
      (normalAt_positiveNormal _ _ _ Is), (normalAt_positiveNormal _ _ _ It),
      (normalAt_positiveNormal _ _ _ Adk), (normalAt_positiveNormal _ _ _ Aome),
      (normalAt_positiveNormal _ _ _ Ath),
      (normalAt_positiveNormal _ _ _ Atk), (normalAt_positiveNormal _ _ _ Ab),
      (normalAt_positiveNormal _ _ _ Ads), (normalAt_positiveNormal _ _ _ Art).
    reflexivity.
  - (* agent in mg, target in mcg/hr *)
    pose proof (mul_normalAt _ _ _ _ _ _ Id Ik ltac:(lia) ltac:(lia)) as Adk.
    pose proof (mul_normalAt _ _ _ _ _ _ Adk Is ltac:(lia) ltac:(lia)) as Aome.
    pose proof (mul_normalAt _ _ _ _ _ _ A24 It ltac:(lia) ltac:(lia)) as Adt.
    pose proof (div_normalAt _ _ _ _ _ _ Aome Adt ltac:(lia) ltac:(lia)) as Ath.
    pose proof (mul_normalAt _ _ _ _ _ _ Ath A24 ltac:(lia) ltac:(lia)) as Atk.
    pose proof (mul_normalAt _ _ _ _ _ _ Atk It ltac:(lia) ltac:(lia)) as Ab.
    pose proof (div_normalAt _ _ _ _ _ _ Ab Is ltac:(lia) ltac:(lia)) as Art.
    rewrite (normalAt_positiveNormal _ _ _ Id), (normalAt_positiveNormal _ _ _ Ik),
      (normalAt_positiveNormal _ _ _ Is), (normalAt_positiveNormal _ _ _ It),
      (normalAt_positiveNormal _ _ _ Adk), (normalAt_positiveNormal _ _ _ Aome),
      (normalAt_positiveNormal _ _ _ Adt), (normalAt_positiveNormal _ _ _ Ath),
      (normalAt_positiveNormal _ _ _ Atk), (normalAt_positiveNormal _ _ _ Ab),
      (normalAt_positiveNormal _ _ _ Art).
    reflexivity.
  - (* agent and target in mg *)
    pose proof (mul_normalAt _ _ _ _ _ _ Id Ik ltac:(lia) ltac:(lia)) as Adk.
    pose proof (mul_normalAt _ _ _ _ _ _ Adk Is ltac:(lia) ltac:(lia)) as Aome.
    pose proof (div_normalAt _ _ _ _ _ _ Aome It ltac:(lia) ltac:(lia)) as Ath.
    pose proof (mul_normalAt _ _ _ _ _ _ Ath A1 ltac:(lia) ltac:(lia)) as Atk.
    pose proof (mul_normalAt _ _ _ _ _ _ Atk It ltac:(lia) ltac:(lia)) as Ab.
    pose proof (div_normalAt _ _ _ _ _ _ Ab Is ltac:(lia) ltac:(lia)) as Art.
    rewrite (normalAt_positiveNormal _ _ _ Id), (normalAt_positiveNormal _ _ _ Ik),
      (normalAt_positiveNormal _ _ _ Is), (normalAt_positiveNormal _ _ _ It),
      (normalAt_positiveNormal _ _ _ Adk), (normalAt_positiveNormal _ _ _ Aome),
      (normalAt_positiveNormal _ _ _ Ath),
      (normalAt_positiveNormal _ _ _ Atk), (normalAt_positiveNormal _ _ _ Ab),
      (normalAt_positiveNormal _ _ _ Art).
    reflexivity.
Qed.

(** Through [round_trip_daily_dose]: 30 mg of oral codeine 4 times a day,
    converted to oral tramadol and back, is 120 mg a day within [2^-48]; and
    a fentanyl patch of 25 mcg/hr, converted to oral oxycodone and back, is
    25 mcg/hr within [2^-48]. *)
Lemma round_trip_daily_dose_codeine :
  (Rabs (realOf (roundTrip defaultCoefficients scenario_codeine "Oral tramadol (mg)")
         - realOf 30 * realOf 4)
   <= realOf 30 * realOf 4 / 2 ^ 48)%R /\
  (Rabs (realOf (roundTrip defaultCoefficients scenario_fentanyl "Oral oxycodone (mg)")
         - realOf 25)
   <= realOf 25 / 2 ^ 48)%R.
Proof.
  split.
  - apply (round_trip_daily_dose defaultCoefficients scenario_codeine "Oral tramadol (mg)");
      vm_compute; reflexivity.
  - apply (round_trip_daily_dose defaultCoefficients scenario_fentanyl "Oral oxycodone (mg)");
      vm_compute; reflexivity.
Defined.

(** The converted dose reads back from its decimal string as itself for the
    default dose, 30 taken 4 times a day, of each registered agent with a
    coefficient above zero and each such target (64 pairs), and the
    registered coefficients above zero are between [2^-100] and [2^100]. *)
Example round_trip_conditions_registered_agents :
  let agents := filter (fun a => (0 <? coeff (snd a))%float) defaultCoefficients in
  forallb (fun a =>
    forallb (fun t =>
      let e := {| id := VNum 0; drug := fst a; dose := VStr "30";
                  entry_unit := unit (snd a); freqPerDay := VNum 4 |} in
      let there :=
        target_value (convertOMEtoTarget defaultCoefficients
                        (entryToOME defaultCoefficients e) (fst t)) in
      (inRange (coeff (snd a)) && (parseNumber (VNum there) =? there)%float)%bool)
      agents) agents = true /\
  List.length agents = 8%nat.
Proof. split; vm_compute; reflexivity. Qed.

End OpioidRoundTrip.

(* ================================================================== *)
(** * More facts about binary64 order, [Math.min] and [Math.max] *)
(* ================================================================== *)

Module FloatOrder.
Import JS.

Lemma is_nan_false_spec (a : float) : is_nan a = false -> Prim2SF a <> S754_nan.
Proof.
  unfold is_nan. rewrite eqb_spec. intros H E. rewrite E in H. discriminate.
Qed.

Lemma compare_defined (x y : spec_float) :
  x <> S754_nan -> y <> S754_nan -> exists c, SFcompare x y = Some c.
Proof.
  destruct x, y; intros Hx Hy; try congruence; simpl; eexists; reflexivity.
Qed.

Lemma leb_not_nan_l (a b : float) : (a <=? b)%float = true -> is_nan a = false.
Proof.
  rewrite leb_spec. unfold SFleb. intro H. apply FloatFacts.not_nan_is_nan.
  destruct (SFcompare (Prim2SF a) (Prim2SF b)) as [c | ] eqn:E; [ | discriminate].
  eapply FloatFacts.compare_not_nan_l, E.
Qed.

Lemma leb_not_nan_r (a b : float) : (a <=? b)%float = true -> is_nan b = false.
Proof.
  rewrite leb_spec. unfold SFleb. intro H. apply FloatFacts.not_nan_is_nan.
  destruct (SFcompare (Prim2SF a) (Prim2SF b)) as [c | ] eqn:E; [ | discriminate].
  eapply FloatFacts.compare_not_nan_r, E.
Qed.

(** Two numbers are ordered one way or the other. *)
Lemma not_ltb_leb (a b : float) :
  is_nan a = false -> is_nan b = false ->
  (a <? b)%float = false -> (b <=? a)%float = true.
Proof.
  intros Ha Hb. rewrite ltb_spec, leb_spec. unfold SFltb, SFleb.
  rewrite (FloatFacts.SFcompare_antisym (Prim2SF a) (Prim2SF b)).
  destruct (compare_defined _ _ (is_nan_false_spec a Ha) (is_nan_false_spec b Hb))
    as [c E].
  rewrite E. destruct c; simpl; congruence.
Qed.

Lemma leb_not_ltb (a b : float) : (a <=? b)%float = true -> (b <? a)%float = false.
Proof.
  rewrite ltb_spec, leb_spec. unfold SFltb, SFleb.
  rewrite (FloatFacts.SFcompare_antisym (Prim2SF a) (Prim2SF b)).
  destruct (SFcompare (Prim2SF a) (Prim2SF b)) as [[ | | ] | ]; simpl; congruence.
Qed.

Lemma ltb_leb (a b : float) : (a <? b)%float = true -> (a <=? b)%float = true.
Proof.
  intro H. rewrite leb_spec. unfold SFleb.
  rewrite (FloatFacts.ltb_compare _ _ H). reflexivity.
Qed.

(** What is not above zero fails the test [!n || n <= 0] the other way. *)
Lemma not_positive_rejected (n : float) :
  (0 <? n)%float = false -> (negb (truthyNum n) || (n <=? 0)%float)%bool = true.
Proof.
  intro H. destruct (is_nan n) eqn:E.
  - unfold truthyNum. rewrite E. reflexivity.
  - rewrite (not_ltb_leb 0 n eq_refl E H). apply orb_true_r.
Qed.

Lemma positive_accepted (n : float) :
  (0 <? n)%float = true -> (negb (truthyNum n) || (n <=? 0)%float)%bool = false.
Proof.
  intro H. rewrite (FloatFacts.positive_truthy n H), (FloatFacts.ltb_not_leb _ _ H).
  reflexivity.
Qed.

Lemma Math_min_cases (a b : float) :
  is_nan a = false -> is_nan b = false -> Math_min a b = a \/ Math_min a b = b.
Proof.
  intros Ha Hb. unfold Math_min. rewrite Ha, Hb. cbn [orb].
  destruct (a <? b)%float; [left; reflexivity | ].
  destruct (b <? a)%float; [right; reflexivity | ].
  destruct (get_sign a); [left | right]; reflexivity.
Qed.

Lemma Math_min_le_r (a b : float) :
  is_nan a = false -> is_nan b = false -> (Math_min a b <=? b)%float = true.
Proof.
  intros Ha Hb. unfold Math_min. rewrite Ha, Hb. cbn [orb].
  destruct (a <? b)%float eqn:E1; [apply ltb_leb, E1 | ].
  destruct (b <? a)%float eqn:E2; [apply FloatFacts.leb_refl, Hb | ].
  destruct (get_sign a).
  - apply not_ltb_leb; assumption.
  - apply FloatFacts.leb_refl, Hb.
Qed.

Lemma Math_min_le_l (a b : float) :
  is_nan a = false -> is_nan b = false -> (Math_min a b <=? a)%float = true.
Proof.
  intros Ha Hb. unfold Math_min. rewrite Ha, Hb. cbn [orb].
  destruct (a <? b)%float eqn:E1; [apply FloatFacts.leb_refl, Ha | ].
  destruct (b <? a)%float eqn:E2; [apply ltb_leb, E2 | ].
  destruct (get_sign a).
  - apply FloatFacts.leb_refl, Ha.
  - apply not_ltb_leb; assumption.
Qed.

Lemma Math_max_ge_l (a b : float) :
  is_nan a = false -> is_nan b = false -> (a <=? Math_max a b)%float = true.
Proof.
  intros Ha Hb. unfold Math_max. rewrite Ha, Hb. cbn [orb].
  destruct (a <? b)%float eqn:E1; [apply ltb_leb, E1 | ].
  destruct (b <? a)%float eqn:E2; [apply FloatFacts.leb_refl, Ha | ].
  destruct (get_sign a).
  - apply not_ltb_leb; assumption.
  - apply FloatFacts.leb_refl, Ha.
Qed.

(** [Math.max(h, 4)] is [h] above 4 and is at most 4 otherwise. *)
Lemma Math_max_4 (h : float) :
  is_nan h = false ->
  ((h <=? 4)%float = true /\ (Math_max h 4 <=? 4)%float = true) \/
  ((h <=? 4)%float = false /\ Math_max h 4 = h).
Proof.
  intro Hh. unfold Math_max. rewrite Hh. cbn [orb].
  change (is_nan 4) with false. cbv iota.
  destruct (h <? 4)%float eqn:E1.
  - left. split; [apply ltb_leb, E1 | reflexivity].
  - destruct (4 <? h)%float eqn:E2.
    + right. split; [apply FloatFacts.ltb_not_leb, E2 | reflexivity].
    + left. assert (L : (h <=? 4)%float = true) by (apply not_ltb_leb; auto).
      split; [exact L | ]. destruct (get_sign h); [reflexivity | exact L].
Qed.

(** Below the 4-hour point is not above the 24-hour point. *)
Lemma ltb_4_not_gt_24 (h : float) :
  (h <? 4)%float = true -> (24 <? h)%float = false.
Proof.
  intro H. destruct (24 <? h)%float eqn:E; [ | reflexivity].
  pose proof (FloatFacts.leb_24_not_leb_4 h (ltb_leb _ _ E)) as N.
  rewrite (ltb_leb _ _ H) in N. discriminate.
Qed.

End FloatOrder.

(* ================================================================== *)
(** * Opioid entries, coefficients and rejected totals *)
(* ================================================================== *)

Module OpioidEntryProps.
Import JS Opioid.
Local Open Scope list_scope.

Lemma removeCommas_app (s t : string) :
  removeCommas (s ++ t)%string = (removeCommas s ++ removeCommas t)%string.
Proof.
  induction s as [ | c s IH]; [reflexivity | ].
  cbn [String.append removeCommas]. destruct (Ascii.eqb c ","); rewrite IH; reflexivity.
Qed.

(** X1: [parseNumber] removes every comma and then reads the string as
    [parseFloat] does, with 0 for what cannot be read.  So a comma inserted
    anywhere does not change the number read; the result is never [NaN];
    whatever [parseFloat] cannot read once the commas are removed
    ([undefined], [null], the empty string, words) is read as 0; and a string
    without a comma that [parseFloat] can read keeps the value [parseFloat]
    gives it.  The commas are removed, not read as decimal marks: "1,5" is
    15. *)
Theorem parseNumber_commas (s t : string) (v : value) :
  parseNumber (VStr (s ++ "," ++ t)%string) = parseNumber (VStr (s ++ t)%string) /\
  is_nan (parseNumber v) = false /\
  (is_nan (parseFloat (VStr (removeCommas (ToString v)))) = true ->
   parseNumber v = 0%float) /\
  (removeCommas s = s -> is_nan (parseFloat (VStr s)) = false ->
   parseNumber (VStr s) = parseFloat (VStr s)) /\
  (parseNumber VUndefined = 0%float /\ parseNumber VNull = 0%float /\
   parseNumber (VStr "") = 0%float /\ parseNumber (VStr "abc") = 0%float) /\
  (parseNumber (VStr "1,234.5") = 1234.5%float /\
   parseNumber (VStr "1,5") = 15%float /\
   parseNumber (VStr "30") = 30%float /\
   parseNumber (VNum 2.5) = 2.5%float).
Proof.
  split; [ | split; [ | split; [ | split; [ | split]]]].
  - unfold parseNumber, ToString.
    rewrite !removeCommas_app.
    change (removeCommas ",") with ""%string. reflexivity.
  - unfold parseNumber.
    destruct (is_nan (parseFloatString (removeCommas (ToString v)))) eqn:E;
      [reflexivity | exact E].
  - unfold parseNumber, parseFloat, ToString at 1. intro E. rewrite E. reflexivity.
  - unfold parseNumber, parseFloat, ToString. intros C E. rewrite C, E. reflexivity.
  - repeat split; vm_compute; reflexivity.
  - repeat split; vm_compute; reflexivity.
Qed.

Lemma strictEq_str_refl (s : string) : strictEq (VStr s) (VStr s) = true.
Proof. apply String.eqb_refl. Qed.

(** X2: [removeEntry] removes exactly the entries that have the given id:
    none of the entries left has it and every entry with another id is left,
    so that nothing is removed when no entry has the id; the list never
    grows, removing again changes nothing, and the entries are treated one by
    one, in their order. *)
Theorem removeEntry_exact (i : value) (cur : list entry) :
  (forall e, In e (removeEntry i cur) <-> In e cur /\ strictEq (id e) i = false) /\
  ((forall e, In e cur -> strictEq (id e) i = false) -> removeEntry i cur = cur) /\
  (List.length (removeEntry i cur) <= List.length cur)%nat /\
  removeEntry i (removeEntry i cur) = removeEntry i cur /\
  (forall a b, removeEntry i (a ++ b) = removeEntry i a ++ removeEntry i b).
Proof.
  unfold removeEntry. split; [ | split; [ | split; [ | split]]].
  - intro e. rewrite filter_In, negb_true_iff. reflexivity.
  - intro H. induction cur as [ | e cur IH]; [reflexivity | ].
    cbn [filter]. rewrite (H e (or_introl eq_refl)). cbn [negb].
    rewrite IH; [reflexivity | ]. intros e' He'. apply H. right. exact He'.
  - induction cur as [ | e cur IH]; cbn [filter List.length]; [lia | ].
    destruct (negb (strictEq (id e) i)); cbn [List.length]; lia.
  - induction cur as [ | e cur IH]; [reflexivity | ].
    cbn [filter]. destruct (negb (strictEq (id e) i)) eqn:E; [ | exact IH].
    cbn [filter]. rewrite E, IH. reflexivity.
  - intros a b. apply filter_app.
Qed.

Lemma applyPatch_dose_only (e : entry) (d : value) :
  let p := {| patch_id := None; patch_drug := None; patch_dose := Some d;
              patch_unit := None; patch_freqPerDay := None |} in
  applyPatch e p =
  {| id := id e; drug := drug e; dose := d; entry_unit := entry_unit e;
     freqPerDay := freqPerDay e |}.
Proof. reflexivity. Qed.

(** X3: [updateEntry] changes only the entries that have the given id and
    keeps the number and the order of the entries: when no entry has the id
    the list is unchanged, and a patch of the dose gives the entry at each
    position the same id, drug, unit and frequency as before, with the new
    dose exactly where the id matches. *)
Theorem updateEntry_only_matching (i : value) (p : patch) (cur : list entry) :
  List.length (updateEntry i p cur) = List.length cur /\
  ((forall e, In e cur -> strictEq (id e) i = false) -> updateEntry i p cur = cur) /\
  (forall (d : value) (n : nat) (e : entry),
     nth_error cur n = Some e ->
     exists e',
       nth_error
         (updateEntry i {| patch_id := None; patch_drug := None; patch_dose := Some d;
                           patch_unit := None; patch_freqPerDay := None |} cur) n
         = Some e' /\
       id e' = id e /\ drug e' = drug e /\ entry_unit e' = entry_unit e /\
       freqPerDay e' = freqPerDay e /\
       dose e' = if strictEq (id e) i then d else dose e).
Proof.
  unfold updateEntry. split; [apply length_map | split].
  - intro H. induction cur as [ | e cur IH]; [reflexivity | ].
    cbn [map]. rewrite (H e (or_introl eq_refl)), IH; [reflexivity | ].
    intros e' He'. apply H. right. exact He'.
  - intros d n e Hn.
    eexists. split; [apply map_nth_error, Hn | ].
    destruct (strictEq (id e) i); repeat split; reflexivity.
Qed.

(** X4: adding an entry and removing it again gives back the entries, when
    the id drawn for the new entry is not the id of an entry already
    there. *)
Theorem removeEntry_addEntry (uid : string) (cur : list entry) :
  (forall e, In e cur -> strictEq (id e) (VStr uid) = false) ->
  removeEntry (VStr uid) (addEntry uid cur) = cur /\
  List.length (addEntry uid cur) = S (List.length cur).
Proof.
  intro H. split.
  - unfold addEntry, removeEntry. rewrite filter_app. cbn [filter id].
    rewrite strictEq_str_refl. cbn [negb]. rewrite app_nil_r.
    induction cur as [ | e cur IH]; [reflexivity | ].
    cbn [filter]. rewrite (H e (or_introl eq_refl)). cbn [negb].
    rewrite IH; [reflexivity | ]. intros e' He'. apply H. right. exact He'.
  - unfold addEntry. rewrite length_app. cbn [List.length]. lia.
Qed.

Lemma removeEntry_addEntry_default :
  removeEntry (VStr "k3x9q2a") (addEntry "k3x9q2a" (entries (initial 1700000000000)))
    = entries (initial 1700000000000) /\
  List.length (addEntry "k3x9q2a" (entries (initial 1700000000000))) = 2%nat.
Proof.
  apply (removeEntry_addEntry "k3x9q2a" (entries (initial 1700000000000))).
  intros e [E | []]. subst e. reflexivity.
Defined.

Lemma lookup_setKey_same {A : Type} (key : string) (a : A) (table : list (string * A)) :
  lookup key (setKey key a table) = Some a.
Proof.
  induction table as [ | [k b] rest IH]; cbn [setKey lookup].
  - rewrite String.eqb_refl. reflexivity.
  - destruct (String.eqb k key) eqn:E; cbn [lookup]; rewrite E; [reflexivity | exact IH].
Qed.

Lemma lookup_setKey_other {A : Type} (key key' : string) (a : A)
    (table : list (string * A)) :
  String.eqb key key' = false ->
  lookup key' (setKey key a table) = lookup key' table.
Proof.
  intro H. induction table as [ | [k b] rest IH]; cbn [setKey lookup].
  - rewrite H. reflexivity.
  - destruct (String.eqb k key) eqn:E; cbn [lookup].
    + apply String.eqb_eq in E. subst k. rewrite H. reflexivity.
    + destruct (String.eqb k key'); [reflexivity | exact IH].
Qed.

(** X5: after [updateCoefficient] the drug is registered with the number
    read from the new coefficient (zero when it cannot be read), every other
    drug keeps its coefficient and unit, and an entry of the drug is
    converted with the new coefficient. *)
Theorem updateCoefficient_lookup (drugKey : string) (newCoeff : value)
    (newUnit : option string) (c : list (string * drugMeta)) :
  coeff (metaOf (updateCoefficient drugKey newCoeff newUnit c) drugKey)
    = parseNumber newCoeff /\
  (forall u, newUnit = Some u -> u <> ""%string ->
     unit (metaOf (updateCoefficient drugKey newCoeff newUnit c) drugKey) = u) /\
  (forall key', String.eqb drugKey key' = false ->
     metaOf (updateCoefficient drugKey newCoeff newUnit c) key' = metaOf c key') /\
  (forall e, drug e = drugKey ->
     unit (metaOf (updateCoefficient drugKey newCoeff newUnit c) drugKey) = "mg"%string ->
     entryToOME (updateCoefficient drugKey newCoeff newUnit c) e
     = (parseNumber (dose e) * orElseNum (parseNumber (freqPerDay e)) 1
        * parseNumber newCoeff)%float).
Proof.
  assert (L : forall m, metaOf (setKey drugKey m c) drugKey = m).
  { intro m. unfold metaOf, getProperty. rewrite lookup_setKey_same. reflexivity. }
  split; [ | split; [ | split]].
  - unfold updateCoefficient. cbv zeta. rewrite L. reflexivity.
  - intros u -> Hu. unfold updateCoefficient. cbv zeta. rewrite L. cbn [unit].
    destruct (String.eqb u "") eqn:E; [ | reflexivity].
    apply String.eqb_eq in E. contradiction.
  - intros key' H. unfold updateCoefficient, metaOf, getProperty. cbv zeta.
    rewrite lookup_setKey_other by exact H. reflexivity.
  - intros e He Hu. unfold entryToOME. rewrite He, Hu.
    change (String.eqb "mg" "mcg/hr") with false. cbv iota.
    unfold updateCoefficient. cbv zeta. rewrite L. reflexivity.
Qed.

Lemma fold_total_nil (st : state) :
  entries st = [] -> calculateTotalOME st = 0%float.
Proof. intro H. unfold calculateTotalOME. rewrite H. reflexivity. Qed.

(** X6: [calculate] rejects every total OME that is not above zero (zero,
    negative or [NaN]): it shows the zero-total message and leaves the state
    as it was, so that nothing is added to the history.  With no entry at
    all the total is zero and the call is rejected. *)
Theorem calculate_rejects_total (now : string) (st : state) :
  (0 <? calculateTotalOME st)%float = false ->
  calculate now st = (st, [ToastError msg_zero]).
Proof.
  intro H. unfold calculate.
  rewrite (FloatOrder.not_positive_rejected _ H). reflexivity.
Qed.

Lemma calculate_rejects_no_entries :
  calculate "" (setEntries (initial 0) []) = (setEntries (initial 0) [], [ToastError msg_zero]).
Proof.
  apply (calculate_rejects_total "" (setEntries (initial 0) [])).
  rewrite fold_total_nil by reflexivity. reflexivity.
Defined.

End OpioidEntryProps.

(* ================================================================== *)
(** * The nomogram: warnings and early samples *)
(* ================================================================== *)

Module NomogramMoreProps.
Import JS Acetaminophen.
Local Open Scope list_scope.

Section Evaluation.

Variable Math_log10 : float -> float.
Variable Math_pow : float -> float -> float.
Variable Date_getTime : string -> float.

Lemma calculate_accepted (now : string) (st : state) (h : float) :
  computedHoursSince Date_getTime st = Some h ->
  is_nan h = false ->
  (negb (truthyNum (concentration_ugmL st)) || is_nan (concentration_ugmL st))%bool = false ->
  exists res,
    calculate Math_log10 Math_pow Date_getTime now st =
      ({| ingestionTime := ingestionTime st; sampleTime := sampleTime st;
          hoursSince := hoursSince st;
          concentrationValue := concentrationValue st;
          concentrationUnit := concentrationUnit st;
          weight := weight st; weightUnit := weightUnit st;
          history := res :: history st; current := Some res |},
       [ToastSuccess msg_done]) /\
    warnings res =
      (if (h <? 4)%float then [warn_before4] else [])
      ++ (if (24 <? h)%float then [warn_after24] else []) /\
    threshold_ugmL res =
      roundNumber Math_pow (nomogramThresholdAtHours Math_log10 Math_pow (Math_max h 4)) 3 /\
    action res =
      (if (nomogramThresholdAtHours Math_log10 Math_pow (Math_max h 4)
           <=? concentration_ugmL st)%float
       then "Treat (N‑acetylcysteine indicated)"
       else "No nomogram‑based treatment threshold reached")%string.
Proof.
  intros Hh Hn Hc. unfold calculate. rewrite Hh, Hn, Hc.
  eexists. repeat split.
Qed.

(** X7: an evaluated sample carries at most one timing warning: the
    before-4-hours warning exactly when the time is below 4 hours, the
    after-24-hours warning exactly when it is above 24 hours, and none from 4
    to 24 hours. *)
Theorem calculate_timing_warning (now : string) (st : state) (h : float) :
  computedHoursSince Date_getTime st = Some h ->
  is_nan h = false ->
  (negb (truthyNum (concentration_ugmL st)) || is_nan (concentration_ugmL st))%bool = false ->
  exists res,
    current (fst (calculate Math_log10 Math_pow Date_getTime now st)) = Some res /\
    warnings res =
      (if (h <? 4)%float then [warn_before4]
       else if (24 <? h)%float then [warn_after24]
       else []) /\
    (List.length (warnings res) <= 1)%nat.
Proof.
  intros Hh Hn Hc.
  destruct (calculate_accepted now st h Hh Hn Hc) as (res & E & W & _).
  exists res. rewrite E. cbn [fst current]. split; [reflexivity | ].
  rewrite W. destruct (h <? 4)%float eqn:E4.
  - rewrite (FloatOrder.ltb_4_not_gt_24 h E4). split; [reflexivity | cbn; lia].
  - destruct (24 <? h)%float; split; try reflexivity; cbn; lia.
Qed.

(** X8: the threshold that [calculate] compares with is the nomogram
    threshold at the time itself: clamping the time to at least 4 hours
    before the lookup changes nothing, since the nomogram already answers
    150 for every time up to 4 hours.  An evaluated sample is marked for
    treatment exactly when its concentration reaches that threshold. *)
Theorem calculate_threshold (now : string) (st : state) (h : float) :
  computedHoursSince Date_getTime st = Some h ->
  is_nan h = false ->
  (negb (truthyNum (concentration_ugmL st)) || is_nan (concentration_ugmL st))%bool = false ->
  nomogramThresholdAtHours Math_log10 Math_pow (Math_max h 4)
    = nomogramThresholdAtHours Math_log10 Math_pow h /\
  ((h <=? 4)%float = true ->
   nomogramThresholdAtHours Math_log10 Math_pow (Math_max h 4) = 150%float) /\
  exists res,
    current (fst (calculate Math_log10 Math_pow Date_getTime now st)) = Some res /\
    threshold_ugmL res = roundNumber Math_pow (nomogramThresholdAtHours Math_log10 Math_pow h) 3 /\
    action res =
      (if (nomogramThresholdAtHours Math_log10 Math_pow h <=? concentration_ugmL st)%float
       then "Treat (N‑acetylcysteine indicated)"
       else "No nomogram‑based treatment threshold reached")%string.
Proof.
  intros Hh Hn Hc.
  assert (M : nomogramThresholdAtHours Math_log10 Math_pow (Math_max h 4)
              = nomogramThresholdAtHours Math_log10 Math_pow h).
  { destruct (FloatOrder.Math_max_4 h Hn) as [[L1 L2] | [L1 L2]].
    - unfold nomogramThresholdAtHours, NOMO_T1. rewrite L1, L2. reflexivity.
    - rewrite L2. reflexivity. }
  split; [exact M | ]. split.
  - intro L. rewrite M. unfold nomogramThresholdAtHours, NOMO_T1. rewrite L. reflexivity.
  - destruct (calculate_accepted now st h Hh Hn Hc) as (res & E & _ & T & A).
    exists res. rewrite E. cbn [fst current]. rewrite <- M.
    split; [reflexivity | ]. split; assumption.
Qed.

End Evaluation.

(** A sample drawn 2 hours after ingestion: one warning, the one for early
    samples. *)
Lemma calculate_timing_warning_2h :
  exists res,
    current (fst (calculate example_log10 example_pow example_getTime "" (withHours "2")))
      = Some res /\
    warnings res = [warn_before4] /\
    (List.length (warnings res) <= 1)%nat.
Proof.
  destruct (calculate_timing_warning example_log10 example_pow example_getTime
              "" (withHours "2") 2) as (res & C & W & L);
    try (vm_compute; reflexivity).
  exists res. split; [exact C | ]. split; [ | exact L].
  rewrite W. reflexivity.
Defined.

(** The same sample: the threshold is the 4-hour value, 150. *)
Lemma calculate_threshold_2h :
  nomogramThresholdAtHours example_log10 example_pow (Math_max 2 4) = 150%float /\
  exists res,
    current (fst (calculate example_log10 example_pow example_getTime "" (withHours "2")))
      = Some res /\
    threshold_ugmL res = VNum 150 /\
    action res = "Treat (N‑acetylcysteine indicated)"%string.
Proof.
  destruct (calculate_threshold example_log10 example_pow example_getTime
              "" (withHours "2") 2) as (_ & T & res & C & R & A);
    try (vm_compute; reflexivity).
  split; [apply T; reflexivity | ].
  exists res. split; [exact C | ]. split.
  - rewrite R. vm_compute. reflexivity.
  - rewrite A. vm_compute. reflexivity.
Defined.

End NomogramMoreProps.

(* ================================================================== *)
(** * Paracetamol: refused weights and the bound on the dose *)
(* ================================================================== *)

Module TylenolMoreProps.
Import JS Tylenol.
Local Open Scope list_scope.

(** X10: the paracetamol calculator refuses every weight that is not above
    zero (zero, negative, not a number, missing): [calculate] shows the
    weight message and leaves the state as it was.  A weight above zero given
    in kg is accepted, and a result is stored. *)
Theorem calculate_refuses_weight (now : string) (st : state) :
  (0 <? parseFloat (weight st))%float = false ->
  toKg (weight st) (weightUnit st) = None /\
  calculate now st = (st, [ToastError msg_weight]) /\
  (forall st',
     (0 <? parseFloat (weight st'))%float = true -> weightUnit st' = "kg"%string ->
     calculate now st' =
       (setResult st' (compute now st' (parseFloat (weight st'))), [ToastSuccess msg_done])).
Proof.
  intro H.
  assert (K : toKg (weight st) (weightUnit st) = None).
  { unfold toKg. rewrite (FloatOrder.not_positive_rejected _ H). reflexivity. }
  split; [exact K | ]. split.
  - unfold calculate. rewrite K. reflexivity.
  - intros st' P U. unfold calculate, toKg.
    rewrite (FloatOrder.positive_accepted _ P), U.
    change (String.eqb "kg" "kg") with true. cbv iota.
    rewrite (FloatFacts.positive_truthy _ P). reflexivity.
Qed.

Lemma calculate_refuses_negative_weight :
  toKg (weight scenario_negative_weight) (weightUnit scenario_negative_weight) = None /\
  calculate "" scenario_negative_weight = (scenario_negative_weight, [ToastError msg_weight]).
Proof.
  destruct (calculate_refuses_weight "" scenario_negative_weight) as (K & C & _);
    [vm_compute; reflexivity | ].
  split; assumption.
Defined.

(** X11: when the raw dose and the cap are numbers, the single dose that is
    applied (before it is rounded for display) exceeds neither the cap nor
    the raw dose, and is one of the two. *)
Theorem applied_dose_bounded (st : state) (wKg : float) :
  is_nan (rawMg_of st wKg) = false ->
  is_nan (parseFloat (maxSingleMg st)) = false ->
  (appliedSingleMg_of st wKg <=? parseFloat (maxSingleMg st))%float = true /\
  (appliedSingleMg_of st wKg <=? rawMg_of st wKg)%float = true /\
  (appliedSingleMg_of st wKg = rawMg_of st wKg \/
   appliedSingleMg_of st wKg = parseFloat (maxSingleMg st)).
Proof.
  intros Hr Hc. unfold appliedSingleMg_of.
  split; [apply FloatOrder.Math_min_le_r; assumption | ].
  split; [apply FloatOrder.Math_min_le_l; assumption | ].
  apply FloatOrder.Math_min_cases; assumption.
Qed.

Lemma applied_dose_bounded_80kg :
  (appliedSingleMg_of scenario_80kg 80 <=? parseFloat (maxSingleMg scenario_80kg))%float = true /\
  (appliedSingleMg_of scenario_80kg 80 <=? rawMg_of scenario_80kg 80)%float = true /\
  (appliedSingleMg_of scenario_80kg 80 = rawMg_of scenario_80kg 80 \/
   appliedSingleMg_of scenario_80kg 80 = parseFloat (maxSingleMg scenario_80kg)).
Proof.
  apply (applied_dose_bounded scenario_80kg 80); vm_compute; reflexivity.
Defined.

End TylenolMoreProps.

(* ================================================================== *)
(** * Prednisolone: the maximum and the mg/kg value *)
(* ================================================================== *)

Module PrednisoloneMoreProps.
Import JS Prednisolone.
Local Open Scope list_scope.

Lemma run_custom (now : string) (st : state) (wKg : float) (form : formulation) :
  toKg (weight st) (weightUnit st) = Some wKg ->
  truthyNum wKg = true ->
  useCustom st = true ->
  (0 <? parseFloat (customMgPerKg st))%float = true ->
  lookup (formulationKey st) formulations = Some form ->
  exists res,
    run now st = Computed res /\
    appliedSingleMg res =
      (let raw := (wKg * parseFloat (customMgPerKg st))%float in
       let applied :=
         if (0 <? parseFloat (customMaxSingle st))%float
         then Math_min raw (parseFloat (customMaxSingle st)) else raw in
       (Math_round (applied * 100) / 100)%float) /\
    warnings res =
      (if (parseFloat (customMaxSingle st) <? wKg * parseFloat (customMgPerKg st))%float
       then [warn_capped (wKg * parseFloat (customMgPerKg st))%float
               (parseFloat (customMaxSingle st))] else [])
      ++ (if (wKg <? 1)%float then [warn_lowWeight] else []).
Proof.
  intros Hw Ht Hu Hm Hf. unfold run. rewrite Hw, Ht, Hu.
  cbn [negb]. rewrite (FloatOrder.positive_accepted _ Hm).
  unfold getProperty. rewrite Hf.
  eexists. repeat split.
Qed.

(** X12: in custom mode a maximum above zero bounds the single dose, while
    a maximum of zero or below is ignored: the dose is the raw dose
    [weight * mg/kg], and yet, the raw dose being above that maximum, the
    result carries the warning that the dose exceeds the maximum and was
    capped. *)
Theorem custom_maximum (now : string) (st : state) (wKg : float) (form : formulation) :
  toKg (weight st) (weightUnit st) = Some wKg ->
  truthyNum wKg = true ->
  useCustom st = true ->
  (0 <? parseFloat (customMgPerKg st))%float = true ->
  lookup (formulationKey st) formulations = Some form ->
  let raw := (wKg * parseFloat (customMgPerKg st))%float in
  let maxSingle := parseFloat (customMaxSingle st) in
  exists res,
    run now st = Computed res /\
    ((0 <? maxSingle)%float = true -> is_nan raw = false ->
       appliedSingleMg res = (Math_round (Math_min raw maxSingle * 100) / 100)%float /\
       (Math_min raw maxSingle <=? maxSingle)%float = true) /\
    ((maxSingle <=? 0)%float = true ->
       appliedSingleMg res = (Math_round (raw * 100) / 100)%float /\
       ((0 <? raw)%float = true -> In (warn_capped raw maxSingle) (warnings res))).
Proof.
  intros Hw Ht Hu Hm Hf raw maxSingle.
  destruct (run_custom now st wKg form Hw Ht Hu Hm Hf) as (res & R & A & W).
  exists res. split; [exact R | ]. split.
  - intros P N. rewrite A. cbv zeta. fold raw maxSingle. rewrite P.
    split; [reflexivity | ].
    apply FloatOrder.Math_min_le_r; [exact N | ].
    apply (FloatFacts.ltb_not_nan_r _ _ P).
  - intro L. rewrite A. cbv zeta. fold raw maxSingle.
    rewrite (FloatOrder.leb_not_ltb _ _ L). split; [reflexivity | ].
    intro P. rewrite W. fold raw maxSingle.
    assert (G : (maxSingle <? raw)%float = true).
    { destruct (maxSingle <? raw)%float eqn:E; [reflexivity | ].
      pose proof (FloatOrder.not_ltb_leb maxSingle raw
                    (FloatOrder.leb_not_nan_l _ _ L) (FloatFacts.ltb_not_nan_r _ _ P) E) as B.
      (* raw <= maxSingle <= 0 < raw *)
      exfalso.
      pose proof (FloatFacts.ltb_compare _ _ P) as C0.
      rewrite leb_spec in L, B. unfold SFleb in L, B.
      replace (Prim2SF 0) with (S754_zero false) in * by reflexivity.
      destruct (Prim2SF raw) as [sr | sr | | sr mr er];
        destruct (Prim2SF maxSingle) as [sm | sm | | sm mm em];
        cbn [SFcompare] in C0, L, B; try discriminate;
        destruct sr; try discriminate; destruct sm; discriminate. }
    rewrite G. apply in_or_app. left. left. reflexivity.
Qed.

(** A custom maximum of 0 for 15 kg at 2 mg/kg: 30 mg, not capped, with the
    cap warning. *)
Lemma custom_maximum_zero :
  exists res,
    run "" (customForm "2" "0") = Computed res /\
    appliedSingleMg res = 30%float /\
    In (warn_capped 30 0) (warnings res).
Proof.
  destruct (custom_maximum "" (customForm "2" "0") 15 (Syrup 5))
    as (res & R & _ & Z); try (vm_compute; reflexivity).
  exists res. split; [exact R | ].
  destruct Z as [A W]; [vm_compute; reflexivity | ].
  split.
  - rewrite A. vm_compute. reflexivity.
  - apply W. vm_compute. reflexivity.
Defined.

Lemma preset_lookup (key : string) :
  match getProperty key defaultPresets with
  | Own p =>
      (0 <? parseFloat (VNum (preset_mgPerKg p)))%float = true /\
      inheritedName key = false
  | Inherited => inheritedName key = true
  | Absent => inheritedName key = false
  end.
Proof.
  unfold getProperty, lookup, defaultPresets.
  repeat match goal with
         | |- context [String.eqb ?a key] =>
             destruct (String.eqb a key) eqn:?;
             [ match goal with
               | E : String.eqb _ key = true |- _ =>
                   apply String.eqb_eq in E; subst key; split; vm_compute; reflexivity
               end | ]
         end.
  destruct (inheritedName key); reflexivity.
Qed.

(** X13: a custom mg/kg value that is not above zero (zero, negative, not a
    number, missing) stops [calculate] with the mg/kg message once the weight
    is accepted, and the state is unchanged.  With a preset, the mg/kg value
    is refused exactly when the preset key names a member inherited from
    [Object.prototype] (such as [constructor]), which has no [mgPerKg]: the
    presets of the table pass, and so does every other key, for which the
    custom preset is taken. *)
Theorem mgPerKg_validation (now : string) (st : state) (wKg : float) :
  toKg (weight st) (weightUnit st) = Some wKg ->
  truthyNum wKg = true ->
  (useCustom st = true -> (0 <? parseFloat (customMgPerKg st))%float = false ->
     run now st = Rejected msg_mgPerKg /\
     calculate now st = Some (st, [ToastError msg_mgPerKg])) /\
  (useCustom st = false ->
     (run now st = Rejected msg_mgPerKg <-> inheritedName (presetKey st) = true) /\
     (inheritedName (presetKey st) = true ->
      calculate now st = Some (st, [ToastError msg_mgPerKg]))).
Proof.
  intros Hw Ht. split.
  - intros Hu Hm.
    assert (R : run now st = Rejected msg_mgPerKg).
    { unfold run. rewrite Hw, Ht, Hu. cbn [negb].
      rewrite (FloatOrder.not_positive_rejected _ Hm). reflexivity. }
    split; [exact R | ]. unfold calculate. rewrite R. reflexivity.
  - intro Hu.
    assert (R : run now st = Rejected msg_mgPerKg <-> inheritedName (presetKey st) = true).
    { unfold run. rewrite Hw, Ht, Hu. cbn [negb].
      pose proof (preset_lookup (presetKey st)) as P.
      destruct (getProperty (presetKey st) defaultPresets) as [p | | ];
        cbn [presetField].
      - destruct P as [P I]. rewrite (FloatOrder.positive_accepted _ P), I.
        split; [ | discriminate].
        destruct (getProperty (formulationKey st) formulations); discriminate.
      - rewrite P. split; reflexivity.
      - rewrite P.
        replace (negb (truthyNum (parseFloat (VNum (preset_mgPerKg customPreset))))
                 || (parseFloat (VNum (preset_mgPerKg customPreset)) <=? 0)%float)%bool
          with false by (vm_compute; reflexivity).
        split; [ | discriminate].
        destruct (getProperty (formulationKey st) formulations); discriminate. }
    split; [exact R | ].
    intro I. unfold calculate. rewrite (proj2 R I). reflexivity.
Qed.

(** The default form with 0 typed as the custom mg/kg, and the default form
    with the preset key [constructor]: both stop on the mg/kg message; with
    the preset [asthma], or with a key that names nothing, it does not. *)
Lemma mgPerKg_validation_zero :
  (run "" (customForm "0" "50") = Rejected msg_mgPerKg /\
   calculate "" (customForm "0" "50") = Some (customForm "0" "50", [ToastError msg_mgPerKg])) /\
  run "" (withPresetKey "constructor") = Rejected msg_mgPerKg /\
  run "" (withPresetKey "asthma") <> Rejected msg_mgPerKg /\
  run "" (withPresetKey "unknown") <> Rejected msg_mgPerKg.
Proof.
  split; [ | split; [ | split]].
  - destruct (mgPerKg_validation "" (customForm "0" "50") 15) as [H _];
      [vm_compute; reflexivity | vm_compute; reflexivity | ].
    apply H; vm_compute; reflexivity.
  - destruct (mgPerKg_validation "" (withPresetKey "constructor") 15) as [_ H];
      [vm_compute; reflexivity | vm_compute; reflexivity | ].
    destruct H as [[_ H] _]; [vm_compute; reflexivity | ].
    apply H. vm_compute. reflexivity.
  - destruct (mgPerKg_validation "" (withPresetKey "asthma") 15) as [_ H];
      [vm_compute; reflexivity | vm_compute; reflexivity | ].
    destruct H as [[H _] _]; [vm_compute; reflexivity | ].
    intro R. specialize (H R). vm_compute in H. discriminate H.
  - destruct (mgPerKg_validation "" (withPresetKey "unknown") 15) as [_ H];
      [vm_compute; reflexivity | vm_compute; reflexivity | ].
    destruct H as [[H _] _]; [vm_compute; reflexivity | ].
    intro R. specialize (H R). vm_compute in H. discriminate H.
Defined.

End PrednisoloneMoreProps.

(* ================================================================== *)
(** * Amoxicillin: the mg/kg/day used, the daily cap, the tablet count *)
(* ================================================================== *)

Module AmoxicillinProps.
Import JS Amoxicillin.
Local Open Scope list_scope.

Lemma chooseMgPerKgDay_cases (st : state) :
  truthy (selectedMgPerKgDay st) = true ->
  truthyNum (parseFloat (selectedMgPerKgDay st)) = true ->
  chooseMgPerKgDay st = inl (parseFloat (selectedMgPerKgDay st)) \/
  (chooseMgPerKgDay st = inr msg_custom /\
   String.eqb (strategy st) "standard" = false /\
   String.eqb (strategy st) "high" = false /\
   (0 <? parseFloat (customMgPerKgDay st))%float = false).
Proof.
  intros T N. unfold chooseMgPerKgDay. cbv zeta.
  destruct (String.eqb (strategy st) "standard");
    [left; rewrite T; unfold orElseNum; rewrite N; reflexivity | ].
  destruct (String.eqb (strategy st) "high");
    [left; rewrite T; unfold orElseNum; rewrite N; reflexivity | ].
  destruct (0 <? parseFloat (customMgPerKgDay st))%float eqn:E.
  - rewrite (FloatOrder.positive_accepted _ E).
    left. rewrite T. unfold orElseNum. rewrite N. reflexivity.
  - rewrite (FloatOrder.not_positive_rejected _ E).
    right. repeat split.
Qed.

Section Environment.

Variable Math_pow : float -> float -> float.

(** X14: the value of the mg/kg/day slider, when it reads as a number
    other than zero, is the one the dose is computed with, whatever the
    strategy: the 35 mg/kg/day of the standard strategy, the 45 of the high
    one and the custom value are all replaced by it.  Only an invalid custom
    value under the custom strategy still stops the calculation. *)
Theorem slider_overrides_strategy (now : string) (st : state) (wKg : float) :
  toKg (weight st) (weightUnit st) = Some wKg ->
  truthyNum wKg = true ->
  truthy (selectedMgPerKgDay st) = true ->
  truthyNum (parseFloat (selectedMgPerKgDay st)) = true ->
  let n := parseFloat (selectedMgPerKgDay st) in
  (exists res,
     current (fst (calculate Math_pow now st)) = Some res /\
     mgPerKgDay res = round Math_pow n 2 /\
     totalDailyMg res = round Math_pow (wKg * n) 2) \/
  (calculate Math_pow now st = (st, [ToastError msg_custom]) /\
   String.eqb (strategy st) "standard" = false /\
   String.eqb (strategy st) "high" = false /\
   (0 <? parseFloat (customMgPerKgDay st))%float = false).
Proof.
  intros Hw Ht T N n.
  destruct (chooseMgPerKgDay_cases st T N) as [E | (E & S1 & S2 & C)].
  - left. unfold calculate. rewrite Hw, Ht, E. cbn [negb fst].
    eexists. repeat split.
  - right. unfold calculate. rewrite Hw, Ht, E. repeat split; assumption.
Qed.

Lemma finalTotal_bounded (t : float) :
  is_nan t = false -> (finalTotal t <=? MAX_DAILY_MG)%float = true.
Proof.
  intro H. unfold finalTotal.
  destruct (MAX_DAILY_MG <? t)%float eqn:E; [reflexivity | ].
  apply FloatOrder.not_ltb_leb; [reflexivity | exact H | exact E].
Qed.

(** X15: the total daily dose that the per-dose amount is computed from,
    when it is a number, never exceeds the daily cap of 3000 mg.  When the
    weight-based total exceeds the cap, [calculate] still stores a result,
    computed from 3000 mg a day, puts it first in the history, and reports
    the capping through an error toast. *)
Theorem daily_cap (now : string) (st : state) (wKg m : float) :
  toKg (weight st) (weightUnit st) = Some wKg ->
  truthyNum wKg = true ->
  chooseMgPerKgDay st = inl m ->
  is_nan (wKg * m) = false ->
  (finalTotal (wKg * m) <=? MAX_DAILY_MG)%float = true /\
  ((MAX_DAILY_MG <? wKg * m)%float = true ->
   exists res,
     calculate Math_pow now st = (setResult st res, [ToastError (msg_capped Math_pow (wKg * m))]) /\
     history (setResult st res) = res :: history st /\
     exceedsDailyCap res = true /\
     finalTotalDailyMg res = round Math_pow MAX_DAILY_MG 2 /\
     perDoseMg res = round Math_pow (MAX_DAILY_MG / dosesPerDay_of st) 2).
Proof.
  intros Hw Ht Hm Hn. split.
  - apply finalTotal_bounded, Hn.
  - intro X. exists (compute Math_pow now st wKg m).
    unfold calculate. rewrite Hw, Ht, Hm. cbn [negb].
    unfold compute at 2. cbn [exceedsDailyCap]. rewrite X.
    split; [reflexivity | ]. split; [reflexivity | ].
    unfold compute, finalTotal. cbn [exceedsDailyCap finalTotalDailyMg perDoseMg].
    rewrite X. repeat split.
Qed.

(** X16: the suggested number of tablets is never negative: it is zero or
    more, or not a number. *)
Theorem tabletsRounded_not_negative (now : string) (st : state) (wKg m : float) :
  is_nan (tabletsRounded (compute Math_pow now st wKg m)) = true \/
  (0 <=? tabletsRounded (compute Math_pow now st wKg m))%float = true.
Proof.
  unfold compute. cbn [tabletsRounded].
  set (x := Math_round _).
  destruct (is_nan x) eqn:E.
  - left. unfold Math_max. rewrite E, orb_true_r. reflexivity.
  - right. apply FloatOrder.Math_max_ge_l; [reflexivity | exact E].
Qed.

End Environment.

(** The default form: the standard strategy is computed with the 25
    mg/kg/day of the slider, 300 mg a day for 12 kg. *)
Lemma slider_overrides_strategy_default :
  exists res,
    current (fst (calculate Acetaminophen.example_pow "" initial)) = Some res /\
    res_strategy res = "standard"%string /\
    mgPerKgDay res = 25%float /\
    totalDailyMg res = 300%float.
Proof.
  destruct (slider_overrides_strategy Acetaminophen.example_pow "" initial 12)
    as [(res & C & M & T) | (C & _)]; try (vm_compute; reflexivity).
  - exists res. split; [exact C | ]. split.
    + assert (E : Some res = current (fst (calculate Acetaminophen.example_pow "" initial)))
        by (symmetry; exact C).
      vm_compute in E. injection E as ->. reflexivity.
    + split; [rewrite M | rewrite T]; vm_compute; reflexivity.
  - vm_compute in C. discriminate.
Defined.

(** 200 kg at 25 mg/kg/day: 5000 mg a day, computed from 3000 mg. *)
Lemma daily_cap_200kg :
  (finalTotal (200 * 25) <=? MAX_DAILY_MG)%float = true /\
  exists res,
    calculate Acetaminophen.example_pow "" (withWeight "200")
      = (setResult (withWeight "200") res,
         [ToastError "Calculated daily mg (5000) exceeds daily cap (3000 mg). Dose scaled to cap."]) /\
    finalTotalDailyMg res = 3000%float /\
    perDoseMg res = 1500%float.
Proof.
  destruct (daily_cap Acetaminophen.example_pow "" (withWeight "200") 200 25)
    as (B & H); try (vm_compute; reflexivity).
  split; [exact B | ].
  destruct H as (res & C & _ & _ & F & P); [vm_compute; reflexivity | ].
  exists res. split; [rewrite C; vm_compute; reflexivity | ].
  split; [rewrite F | rewrite P]; vm_compute; reflexivity.
Defined.

End AmoxicillinProps.

(* ================================================================== *)
(** * The pediatric dose form *)
(* ================================================================== *)

Module PediatricDoseProps.
Import JS PediatricDose.
Local Open Scope list_scope.

(** X17: [calculateDose] computes no dose and leaves the state as it was
    when it shows a notice: an error when the age, the weight or the drug is
    missing, a warning when the drug is not in the reference list, and an
    information when the drug is the custom one, which has no mg/kg. *)
Theorem calculateDose_stops (st : state) :
  (snd (calculateDose st) <> [] -> fst (calculateDose st) = st) /\
  (truthy (age st) = false \/ truthy (weight st) = false \/ drug st = ""%string ->
   calculateDose st = (st, [NoticeError msg_required])) /\
  (truthy (age st) = true -> truthy (weight st) = true -> drug st <> ""%string ->
   (findMedication (drug st) = None ->
    calculateDose st = (st, [NoticeWarning msg_unknown])) /\
   (drug st = "Other (Custom…)"%string ->
    calculateDose st = (st, [NoticeInfo msg_custom]))).
Proof.
  split; [ | split].
  - unfold calculateDose.
    destruct (negb (truthy (age st)) || negb (truthy (weight st)) || String.eqb (drug st) "")%bool;
      [reflexivity | ].
    destruct (findMedication (drug st)) as [med | ]; [ | reflexivity].
    destruct (negb (truthyNum (mgPerKg med)) || (mgPerKg med =? 0)%float)%bool;
      [reflexivity | ].
    cbn [snd]. intro H. contradiction H. reflexivity.
  - intros [H | [H | H]]; unfold calculateDose; rewrite H.
    + reflexivity.
    + rewrite orb_true_r. reflexivity.
    + rewrite orb_true_r. reflexivity.
  - intros Ha Hw Hd. unfold calculateDose. rewrite Ha, Hw. cbn [negb orb].
    assert (E : String.eqb (drug st) "" = false).
    { destruct (String.eqb (drug st) "") eqn:E; [ | reflexivity].
      apply String.eqb_eq in E. contradiction. }
    rewrite E. split.
    + intro F. rewrite F. reflexivity.
    + intro C. rewrite C. reflexivity.
Qed.

Lemma listed_medication (d : string) (med : medication) :
  findMedication d = Some med ->
  (negb (truthyNum (mgPerKg med)) || (mgPerKg med =? 0)%float)%bool = false ->
  truthyNum (maxDose med) = true /\ is_nan (maxDose med) = false.
Proof.
  unfold findMedication. intros F G.
  apply find_some in F. destruct F as [I _].
  unfold medications in I. cbn [In] in I.
  destruct I as [<- | [<- | [<- | [<- | [<- | []]]]]];
    try (split; vm_compute; reflexivity).
  vm_compute in G. discriminate.
Qed.

(** X18: for a drug of the reference list with an mg/kg value, the dose
    that [calculateDose] stores never exceeds the maximum dose of the drug,
    whenever the weight-based dose is a number; the dose is stored with two
    decimals and no notice is shown. *)
Theorem dose_bounded (st : state) (med : medication) :
  findMedication (drug st) = Some med ->
  (negb (truthyNum (mgPerKg med)) || (mgPerKg med =? 0)%float)%bool = false ->
  is_nan (weightInKg st * mgPerKg med) = false ->
  (finalDose st med <=? maxDose med)%float = true /\
  (truthy (age st) = true -> truthy (weight st) = true -> drug st <> ""%string ->
   calculateDose st =
     ({| age := age st; weight := weight st; weightUnit := weightUnit st;
         drug := drug st; dose := VStr (Number_toFixed (finalDose st med) 2) |}, [])).
Proof.
  intros F G N. destruct (listed_medication _ _ F G) as [T M]. split.
  - unfold finalDose. rewrite T. apply FloatOrder.Math_min_le_r; assumption.
  - intros Ha Hw Hd. unfold calculateDose. rewrite Ha, Hw. cbn [negb orb].
    destruct (String.eqb (drug st) "") eqn:E.
    + apply String.eqb_eq in E. contradiction.
    + rewrite F, G. reflexivity.
Qed.

(** 60 kg of ibuprofen at 10 mg/kg: 600 mg, stored as the maximum 400 mg. *)
Lemma dose_bounded_ibuprofen :
  exists med,
    findMedication "Ibuprofen" = Some med /\
    (weightInKg (filled "60" "Ibuprofen") * mgPerKg med)%float = 600%float /\
    (finalDose (filled "60" "Ibuprofen") med <=? maxDose med)%float = true /\
    dose (fst (calculateDose (filled "60" "Ibuprofen"))) = VStr "400.00".
Proof.
  eexists. split; [vm_compute; reflexivity | ].
  split; [vm_compute; reflexivity | ].
  match goal with
  | |- (finalDose ?st ?med <=? _)%float = true /\ _ =>
      destruct (dose_bounded st med) as [B C]; try (vm_compute; reflexivity)
  end.
  split; [exact B | ].
  rewrite C; try (vm_compute; reflexivity).
  cbn [filled drug]. discriminate.
Defined.

End PediatricDoseProps.

(* ================================================================== *)
(** * The time since ingestion *)
(* ================================================================== *)

Module HoursProps.
Import JS Acetaminophen.
Local Open Scope list_scope.

Section Environment.

Variable Math_log10 : float -> float.
Variable Math_pow : float -> float -> float.
Variable Date_getTime : string -> float.

(** X19: a readable number in the hours field is the time since ingestion,
    whatever the two time fields hold.  Without it both times are needed:
    when one of them is empty or is not a date, there is no time since
    ingestion and [calculate] stops with the time message, leaving the state
    as it was; when both are dates the time is their difference in hours,
    sample minus ingestion. *)
Theorem hours_or_both_times (now : string) (st : state) :
  (truthy (hoursSince st) = true -> is_nan (parseFloat (hoursSince st)) = false ->
   computedHoursSince Date_getTime st = Some (parseFloat (hoursSince st))) /\
  ((truthy (hoursSince st) && negb (is_nan (parseFloat (hoursSince st))))%bool = false ->
   (ingestionTime st = ""%string \/ sampleTime st = ""%string \/
    is_nan (Date_getTime (ingestionTime st)) = true \/
    is_nan (Date_getTime (sampleTime st)) = true ->
    computedHoursSince Date_getTime st = None /\
    calculate Math_log10 Math_pow Date_getTime now st = (st, [ToastError msg_time])) /\
   (ingestionTime st <> ""%string -> sampleTime st <> ""%string ->
    is_nan (Date_getTime (ingestionTime st)) = false ->
    is_nan (Date_getTime (sampleTime st)) = false ->
    computedHoursSince Date_getTime st =
      Some ((Date_getTime (sampleTime st) - Date_getTime (ingestionTime st))
            / (1000 * 60 * 60))%float)).
Proof.
  split; [ | intro H; split].
  - intros T N. unfold computedHoursSince. rewrite T, N. reflexivity.
  - intro D.
    assert (C : computedHoursSince Date_getTime st = None).
    { unfold computedHoursSince, parseDateTimeLocal. rewrite H.
      destruct D as [D | [D | [D | D]]].
      - rewrite D. reflexivity.
      - rewrite D. cbn [String.eqb].
        destruct (String.eqb (ingestionTime st) ""); [reflexivity | ].
        destruct (is_nan (Date_getTime (ingestionTime st))); reflexivity.
      - rewrite D. destruct (String.eqb (ingestionTime st) ""); reflexivity.
      - rewrite D.
        destruct (String.eqb (ingestionTime st) ""); [reflexivity | ].
        destruct (is_nan (Date_getTime (ingestionTime st))); [reflexivity | ].
        destruct (String.eqb (sampleTime st) ""); reflexivity. }
    split; [exact C | ]. unfold calculate. rewrite C. reflexivity.
  - intros I S NI NS. unfold computedHoursSince, parseDateTimeLocal, diffHours.
    rewrite H, NI, NS.
    destruct (String.eqb (ingestionTime st) "") eqn:EI;
      [apply String.eqb_eq in EI; contradiction | ].
    destruct (String.eqb (sampleTime st) "") eqn:ES;
      [apply String.eqb_eq in ES; contradiction | ].
    reflexivity.
Qed.

End Environment.

End HoursProps.
